(** * Radar service data logger: lifecycle and acquisition loop

    Shallow embedding of [rpi_xc112/source/acc_service_data_logger.c]:
    option parsing, the three configuration builders, the three
    [execute_*] functions (create, activate, poll loop, deactivate,
    destroy) and [main].

    Every call that leaves the program (the service API, the HAL, libc
    I/O) is recorded as an [event]; a run yields the list of events it
    performed together with its result.  The answers of the outside
    world are taken from two records, [provider] and [platform]. *)

From Stdlib Require Import ZArith List Bool Ascii String DecimalString QArith Qround Qabs Lia Arith.
From Stdlib Require DecimalPos DecimalN.
Import ListNotations.
Open Scope string_scope.
Open Scope list_scope.
Open Scope Z_scope.

(** ** Characters and text *)

Definition TAB : ascii := "009"%char.
Definition NL : ascii := "010"%char.
Definition tab : string := String TAB EmptyString.
Definition nl : string := String NL EmptyString.

Fixpoint count_char (c : ascii) (s : string) : nat :=
  match s with
  | EmptyString => O
  | String a r => ((if Ascii.eqb a c then 1 else 0) + count_char c r)%nat
  end.

(** [%u] of an [unsigned int]: decimal digits, no sign, no padding. *)
Definition print_u (x : Z) : string :=
  NilZero.string_of_uint (N.to_uint (Z.to_N x)).

(** ** Machine integers *)

Definition uint16 (x : Z) : Z := x mod 65536.
Definition uint32 (x : Z) : Z := x mod 4294967296.
(** Conversion of a [long] to [int] (two's complement, 32 bits). *)
Definition int32 (x : Z) : Z := (x + 2147483648) mod 4294967296 - 2147483648.

(** ** libc: [atoi]

    [atoi(s)] is [(int) strtol(s, NULL, 10)]: leading white space is
    skipped, an optional sign is read, then the longest run of decimal
    digits; the [long] result saturates. *)

Definition is_space (c : ascii) : bool :=
  let n := nat_of_ascii c in
  (Nat.eqb n 32 || (Nat.leb 9 n && Nat.leb n 13))%bool.

Definition digit_of (c : ascii) : option Z :=
  let n := nat_of_ascii c in
  if (Nat.leb 48 n && Nat.leb n 57)%bool then Some (Z.of_nat (n - 48)) else None.

Fixpoint skip_space (s : string) : string :=
  match s with
  | String c r => if is_space c then skip_space r else s
  | EmptyString => s
  end.

Fixpoint digits_value (acc : Z) (s : string) : Z :=
  match s with
  | String c r =>
      match digit_of c with
      | Some d => digits_value (10 * acc + d) r
      | None => acc
      end
  | EmptyString => acc
  end.

Definition LONG_MAX : Z := 9223372036854775807.
Definition LONG_MIN : Z := -9223372036854775808.

Definition strtol (s : string) : Z :=
  let v :=
    match skip_space s with
    | String "-" r => - digits_value 0 r
    | String "+" r => digits_value 0 r
    | t => digits_value 0 t
    end in
  Z.max LONG_MIN (Z.min LONG_MAX v).

Definition atoi (s : string) : Z := int32 (strtol s).

(** ** Floating point

    [float] values are only moved around, compared with constants and
    printed; their arithmetic is kept abstract.  [PRIfloat] stands for
    the text produced by the [PRIfloat] format applied to
    [ACC_LOG_FLOAT_TO_INTEGER(x)], both macros of [acc_log.h]. *)

Class FloatOps := {
  float : Type;
  float_of_Q : Q -> float;
  strtof : string -> float;
  fsub : float -> float -> float;
  fltb : float -> float -> bool;
  fleb : float -> float -> bool;
  PRIfloat : float -> string
}.

(** ** Data model *)

Inductive service_type_t := INVALID_SERVICE | POWER_BIN | ENVELOPE | IQ.

Inductive acc_log_level_t := ACC_LOG_LEVEL_ERROR | ACC_LOG_LEVEL_VERBOSE.

(** ** The interrupt flag

    [volatile sig_atomic_t interrupted = 0], written by the signal
    handler only. *)

Definition SIGINT : Z := 2.                  (* <signal.h> *)

(** The value of [interrupted] after [interrupt_handler(signum)]. *)
Definition interrupt_handler (signum : Z) (interrupted : Z) : Z :=
  if signum =? SIGINT then 1 else interrupted.

(** The flag after the handler ran for each signal of a list, oldest first. *)
Definition deliver (signals : list Z) (interrupted : Z) : Z :=
  fold_left (fun flag signum => interrupt_handler signum flag) signals interrupted.

(** The flag at the evaluation of the loop condition that follows [k]
    completed iterations; [arrivals 0] are the signals handled before
    the first evaluation, [arrivals (S i)] those handled during
    iteration [i]. *)
Fixpoint flag_at (arrivals : nat -> list Z) (k : nat) : Z :=
  match k with
  | O => deliver (arrivals O) 0
  | S k' => deliver (arrivals k) (flag_at arrivals k')
  end.

Section Logger.

Context {F : FloatOps}.

Record input_t := {
  service_type : service_type_t;
  update_count : Z;                (* uint16_t *)
  wait_for_interrupt : bool;
  start_m : float;
  end_m : float;
  frequency : float;
  n_bins : Z;
  gain : float;
  service_profile : Z;             (* uint32_t *)
  running_avg : float;
  sensor : Z;
  log_level : acc_log_level_t;
  file_path : option string        (* None is NULL *)
}.

Definition DEFAULT_UPDATE_COUNT : Z := 0.
Definition DEFAULT_WAIT_FOR_INTERRUPT : bool := true.
Definition DEFAULT_RANGE_START_M : float := float_of_Q (7 # 100).
Definition DEFAULT_RANGE_END_M : float := float_of_Q (1 # 2).
Definition DEFAULT_N_BINS : Z := 10.
Definition DEFAULT_SERVICE_PROFILE : Z := 0.
Definition DEFAULT_GAIN : float := float_of_Q (-1).
Definition DEFAULT_FREQUENCY : float := float_of_Q 10.
Definition DEFAULT_RUNNING_AVG : float := float_of_Q (-1).
Definition DEFAULT_SENSOR : Z := 1.
Definition DEFAULT_LOG_LEVEL : acc_log_level_t := ACC_LOG_LEVEL_ERROR.

Definition initialize_input : input_t :=
  {| service_type := INVALID_SERVICE;
     update_count := DEFAULT_UPDATE_COUNT;
     wait_for_interrupt := DEFAULT_WAIT_FOR_INTERRUPT;
     start_m := DEFAULT_RANGE_START_M;
     end_m := DEFAULT_RANGE_END_M;
     frequency := DEFAULT_FREQUENCY;
     n_bins := DEFAULT_N_BINS;
     gain := DEFAULT_GAIN;
     service_profile := DEFAULT_SERVICE_PROFILE;
     running_avg := DEFAULT_RUNNING_AVG;
     sensor := DEFAULT_SENSOR;
     log_level := DEFAULT_LOG_LEVEL;
     file_path := None |}.

(** Field assignments [input->f = v]. *)
Definition set_service_type (v : service_type_t) (i : input_t) : input_t :=
  {| service_type := v; update_count := update_count i;
     wait_for_interrupt := wait_for_interrupt i; start_m := start_m i;
     end_m := end_m i; frequency := frequency i; n_bins := n_bins i;
     gain := gain i; service_profile := service_profile i;
     running_avg := running_avg i; sensor := sensor i;
     log_level := log_level i; file_path := file_path i |}.

Definition set_update_count (v : Z) (i : input_t) : input_t :=
  {| service_type := service_type i; update_count := v;
     wait_for_interrupt := wait_for_interrupt i; start_m := start_m i;
     end_m := end_m i; frequency := frequency i; n_bins := n_bins i;
     gain := gain i; service_profile := service_profile i;
     running_avg := running_avg i; sensor := sensor i;
     log_level := log_level i; file_path := file_path i |}.

Definition set_wait_for_interrupt (v : bool) (i : input_t) : input_t :=
  {| service_type := service_type i; update_count := update_count i;
     wait_for_interrupt := v; start_m := start_m i;
     end_m := end_m i; frequency := frequency i; n_bins := n_bins i;
     gain := gain i; service_profile := service_profile i;
     running_avg := running_avg i; sensor := sensor i;
     log_level := log_level i; file_path := file_path i |}.

Definition set_start_m (v : float) (i : input_t) : input_t :=
  {| service_type := service_type i; update_count := update_count i;
     wait_for_interrupt := wait_for_interrupt i; start_m := v;
     end_m := end_m i; frequency := frequency i; n_bins := n_bins i;
     gain := gain i; service_profile := service_profile i;
     running_avg := running_avg i; sensor := sensor i;
     log_level := log_level i; file_path := file_path i |}.

Definition set_end_m (v : float) (i : input_t) : input_t :=
  {| service_type := service_type i; update_count := update_count i;
     wait_for_interrupt := wait_for_interrupt i; start_m := start_m i;
     end_m := v; frequency := frequency i; n_bins := n_bins i;
     gain := gain i; service_profile := service_profile i;
     running_avg := running_avg i; sensor := sensor i;
     log_level := log_level i; file_path := file_path i |}.

Definition set_frequency (v : float) (i : input_t) : input_t :=
  {| service_type := service_type i; update_count := update_count i;
     wait_for_interrupt := wait_for_interrupt i; start_m := start_m i;
     end_m := end_m i; frequency := v; n_bins := n_bins i;
     gain := gain i; service_profile := service_profile i;
     running_avg := running_avg i; sensor := sensor i;
     log_level := log_level i; file_path := file_path i |}.

Definition set_n_bins (v : Z) (i : input_t) : input_t :=
  {| service_type := service_type i; update_count := update_count i;
     wait_for_interrupt := wait_for_interrupt i; start_m := start_m i;
     end_m := end_m i; frequency := frequency i; n_bins := v;
     gain := gain i; service_profile := service_profile i;
     running_avg := running_avg i; sensor := sensor i;
     log_level := log_level i; file_path := file_path i |}.

Definition set_gain (v : float) (i : input_t) : input_t :=
  {| service_type := service_type i; update_count := update_count i;
     wait_for_interrupt := wait_for_interrupt i; start_m := start_m i;
     end_m := end_m i; frequency := frequency i; n_bins := n_bins i;
     gain := v; service_profile := service_profile i;
     running_avg := running_avg i; sensor := sensor i;
     log_level := log_level i; file_path := file_path i |}.

Definition set_service_profile (v : Z) (i : input_t) : input_t :=
  {| service_type := service_type i; update_count := update_count i;
     wait_for_interrupt := wait_for_interrupt i; start_m := start_m i;
     end_m := end_m i; frequency := frequency i; n_bins := n_bins i;
     gain := gain i; service_profile := v;
     running_avg := running_avg i; sensor := sensor i;
     log_level := log_level i; file_path := file_path i |}.

Definition set_running_avg (v : float) (i : input_t) : input_t :=
  {| service_type := service_type i; update_count := update_count i;
     wait_for_interrupt := wait_for_interrupt i; start_m := start_m i;
     end_m := end_m i; frequency := frequency i; n_bins := n_bins i;
     gain := gain i; service_profile := service_profile i;
     running_avg := v; sensor := sensor i;
     log_level := log_level i; file_path := file_path i |}.

Definition set_sensor (v : Z) (i : input_t) : input_t :=
  {| service_type := service_type i; update_count := update_count i;
     wait_for_interrupt := wait_for_interrupt i; start_m := start_m i;
     end_m := end_m i; frequency := frequency i; n_bins := n_bins i;
     gain := gain i; service_profile := service_profile i;
     running_avg := running_avg i; sensor := v;
     log_level := log_level i; file_path := file_path i |}.

Definition set_log_level (v : acc_log_level_t) (i : input_t) : input_t :=
  {| service_type := service_type i; update_count := update_count i;
     wait_for_interrupt := wait_for_interrupt i; start_m := start_m i;
     end_m := end_m i; frequency := frequency i; n_bins := n_bins i;
     gain := gain i; service_profile := service_profile i;
     running_avg := running_avg i; sensor := sensor i;
     log_level := v; file_path := file_path i |}.

Definition set_file_path (v : option string) (i : input_t) : input_t :=
  {| service_type := service_type i; update_count := update_count i;
     wait_for_interrupt := wait_for_interrupt i; start_m := start_m i;
     end_m := end_m i; frequency := frequency i; n_bins := n_bins i;
     gain := gain i; service_profile := service_profile i;
     running_avg := running_avg i; sensor := sensor i;
     log_level := log_level i; file_path := v |}.

(** ** Service configuration

    The configuration object of the service API is opaque; it is kept
    as the list of setter calls made on it, oldest first. *)

Inductive config_call :=
| ProfileSet (p : Z)
| RequestedBinCountSet (n : Z)
| RunningAverageFactorSet (r : float)
| IqOutputFormatSet_FLOAT_COMPLEX
| RequestedStartSet (s : float)
| RequestedLengthSet (l : float)
| RepetitionModeStreamingSet (f : float)
| SensorSet (s : Z)
| ReceiverGainSet (g : float).

Record configuration := {
  cfg_kind : service_type_t;
  cfg_calls : list config_call
}.

Definition configure (c : configuration) (call : config_call) : configuration :=
  {| cfg_kind := cfg_kind c; cfg_calls := cfg_calls c ++ [call] |}.

(** ** Events *)

Inductive event :=
| EvSignal                                   (* signal(SIGINT, interrupt_handler) *)
| EvHalInit (ok : bool)                      (* acc_driver_hal_init *)
| EvMemAlloc (ok : bool)                     (* acc_os_mem_alloc *)
| EvMemFree                                  (* acc_os_mem_free(input.file_path) *)
| EvRssActivate (lvl : acc_log_level_t) (ok : bool)
| EvRssDeactivate
| EvConfigurationCreate (t : service_type_t) (ok : bool)
| EvConfigurationDestroy (t : service_type_t)
| EvServiceCreate (cfg : option configuration) (ok : bool)
| EvGetMetadata
| EvActivate (ok : bool)
| EvReadInterrupted (set : bool)             (* a read of the flag [interrupted] *)
| EvGetNext (ok : bool)
| EvDeactivate (ok : bool)
| EvDestroy
| EvFopen (path : string) (ok : bool)
| EvFprintf (s : string)                     (* fprintf(file, ...) *)
| EvFclose
| EvPrintf (s : string)                      (* printf(...) *)
| EvFflush                                   (* fflush(stdout) *)
| EvPrintUsage.

Definition trace := list event.

(** ** The outside world *)

(** Answers of the service API during one run.  [*_get_next k] is the
    content of the data buffer after the call number [k] (from 0), or
    [None] when that call reports failure. *)
Record provider := {
  configuration_create_ok : service_type_t -> bool;
  service_create_ok : option configuration -> bool;
  metadata_length : nat;           (* bin_count / data_length *)
  activate_ok : bool;
  power_bins_get_next : nat -> option (list Z);
  envelope_get_next : nat -> option (list Z);
  iq_get_next : nat -> option (list (float * float));
  deactivate_ok : bool
}.

(** Answers of the HAL, the allocator and libc.  [interrupted k] is the
    value of [interrupted != 0] read by the loop condition evaluated
    after [k] completed iterations; the signal handler sets the flag at
    an arbitrary moment between two such reads. *)
Record platform := {
  hal_init_ok : bool;
  rss_activate_ok : bool;
  mem_alloc_ok : bool;
  fopen_ok : bool;
  interrupted : nat -> bool
}.

Definition line (s : string) : string := append s nl.

(** ** [parse_options]

    The argument is the sequence of answers of [getopt_long]: option
    character and [optarg]. *)

Inductive parse_outcome :=
| Returned (ok : bool) (input : input_t)
| Exited.                                    (* exit(EXIT_FAILURE) *)

Definition is_opt (c : ascii) (o : string) : bool := String.eqb (String c EmptyString) o.

Section ParseOptions.

Variable pf : platform.

Fixpoint parse_options (opts : list (ascii * string)) (input : input_t)
  : parse_outcome * trace :=
  match opts with
  | [] =>
      match service_type input with
      | INVALID_SERVICE =>
          (Returned false input, [EvPrintf (line "Missing option service type."); EvPrintUsage])
      | _ => (Returned true input, [])
      end
  | (c, optarg) :: rest =>
      if is_opt c "t" then
        match atoi optarg with
        | 0 => parse_options rest (set_service_type POWER_BIN input)
        | 1 => parse_options rest (set_service_type ENVELOPE input)
        | 2 => parse_options rest (set_service_type IQ input)
        | _ => (Returned false input, [EvPrintf (line "Invalid service type."); EvPrintUsage])
        end
      else if is_opt c "c" then
        parse_options rest
          (set_wait_for_interrupt false (set_update_count (uint16 (atoi optarg)) input))
      else if is_opt c "b" then
        parse_options rest (set_start_m (strtof optarg) input)
      else if is_opt c "e" then
        parse_options rest (set_end_m (strtof optarg) input)
      else if is_opt c "f" then
        let f := strtof optarg in
        if fltb (float_of_Q 0) f && fltb f (float_of_Q 100000) then
          parse_options rest (set_frequency f input)
        else (Exited, [EvPrintf (line "Frequency out of range."); EvPrintUsage])
      else if is_opt c "g" then
        let g := strtof optarg in
        if fleb (float_of_Q 0) g && fleb g (float_of_Q 1) then
          parse_options rest (set_gain g input)
        else (Exited, [EvPrintf (line "Gain out of range."); EvPrintUsage])
      else if is_opt c "n" then
        let n := atoi optarg in
        if (0 <? n) && (n <=? 32) then
          parse_options rest (set_n_bins n input)
        else (Exited, [EvPrintf (line "Number of bins out of range."); EvPrintUsage])
      else if is_opt c "y" then
        parse_options rest (set_service_profile (uint32 (atoi optarg)) input)
      else if is_opt c "o" then
        if mem_alloc_ok pf then
          let (r, tr) := parse_options rest (set_file_path (Some optarg) input) in
          (r, EvMemAlloc true :: tr)
        else
          (Returned false (set_file_path None input),
           [EvMemAlloc false; EvPrintf (line "Failed allocating memory")])
      else if is_opt c "r" then
        let r := strtof optarg in
        if fleb (float_of_Q 0) r && fleb r (float_of_Q 1) then
          parse_options rest (set_running_avg r input)
        else (Exited, [EvPrintf (line "Running average factor out of range."); EvPrintUsage])
      else if is_opt c "s" then
        let s := atoi optarg in
        if (0 <? s) && (s <=? 4) then
          parse_options rest (set_sensor s input)
        else (Exited, [EvPrintf (line "Sensor id out of range."); EvPrintUsage])
      else if is_opt c "v" then
        parse_options rest (set_log_level ACC_LOG_LEVEL_VERBOSE input)
      else if is_opt c "h" || is_opt c "?" then
        (Returned false input, [EvPrintUsage])
      else parse_options rest input
  end.

End ParseOptions.

(** ** Configuration builders *)

Section Run.

Variable pv : provider.
Variable pf : platform.

Definition set_up_power_bin (input : input_t) : option configuration * trace :=
  if configuration_create_ok pv POWER_BIN then
    let c := {| cfg_kind := POWER_BIN; cfg_calls := [] |} in
    let c := if 0 <? service_profile input
             then configure c (ProfileSet (service_profile input)) else c in
    let c := configure c (RequestedBinCountSet (n_bins input)) in
    let length_m := fsub (end_m input) (start_m input) in
    let c := configure c (RequestedStartSet (start_m input)) in
    let c := configure c (RequestedLengthSet length_m) in
    let c := configure c (RepetitionModeStreamingSet (frequency input)) in
    let c := configure c (SensorSet (sensor input)) in
    let c := if fleb (float_of_Q 0) (gain input)
             then configure c (ReceiverGainSet (gain input)) else c in
    (Some c, [EvConfigurationCreate POWER_BIN true])
  else
    (None, [EvConfigurationCreate POWER_BIN false;
            EvPrintf (line "acc_service_power_bin_configuration_create() failed")]).

Definition set_up_envelope (input : input_t) : option configuration * trace :=
  if configuration_create_ok pv ENVELOPE then
    let c := {| cfg_kind := ENVELOPE; cfg_calls := [] |} in
    let c := if 0 <? service_profile input
             then configure c (ProfileSet (service_profile input)) else c in
    let avg := fleb (float_of_Q 0) (running_avg input) in
    let c := if avg then configure c (RunningAverageFactorSet (running_avg input)) else c in
    let length_m := fsub (end_m input) (start_m input) in
    let c := configure c (RequestedStartSet (start_m input)) in
    let c := configure c (RequestedLengthSet length_m) in
    let c := configure c (RepetitionModeStreamingSet (frequency input)) in
    let c := if fleb (float_of_Q 0) (gain input)
             then configure c (ReceiverGainSet (gain input)) else c in
    (Some c,
     EvConfigurationCreate ENVELOPE true ::
     (if avg
      then [EvPrintf (line (append "using running avg: " (PRIfloat (running_avg input))))]
      else []))
  else
    (None, [EvConfigurationCreate ENVELOPE false;
            EvPrintf (line "acc_service_envelope_configuration_create() failed")]).

Definition set_up_iq (input : input_t) : option configuration * trace :=
  if configuration_create_ok pv IQ then
    let c := {| cfg_kind := IQ; cfg_calls := [] |} in
    let c := if 0 <? service_profile input
             then configure c (ProfileSet (service_profile input)) else c in
    let c := configure c IqOutputFormatSet_FLOAT_COMPLEX in
    let length_m := fsub (end_m input) (start_m input) in
    let c := configure c (RequestedStartSet (start_m input)) in
    let c := configure c (RequestedLengthSet length_m) in
    let c := configure c (RepetitionModeStreamingSet (frequency input)) in
    let c := if fleb (float_of_Q 0) (gain input)
             then configure c (ReceiverGainSet (gain input)) else c in
    (Some c, [EvConfigurationCreate IQ true])
  else
    (None, [EvConfigurationCreate IQ false;
            EvPrintf (line "acc_service_iq_configuration_create() failed")]).

(** ** The lifecycle, common to the three [execute_*] functions

    The three functions differ in the [get_next] call, in the text
    printed for one element and in two messages. *)

Inductive loop_exit :=
| LoopEnded                                  (* the [while] condition became false *)
| PollFailed.                                (* [return false] inside the loop *)

Section Execute.

Variable sample : Type.
Variable get_next : nat -> option (list sample).
Variable dflt : sample.
Variable fprintf_sample : sample -> string.
Variable msg_create_failed : string.
Variable msg_not_retrieved : string.

Variable file_path : option string.
Variable wait_for_interrupt : bool.
Variable update_count : Z.

(** [for (index = 0; index < length; index++) fprintf(file, ...)],
    then the newline and, on standard output, the flush. *)
Definition write_frame (data : list sample) : trace :=
  map (fun index => EvFprintf (fprintf_sample (nth index data dflt)))
      (seq 0 (metadata_length pv))
  ++ [EvFprintf nl]
  ++ match file_path with None => [EvFflush] | Some _ => [] end.

(** The loop condition
    [(wait_for_interrupt && interrupted == 0) || updates < update_count];
    the flag is read only when [wait_for_interrupt] holds. *)
Definition loop_condition (k : nat) (updates : Z) : bool :=
  (wait_for_interrupt && negb (interrupted pf k)) || (updates <? update_count).

Definition read_flag (k : nat) : trace :=
  if wait_for_interrupt then [EvReadInterrupted (interrupted pf k)] else [].

(** [k] counts the completed iterations, [updates] is the [uint16_t]
    counter.  [None]: the loop is still running when the fuel is spent. *)
Fixpoint poll_loop (fuel : nat) (k : nat) (updates : Z) : option (loop_exit * trace) :=
  match fuel with
  | O => None
  | S fuel' =>
      if loop_condition k updates then
        match get_next k with
        | Some data =>
            let updates' := if wait_for_interrupt then updates else uint16 (updates + 1) in
            match poll_loop fuel' (S k) updates' with
            | Some (r, tr) =>
                Some (r, read_flag k ++ EvGetNext true :: write_frame data ++ tr)
            | None => None
            end
        | None =>
            Some (PollFailed,
                  read_flag k ++ [EvGetNext false; EvPrintf msg_not_retrieved; EvFflush])
        end
      else Some (LoopEnded, read_flag k)
  end.

Definition execute (fuel : nat) (cfg : option configuration) : option (bool * trace) :=
  if service_create_ok pv cfg then
    let created := [EvServiceCreate cfg true; EvGetMetadata] in
    if activate_ok pv then
      let opening :=
        match file_path with
        | Some p => [EvFopen p (fopen_ok pf)]
        | None => []
        end in
      match file_path, fopen_ok pf with
      | Some _, false =>
          Some (false, created ++ EvActivate true :: opening
                       ++ [EvPrintf (line "opening file failed")])
      | _, _ =>
          match poll_loop fuel 0 0 with
          | None => None
          | Some (PollFailed, tr) =>
              Some (false, created ++ EvActivate true :: opening ++ tr)
          | Some (LoopEnded, tr) =>
              Some (deactivate_ok pv,
                    created ++ EvActivate true :: opening ++ tr
                    ++ match file_path with Some _ => [EvFclose] | None => [] end
                    ++ [EvDeactivate (deactivate_ok pv); EvDestroy])
          end
      end
    else
      Some (false, created ++ [EvActivate false;
                               EvPrintf (line "acc_service_activate() failed");
                               EvDestroy])
  else
    Some (false, [EvServiceCreate cfg false; EvPrintf msg_create_failed]).

End Execute.

(** [fprintf(file, "%u\t", (unsigned int)power_bins_data[index])] *)
Definition fprintf_power_bin (x : Z) : string := append (print_u (uint16 x)) tab.

(** [fprintf(file, "%u\t", (unsigned int)(envelope_data[index] + 0.5f))]:
    the 16-bit value plus one half is exact in single precision, and the
    conversion to [unsigned int] truncates. *)
Definition fprintf_envelope (x : Z) : string :=
  append (print_u (Z.quot (2 * uint16 x + 1) 2)) tab.

(** [fprintf(file, "%" PRIfloat "\t%" PRIfloat "\t", crealf(z), cimagf(z))] *)
Definition fprintf_iq (z : float * float) : string :=
  append (PRIfloat (fst z)) (append tab (append (PRIfloat (snd z)) tab)).

Definition execute_power_bin (fuel : nat) (power_bin_configuration : option configuration)
  (file_path : option string) (wait_for_interrupt : bool) (update_count : Z)
  : option (bool * trace) :=
  execute Z (power_bins_get_next pv) 0 fprintf_power_bin
          (line "acc_service_create failed")
          (line "Power bin data not properly retrieved")
          file_path wait_for_interrupt update_count fuel power_bin_configuration.

Definition execute_envelope (fuel : nat) (envelope_configuration : option configuration)
  (file_path : option string) (wait_for_interrupt : bool) (update_count : Z)
  : option (bool * trace) :=
  execute Z (envelope_get_next pv) 0 fprintf_envelope
          (line "acc_Service_create failed")
          (line "Envelope data not properly retrieved")
          file_path wait_for_interrupt update_count fuel envelope_configuration.

Definition execute_iq (fuel : nat) (iq_configuration : option configuration)
  (file_path : option string) (wait_for_interrupt : bool) (update_count : Z)
  : option (bool * trace) :=
  execute (float * float) (iq_get_next pv) (float_of_Q 0, float_of_Q 0) fprintf_iq
          (line "acc_service_create failed")
          (line "IQ data not properly retrieved")
          file_path wait_for_interrupt update_count fuel iq_configuration.

(** ** [main] *)

Inductive exit_status := EXIT_SUCCESS | EXIT_FAILURE.

(** [if (input.file_path != NULL) acc_os_mem_free(input.file_path);] *)
Definition free_file_path (input : input_t) : trace :=
  match file_path input with Some _ => [EvMemFree] | None => [] end.

Definition main (fuel : nat) (opts : list (ascii * string)) : option (exit_status * trace) :=
  let input := initialize_input in
  if negb (hal_init_ok pf) then Some (EXIT_FAILURE, [EvSignal; EvHalInit false])
  else
    let t0 := [EvSignal; EvHalInit true] in
    match parse_options pf opts input with
    | (Exited, tp) => Some (EXIT_FAILURE, t0 ++ tp)
    | (Returned false input, tp) => Some (EXIT_FAILURE, t0 ++ tp ++ free_file_path input)
    | (Returned true input, tp) =>
        if negb (rss_activate_ok pf)
        then Some (EXIT_FAILURE, t0 ++ tp ++ [EvRssActivate (log_level input) false])
        else
          let t1 := t0 ++ tp ++ [EvRssActivate (log_level input) true] in
          match service_type input with
          | POWER_BIN =>
              match set_up_power_bin input with
              | (None, ts) => Some (EXIT_FAILURE, t1 ++ ts ++ free_file_path input)
              | (Some c, ts) =>
                  match execute_power_bin fuel (Some c) (file_path input)
                          (wait_for_interrupt input) (update_count input) with
                  | None => None
                  | Some (false, te) =>
                      Some (EXIT_FAILURE,
                            t1 ++ ts ++ te ++ free_file_path input
                            ++ [EvPrintf (line "execute_power_bin() failed")])
                  | Some (true, te) =>
                      Some (EXIT_SUCCESS,
                            t1 ++ ts ++ te ++ free_file_path input
                            ++ [EvConfigurationDestroy POWER_BIN; EvRssDeactivate])
                  end
              end
          | ENVELOPE =>
              match set_up_envelope input with
              | (None, ts) => Some (EXIT_FAILURE, t1 ++ ts ++ free_file_path input)
              | (Some c, ts) =>
                  match execute_envelope fuel (Some c) (file_path input)
                          (wait_for_interrupt input) (update_count input) with
                  | None => None
                  | Some (false, te) =>
                      Some (EXIT_FAILURE,
                            t1 ++ ts ++ te ++ free_file_path input
                            ++ [EvPrintf (line "execute_envelope() failed")])
                  | Some (true, te) =>
                      Some (EXIT_SUCCESS,
                            t1 ++ ts ++ te ++ free_file_path input
                            ++ [EvConfigurationDestroy ENVELOPE; EvRssDeactivate])
                  end
              end
          | IQ =>
              let (iq_configuration, ts) := set_up_iq input in
              let tn := match iq_configuration with
                        | None => free_file_path input   (* and no return *)
                        | Some _ => []
                        end in
              match execute_iq fuel iq_configuration (file_path input)
                      (wait_for_interrupt input) (update_count input) with
              | None => None
              | Some (false, te) =>
                  Some (EXIT_FAILURE,
                        t1 ++ ts ++ tn ++ te ++ free_file_path input
                        ++ [EvPrintf (line "execute_iq() failed")])
              | Some (true, te) =>
                  Some (EXIT_SUCCESS,
                        t1 ++ ts ++ tn ++ te ++ free_file_path input
                        ++ [EvConfigurationDestroy IQ; EvRssDeactivate])
              end
          | INVALID_SERVICE =>
              Some (EXIT_FAILURE, t1 ++ [EvPrintf (line "Invalid service_type 0")])
          end
    end.

(** The three service loops of the program, each with its [get_next]
    and the text it prints for one element. *)
Definition executor : Type :=
  nat -> option configuration -> option string -> bool -> Z -> option (bool * trace).

Definition all_services
  (P : forall T : Type, (nat -> option (list T)) -> T -> (T -> string) -> executor -> Prop)
  : Prop :=
  P Z (power_bins_get_next pv) 0 fprintf_power_bin execute_power_bin /\
  P Z (envelope_get_next pv) 0 fprintf_envelope execute_envelope /\
  P (float * float)%type (iq_get_next pv) (float_of_Q 0, float_of_Q 0) fprintf_iq execute_iq.

End Run.

(** ** Observations on traces *)

Definition count (p : event -> bool) (tr : trace) : nat := List.length (filter p tr).

Definition is_service_create (e : event) : bool :=
  match e with EvServiceCreate _ _ => true | _ => false end.
Definition is_activate (e : event) : bool :=
  match e with EvActivate _ => true | _ => false end.
Definition is_get_next (e : event) : bool :=
  match e with EvGetNext _ => true | _ => false end.
Definition is_deactivate (e : event) : bool :=
  match e with EvDeactivate _ => true | _ => false end.
Definition is_destroy (e : event) : bool :=
  match e with EvDestroy => true | _ => false end.

(** Calls on the service: create, activate, get_next, deactivate, destroy
    and the metadata query. *)
Definition is_service_call (e : event) : bool :=
  match e with
  | EvServiceCreate _ _ | EvGetMetadata | EvActivate _ | EvGetNext _
  | EvDeactivate _ | EvDestroy => true
  | _ => false
  end.

(** Events that only [main], [parse_options] and the builders produce,
    together with [printf]. *)
Definition main_event (e : event) : bool :=
  match e with
  | EvSignal | EvHalInit _ | EvMemAlloc _ | EvMemFree | EvRssActivate _ _
  | EvRssDeactivate | EvConfigurationCreate _ _ | EvConfigurationDestroy _
  | EvPrintf _ | EvPrintUsage => true
  | _ => false
  end.

(** Events of the polling loop. *)
Definition loop_event (e : event) : bool :=
  match e with
  | EvReadInterrupted _ | EvGetNext _ | EvFprintf _ | EvFflush | EvPrintf _ => true
  | _ => false
  end.

(** Results of the [get_next] calls, in order. *)
Fixpoint poll_results (tr : trace) : list bool :=
  match tr with
  | [] => []
  | EvGetNext ok :: r => ok :: poll_results r
  | _ :: r => poll_results r
  end.

(** A frame line is complete when [fprintf(file, "\n")] is called. *)
Definition is_line_end (e : event) : bool :=
  match e with EvFprintf s => String.eqb s nl | _ => false end.

Definition line_writes (tr : trace) : nat := count is_line_end tr.

(** The text of the [fprintf(file, ...)] calls, in order: the content of
    the file when a file path is given.  Without one [file] is [stdout],
    which receives the [printf] messages as well: see [stdout_text]. *)
Fixpoint sink_text (tr : trace) : string :=
  match tr with
  | [] => EmptyString
  | EvFprintf s :: r => append s (sink_text r)
  | _ :: r => sink_text r
  end.

(** The text of one frame line. *)
Definition frame_text {T : Type} (pr : T -> string) (dflt : T) (len : nat) (data : list T)
  : string :=
  fold_right append nl (map (fun index => pr (nth index data dflt)) (seq 0 len)).

Definition is_clear_read (e : event) : bool :=
  match e with EvReadInterrupted false => true | _ => false end.
Definition is_set_read (e : event) : bool :=
  match e with EvReadInterrupted true => true | _ => false end.

(** What follows the first event satisfying [p] (nothing if there is none). *)
Fixpoint after_first (p : event -> bool) (tr : trace) : trace :=
  match tr with
  | [] => []
  | e :: r => if p e then r else after_first p r
  end.

(** What follows the last event satisfying [p] (everything if there is none). *)
Fixpoint after_last (p : event -> bool) (tr : trace) : trace :=
  match tr with
  | [] => []
  | e :: r => if existsb p r then after_last p r else if p e then r else e :: r
  end.

(** The same platform with another behaviour of the interrupt flag. *)
Definition with_interrupted (pf : platform) (f : nat -> bool) : platform :=
  {| hal_init_ok := hal_init_ok pf; rss_activate_ok := rss_activate_ok pf;
     mem_alloc_ok := mem_alloc_ok pf; fopen_ok := fopen_ok pf; interrupted := f |}.

End Logger.

(** ** A concrete world for running the program

    Exact rational arithmetic in place of single precision, a scripted
    service and a platform on which everything succeeds. *)

Fixpoint split_point (s : string) : string * string :=
  match s with
  | EmptyString => (EmptyString, EmptyString)
  | String c r =>
      if Ascii.eqb c "."%char then (EmptyString, r)
      else let (a, b) := split_point r in (String c a, b)
  end.

Fixpoint count_digits (s : string) : nat :=
  match s with
  | String c r => match digit_of c with Some _ => S (count_digits r) | None => O end
  | EmptyString => O
  end.

Definition decimal_Q (s : string) : Q :=
  let (a, b) := split_point s in
  let n := Z.of_nat (count_digits b) in
  Qmake (digits_value 0 a * 10 ^ n + digits_value 0 b) (Z.to_pos (10 ^ n)).

(** [strtof] on plain decimal numerals (optional sign, digits, optional
    fraction), read exactly: no exponent, no [inf] or [nan], no rounding
    to single precision.  It serves the examples only, on values that
    single precision represents. *)
Definition strtof_Q (s : string) : Q :=
  match skip_space s with
  | String "-" r => Qopp (decimal_Q r)
  | String "+" r => decimal_Q r
  | t => decimal_Q t
  end.

Definition pad3 (m : Z) : string :=
  append (if m <? 100 then "0" else EmptyString)
         (append (if m <? 10 then "0" else EmptyString) (print_u m)).

Definition PRIfloat_Q (q : Q) : string :=
  let m := Qfloor (Qplus (Qmult (Qabs q) 1000) (1 # 2)) in
  append (if Qle_bool 0 q then EmptyString else "-")
         (append (print_u (m / 1000)) (append "." (pad3 (m mod 1000)))).

#[export] Instance exact_floats : FloatOps := {
  float := Q;
  float_of_Q := fun q => q;
  strtof := strtof_Q;
  fsub := Qminus;
  fltb := fun a b => negb (Qle_bool b a);
  fleb := Qle_bool;
  PRIfloat := PRIfloat_Q
}.

(** A service that accepts every non-null configuration and answers
    [get_next] from a script. *)
Definition scripted_provider (len : nat) (act : bool) (polls : nat -> option (list Z))
  (iq_polls : nat -> option (list (Q * Q))) (deact : bool) : @provider exact_floats :=
  {| configuration_create_ok := fun _ => true;
     service_create_ok := fun c => match c with Some _ => true | None => false end;
     metadata_length := len;
     activate_ok := act;
     power_bins_get_next := polls;
     envelope_get_next := polls;
     iq_get_next := iq_polls;
     deactivate_ok := deact |}.

(** The same service when the configuration objects cannot be created. *)
Definition no_configuration_provider : @provider exact_floats :=
  {| configuration_create_ok := fun _ => false;
     service_create_ok := fun c => match c with Some _ => true | None => false end;
     metadata_length := 3;
     activate_ok := true;
     power_bins_get_next := fun _ => None;
     envelope_get_next := fun _ => None;
     iq_get_next := fun _ => None;
     deactivate_ok := true |}.

(** Everything succeeds; the flag is first seen set by the check that
    follows [j] completed iterations ([None]: never). *)
Definition good_platform (j : option nat) : platform :=
  {| hal_init_ok := true; rss_activate_ok := true; mem_alloc_ok := true;
     fopen_ok := true;
     interrupted := fun k => match j with Some n => Nat.leb n k | None => false end |}.

(** Everything succeeds; the flag is what the handler made of the
    signals that arrived. *)
Definition signalled_platform (arrivals : nat -> list Z) : platform :=
  {| hal_init_ok := true; rss_activate_ok := true; mem_alloc_ok := true;
     fopen_ok := true;
     interrupted := fun k => negb (flag_at arrivals k =? 0) |}.

(** One SIGINT, handled during iteration [i]. *)
Definition sigint_during (i : nat) (k : nat) : list Z :=
  if Nat.eqb k (S i) then [SIGINT] else [].

(** Frames [[1;2;3]] then [[4;5;6]], then as many [[7;8;9]] as asked. *)
Definition two_frames (k : nat) : option (list Z) :=
  match k with
  | O => Some [1; 2; 3]
  | S O => Some [4; 5; 6]
  | _ => Some [7; 8; 9]
  end.

Definition two_iq_frames (k : nat) : option (list (Q * Q)) :=
  match k with
  | O => Some [(1 # 2, 0); (1, Qopp (1 # 4)); (0, 0)]%Q
  | _ => Some [(0, 0); (0, 0); (0, 0)]%Q
  end.

(** The script fails at call number [n] (from 0). *)
Definition fails_at (n : nat) (polls : nat -> option (list Z)) (k : nat) : option (list Z) :=
  if Nat.eqb k n then None else polls k.

Definition a_configuration : @configuration exact_floats :=
  {| cfg_kind := POWER_BIN; cfg_calls := [] |}.

(** A platform on which the output file cannot be opened. *)
Definition no_file_platform : platform :=
  {| hal_init_ok := true; rss_activate_ok := true; mem_alloc_ok := true;
     fopen_ok := false; interrupted := fun _ => false |}.

(** The expected text of a line: every field followed by a tab, then
    the newline. *)
Definition tsv_line (fields : list string) : string :=
  fold_right (fun f s => append f (append tab s)) nl fields.

(** ** Further observations on traces *)

Definition is_fflush {F : FloatOps} (e : event) : bool :=
  match e with EvFflush => true | _ => false end.
Definition is_fopen {F : FloatOps} (e : event) : bool :=
  match e with EvFopen _ _ => true | _ => false end.
Definition is_fclose {F : FloatOps} (e : event) : bool :=
  match e with EvFclose => true | _ => false end.
Definition is_failed_poll {F : FloatOps} (e : event) : bool :=
  match e with EvGetNext false => true | _ => false end.
Definition is_mem_free {F : FloatOps} (e : event) : bool :=
  match e with EvMemFree => true | _ => false end.
Definition is_rss_activate {F : FloatOps} (e : event) : bool :=
  match e with EvRssActivate _ _ => true | _ => false end.
Definition is_rss_deactivate {F : FloatOps} (e : event) : bool :=
  match e with EvRssDeactivate => true | _ => false end.
Definition is_configuration_destroy {F : FloatOps} (e : event) : bool :=
  match e with EvConfigurationDestroy _ => true | _ => false end.

(** Events of [parse_options]. *)
Definition parse_event {F : FloatOps} (e : event) : bool :=
  match e with EvPrintf _ | EvPrintUsage | EvMemAlloc _ => true | _ => false end.

(** Events of [main] before a service run: start-up, parsing, the
    configuration builder and the failure paths. *)
Definition startup_event {F : FloatOps} (e : event) : bool :=
  match e with
  | EvSignal | EvHalInit _ | EvMemAlloc _ | EvMemFree | EvRssActivate _ _
  | EvConfigurationCreate _ _ | EvPrintf _ | EvPrintUsage => true
  | _ => false
  end.

(** Events of a service run. *)
Definition run_event {F : FloatOps} (e : event) : bool :=
  match e with
  | EvServiceCreate _ _ | EvGetMetadata | EvActivate _ | EvReadInterrupted _
  | EvGetNext _ | EvDeactivate _ | EvDestroy | EvFopen _ _ | EvFprintf _ | EvFclose
  | EvPrintf _ | EvFflush => true
  | _ => false
  end.

(** A reader of a written line, as a consumer of the file would do it
    with [atoi] and [strchr]: the text after the first tab, and the
    values of the first [n] fields. *)
Fixpoint after_tab (s : string) : string :=
  match s with
  | EmptyString => EmptyString
  | String c r => if Ascii.eqb c TAB then r else after_tab r
  end.

Fixpoint read_fields (n : nat) (s : string) : list Z :=
  match n with
  | O => []
  | S n' => atoi s :: read_fields n' (after_tab s)
  end.

(** The content of the data buffer after the call number [k]. *)
Definition polled {T : Type} (get_next : nat -> option (list T)) (k : nat) : list T :=
  match get_next k with Some d => d | None => [] end.

(** The service type selected by the value of the service-type option. *)
Definition service_of (v : Z) : service_type_t :=
  match v with 0 => POWER_BIN | 1 => ENVELOPE | 2 => IQ | _ => INVALID_SERVICE end.

(** The calls of [get_next] that returned [true]. *)
Definition good_polls {F : FloatOps} (tr : trace) : nat :=
  List.length (filter (fun ok : bool => ok) (poll_results tr)).

Definition is_printf {F : FloatOps} (e : event) : bool :=
  match e with EvPrintf _ => true | _ => false end.
Definition is_flag_read {F : FloatOps} (e : event) : bool :=
  match e with EvReadInterrupted _ => true | _ => false end.

(** The text of [print_usage]; [%d] and [%u] print small non-negative
    constants. *)
Definition usage_text {F : FloatOps} : string :=
  String.concat EmptyString
    [line (line "Usage: data_logger [OPTION]...");
     line "-h, --help                this help";
     line "-t, --service-type        service type to be run";
     line "                            0. Power bin";
     line "                            1. Envelope";
     line "                            2. IQ";
     line "-c, --sweep-count         number of updates, default application continues until interrupt";
     line (append "-b, --range-start         start measurements at this distance [m], default "
                  (PRIfloat DEFAULT_RANGE_START_M));
     line (append "-e, --range-end           end measurements at this distance [m], default "
                  (PRIfloat DEFAULT_RANGE_END_M));
     line (append "-f, --frequency           update rate, default " (PRIfloat DEFAULT_FREQUENCY));
     line "-g, --gain                gain (default service dependent)";
     line (append "-n, --number-of-bins      number of bins (powerbins only), default "
                  (append (print_u DEFAULT_N_BINS) "."));
     line "-o, --out                 path to out file, default stdout";
     line (append "-y, --service-profile     service profile to use (starting at index 1), default "
                  (print_u DEFAULT_SERVICE_PROFILE));
     line "                            means no profile is set explicitly";
     line "                            but default profile for the service is used";
     line "-r, --running-avg-factor  strength of time domain filering";
     line "                          (envelope and iq only, default service dependent)";
     line (append "-s, --sensor              select sendor id, , default " (print_u DEFAULT_SENSOR));
     line "-v, --verbose             set debug level to verbose"].

(** The text of the [printf] calls, in order. *)
Fixpoint printf_text {F : FloatOps} (tr : trace) : string :=
  match tr with
  | [] => EmptyString
  | EvPrintf s :: r => append s (printf_text r)
  | EvPrintUsage :: r => append usage_text (printf_text r)
  | _ :: r => printf_text r
  end.

(** What the program writes on standard output: the [printf] calls and,
    when no file path was given ([file = stdout]), the [fprintf(file, ...)]
    calls, in the order of the calls. *)
Fixpoint stdout_text {F : FloatOps} (file_path : option string) (tr : trace) : string :=
  match tr with
  | [] => EmptyString
  | EvPrintf s :: r => append s (stdout_text file_path r)
  | EvPrintUsage :: r => append usage_text (stdout_text file_path r)
  | EvFprintf s :: r =>
      match file_path with
      | None => append s (stdout_text file_path r)
      | Some _ => stdout_text file_path r
      end
  | _ :: r => stdout_text file_path r
  end.

(** What it writes to the file opened for the file path. *)
Definition file_text {F : FloatOps} (file_path : option string) (tr : trace) : string :=
  match file_path with
  | Some _ => sink_text tr
  | None => EmptyString
  end.

(** The lines of the frames answered by the calls 0, ..., [n - 1] of
    [get_next]. *)
Definition frame_lines {T : Type} (pr : T -> string) (dflt : T) (len : nat)
  (get_next : nat -> option (list T)) (n : nat) : string :=
  fold_right append EmptyString
    (map (fun i => frame_text pr dflt len (polled get_next i)) (seq 0 n)).

(** * Properties *)

(** ** Text *)

Lemma count_char_append c (s t : string) :
  count_char c (append s t) = (count_char c s + count_char c t)%nat.
Proof.
  induction s as [|a s IH]; simpl; [reflexivity|].
  rewrite IH. lia.
Qed.

Lemma string_of_uint_digits c (d : Decimal.uint) :
  digit_of c = None -> count_char c (NilEmpty.string_of_uint d) = O.
Proof.
  intros Hc.
  assert (Hne : forall a, digit_of a <> None -> Ascii.eqb a c = false).
  { intros a Ha. destruct (Ascii.eqb_spec a c) as [->|]; [contradiction|reflexivity]. }
  induction d as [|d IH|d IH|d IH|d IH|d IH|d IH|d IH|d IH|d IH|d IH];
    cbn [count_char NilEmpty.string_of_uint];
    [reflexivity|..]; rewrite IH, Hne; first [reflexivity | vm_compute; discriminate].
Qed.

Lemma print_u_digits c (x : Z) : digit_of c = None -> count_char c (print_u x) = O.
Proof.
  intros Hc. unfold print_u, NilZero.string_of_uint.
  destruct (N.to_uint (Z.to_N x)) eqn:E;
    try (rewrite <- E; apply string_of_uint_digits; assumption).
  cbn [count_char]. destruct (Ascii.eqb_spec "0"%char c) as [<-|]; [|reflexivity].
  vm_compute in Hc. discriminate Hc.
Qed.

Lemma append_tab_not_nl (s : string) : append s tab <> nl.
Proof.
  destruct s as [|a [|b s]]; simpl; unfold tab, nl; try discriminate.
Qed.

(** ** Traces *)

Section TraceFacts.

Context {F : FloatOps}.

Lemma count_app p (a b : trace) : count p (a ++ b) = (count p a + count p b)%nat.
Proof. unfold count. rewrite filter_app, length_app. reflexivity. Qed.

Lemma count_cons p e (a : trace) :
  count p (e :: a) = ((if p e then 1 else 0) + count p a)%nat.
Proof. unfold count. simpl. destruct (p e); reflexivity. Qed.

Lemma poll_results_app (a b : trace) :
  poll_results (a ++ b) = poll_results a ++ poll_results b.
Proof.
  induction a as [|e a IH]; simpl; [reflexivity|].
  destruct e; simpl; rewrite IH; reflexivity.
Qed.

Lemma sink_text_app (a b : trace) :
  sink_text (a ++ b) = append (sink_text a) (sink_text b).
Proof.
  induction a as [|e a IH]; simpl; [reflexivity|].
  destruct e; simpl; rewrite ?IH; try reflexivity.
  clear. induction s as [|c s IHs]; simpl; [reflexivity|]. rewrite IHs. reflexivity.
Qed.

Lemma count_quiet q p (tr : trace) :
  forallb q tr = true -> (forall e, q e = true -> p e = false) -> count p tr = O.
Proof.
  intros Hq Hp. induction tr as [|e tr IH]; [reflexivity|].
  simpl in Hq. apply andb_true_iff in Hq as [He Htr].
  rewrite count_cons, (Hp e He), (IH Htr). reflexivity.
Qed.

Lemma poll_results_quiet q (tr : trace) :
  forallb q tr = true -> (forall e, q e = true -> is_get_next e = false) ->
  poll_results tr = [].
Proof.
  intros Hq Hp. induction tr as [|e tr IH]; [reflexivity|].
  simpl in Hq. apply andb_true_iff in Hq as [He Htr].
  specialize (Hp e He). destruct e; simpl in *; try discriminate; auto.
Qed.

Lemma sink_text_quiet (tr : trace) :
  forallb main_event tr = true -> sink_text tr = EmptyString.
Proof.
  induction tr as [|e tr IH]; [reflexivity|].
  simpl. intros H. apply andb_true_iff in H as [He Htr].
  destruct e; simpl in *; try discriminate; auto.
Qed.

Lemma existsb_quiet q p (tr : trace) :
  forallb q tr = true -> (forall e, q e = true -> p e = false) -> existsb p tr = false.
Proof.
  intros Hq Hp. induction tr as [|e tr IH]; [reflexivity|].
  simpl in Hq. apply andb_true_iff in Hq as [He Htr].
  simpl. rewrite (Hp e He), (IH Htr). reflexivity.
Qed.

Lemma in_quiet q (tr : trace) e :
  forallb q tr = true -> q e = false -> ~ In e tr.
Proof.
  intros Hq He Hin. rewrite forallb_forall in Hq.
  rewrite (Hq e Hin) in He. discriminate.
Qed.

Lemma main_event_quiet p :
  (p = is_service_call \/ p = is_line_end \/ p = is_get_next \/ p = is_destroy \/
   p = is_deactivate \/ p = is_clear_read \/ p = is_set_read) ->
  forall e, main_event e = true -> p e = false.
Proof.
  intros Hp e He.
  destruct Hp as [->|[->|[->|[->|[->|[->| ->]]]]]]; destruct e; try discriminate; reflexivity.
Qed.

Lemma after_first_app_l p (a b : trace) :
  existsb p a = true -> after_first p (a ++ b) = after_first p a ++ b.
Proof.
  induction a as [|e a IH]; simpl; [discriminate|].
  destruct (p e); simpl; auto.
Qed.

Lemma after_first_app_r p (a b : trace) :
  existsb p a = false -> after_first p (a ++ b) = after_first p b.
Proof.
  induction a as [|e a IH]; simpl; [reflexivity|].
  destruct (p e); simpl; [discriminate|auto].
Qed.

Lemma after_last_app_r p (a b : trace) :
  existsb p b = true -> after_last p (a ++ b) = after_last p b.
Proof.
  intros Hb. induction a as [|e a IH]; simpl; [reflexivity|].
  rewrite existsb_app, Hb, orb_true_r. exact IH.
Qed.

Lemma after_last_none p (a : trace) : existsb p a = false -> after_last p a = a.
Proof.
  induction a as [|e a IH]; simpl; [reflexivity|].
  intros H. apply orb_false_iff in H as [He Ha]. rewrite Ha, He. reflexivity.
Qed.

Lemma after_last_app_l p (a b : trace) :
  existsb p b = false -> after_last p (a ++ b) = after_last p a ++ b.
Proof.
  intros Hb. induction a as [|e a IH]; simpl; [apply after_last_none; exact Hb|].
  rewrite existsb_app, Hb, orb_false_r.
  destruct (existsb p a); [exact IH|]. destruct (p e); reflexivity.
Qed.

End TraceFacts.

(** ** The polling loop *)

Section LoopFacts.

Context {F : FloatOps}.
Variable pv : provider.
Variable pf : platform.
Variable T : Type.
Variable get_next : nat -> option (list T).
Variable dflt : T.
Variable pr : T -> string.
Variables m1 m2 : string.
Variable fp : option string.
Variable wfi : bool.
Variable uc : Z.

Hypothesis pr_not_nl : forall x, pr x <> nl.

Local Abbreviation loop := (poll_loop pv pf T get_next dflt pr m2 fp wfi uc).
Local Abbreviation wframe := (write_frame pv T dflt pr fp).
Local Abbreviation cond := (loop_condition pf wfi uc).
Local Abbreviation flag := (read_flag pf wfi).

(** Induction over the iterations of a loop that has ended. *)
Lemma poll_loop_cases (P : nat -> Z -> loop_exit -> trace -> Prop) :
  (forall k u, cond k u = false -> P k u LoopEnded (flag k)) ->
  (forall k u, cond k u = true -> get_next k = None ->
     P k u PollFailed (flag k ++ [EvGetNext false; EvPrintf m2; EvFflush])) ->
  (forall k u d r tr, cond k u = true -> get_next k = Some d ->
     P (S k) (if wfi then u else uint16 (u + 1)) r tr ->
     P k u r (flag k ++ EvGetNext true :: wframe d ++ tr)) ->
  forall fuel k u r tr, loop fuel k u = Some (r, tr) -> P k u r tr.
Proof.
  intros Hend Hfail Hiter.
  induction fuel as [|fuel IH]; intros k u r tr H; simpl in H; [discriminate|].
  destruct (cond k u) eqn:Hc.
  - destruct (get_next k) as [d|] eqn:Hg.
    + destruct (loop fuel (S k) (if wfi then u else uint16 (u + 1))) as [[r' tr']|] eqn:Hl; [|discriminate].
      inversion H; subst. apply Hiter; auto.
    + inversion H; subst. apply Hfail; auto.
  - inversion H; subst. apply Hend; auto.
Qed.

(** More fuel does not change the result of a loop that has ended. *)
Lemma poll_loop_fuel fuel : forall k u res fuel',
  loop fuel k u = Some res -> (fuel <= fuel')%nat -> loop fuel' k u = Some res.
Proof.
  induction fuel as [|fuel IH]; intros k u res fuel' H Hle; simpl in H; [discriminate|].
  destruct fuel' as [|fuel']; [lia|]. simpl.
  destruct (cond k u); [|exact H].
  destruct (get_next k); [|exact H].
  destruct (loop fuel (S k) (if wfi then u else uint16 (u + 1))) as [[r' tr']|] eqn:Hl; [|discriminate].
  rewrite (IH _ _ _ fuel' Hl) by lia. exact H.
Qed.

Lemma flag_loop_event k : forallb loop_event (flag k) = true.
Proof. unfold read_flag. destruct wfi; reflexivity. Qed.

Lemma wframe_loop_event d : forallb loop_event (wframe d) = true.
Proof.
  unfold write_frame. rewrite !forallb_app.
  replace (forallb loop_event (map _ _)) with true.
  - destruct fp; reflexivity.
  - induction (seq 0 (metadata_length pv)); simpl; auto.
Qed.

Lemma poll_loop_events fuel k u r tr :
  loop fuel k u = Some (r, tr) -> forallb loop_event tr = true.
Proof.
  revert fuel k u r tr. apply poll_loop_cases.
  - intros. apply flag_loop_event.
  - intros. rewrite forallb_app, flag_loop_event. reflexivity.
  - intros k u d r tr _ _ IH.
    rewrite forallb_app, flag_loop_event. simpl.
    rewrite forallb_app, wframe_loop_event, IH. reflexivity.
Qed.

Lemma flag_polls k : poll_results (flag k) = [].
Proof. unfold read_flag. destruct wfi; reflexivity. Qed.

Lemma flag_lines k : line_writes (flag k) = O.
Proof. unfold read_flag. destruct wfi; reflexivity. Qed.

Lemma flag_text k : sink_text (flag k) = EmptyString.
Proof. unfold read_flag. destruct wfi; reflexivity. Qed.

Lemma wframe_polls d : poll_results (wframe d) = [].
Proof.
  unfold write_frame. rewrite !poll_results_app.
  replace (poll_results (map _ _)) with (@nil bool).
  - destruct fp; reflexivity.
  - induction (seq 0 (metadata_length pv)); simpl; auto.
Qed.

Lemma wframe_lines d : line_writes (wframe d) = 1%nat.
Proof.
  unfold line_writes, write_frame. rewrite !count_app.
  replace (count is_line_end (map _ _)) with O.
  - destruct fp; reflexivity.
  - induction (seq 0 (metadata_length pv)) as [|i l IH]; [reflexivity|].
    simpl. rewrite count_cons, <- IH. simpl.
    destruct (String.eqb_spec (pr (nth i d dflt)) nl) as [E|]; [|reflexivity].
    destruct (pr_not_nl _ E).
Qed.

Lemma wframe_text d : sink_text (wframe d) = frame_text pr dflt (metadata_length pv) d.
Proof.
  unfold write_frame, frame_text. rewrite sink_text_app.
  replace (sink_text (_ ++ _)) with nl by (destruct fp; reflexivity).
  induction (seq 0 (metadata_length pv)) as [|i l IH]; simpl; [reflexivity|].
  rewrite <- IH. clear.
  induction (pr (nth i d dflt)) as [|c s IHs]; simpl; [reflexivity|].
  rewrite IHs. reflexivity.
Qed.

Lemma wframe_no_read d p :
  (forall s, p (EvFprintf s) = false) -> p EvFflush = false ->
  existsb p (wframe d) = false.
Proof.
  intros Hs Hf. unfold write_frame. rewrite !existsb_app.
  replace (existsb p (map _ _)) with false.
  - simpl. rewrite Hs. destruct fp; simpl; rewrite ?Hf; reflexivity.
  - induction (seq 0 (metadata_length pv)) as [|i l IH]; simpl; [reflexivity|].
    rewrite Hs, <- IH. reflexivity.
Qed.

(** Every poll but the last succeeds, each success writes one line, and
    a failed poll is the last thing the loop does. *)
Lemma poll_loop_shape fuel k u r tr :
  loop fuel k u = Some (r, tr) ->
  poll_results tr =
    repeat true (line_writes tr)
    ++ match r with PollFailed => [false] | LoopEnded => [] end.
Proof.
  revert fuel k u r tr. apply poll_loop_cases.
  - intros. rewrite flag_polls, flag_lines. reflexivity.
  - intros. unfold line_writes. rewrite poll_results_app, count_app.
    fold (line_writes (flag k)). rewrite flag_polls, flag_lines. reflexivity.
  - intros k u d r tr _ _ IH. unfold line_writes in *.
    rewrite poll_results_app, count_app. fold (line_writes (flag k)).
    rewrite flag_polls, flag_lines. simpl.
    rewrite poll_results_app, count_cons, count_app. fold (line_writes (wframe d)).
    rewrite wframe_polls, wframe_lines, IH. reflexivity.
Qed.

Lemma poll_loop_end fuel k u :
  cond k u = false -> loop (S fuel) k u = Some (LoopEnded, flag k).
Proof. intros H. simpl. rewrite H. reflexivity. Qed.

Lemma poll_loop_fail fuel k u :
  cond k u = true -> get_next k = None ->
  loop (S fuel) k u = Some (PollFailed, flag k ++ [EvGetNext false; EvPrintf m2; EvFflush]).
Proof. intros H G. simpl. rewrite H, G. reflexivity. Qed.

(** The counter after [i] completed iterations, as long as it has not
    passed [update_count]. *)
Local Abbreviation ctr i := (if wfi then 0 else Z.of_nat i).

(** The events of iterations [k], ..., [k + n - 1] when their polls
    answer [frames k], ... *)
Local Abbreviation iterations frames k n :=
  (flat_map (fun i => flag i ++ EvGetNext true :: wframe (frames i)) (seq k n)).

(** [n] iterations whose condition holds and whose polls succeed. *)
Lemma poll_loop_prefix (frames : nat -> list T) :
  0 <= uc < 65536 ->
  forall n k fuel,
    (forall i, (k <= i < k + n)%nat ->
       cond i (ctr i) = true /\ get_next i = Some (frames i)) ->
    loop (n + fuel) k (ctr k) =
    match loop fuel (k + n) (ctr (k + n)) with
    | Some (r, tr) => Some (r, iterations frames k n ++ tr)
    | None => None
    end.
Proof.
  intros Huc. induction n as [|n IH]; intros k fuel H.
  - simpl. rewrite Nat.add_0_r. destruct (loop fuel k (ctr k)) as [[r tr]|]; reflexivity.
  - destruct (H k ltac:(lia)) as [Hc Hg].
    cbn [Nat.add poll_loop]. rewrite Hc, Hg.
    assert (Hn : (if wfi then ctr k else uint16 (ctr k + 1)) = ctr (S k)).
    { destruct wfi eqn:W; [reflexivity|].
      unfold loop_condition in Hc. simpl in Hc. apply Z.ltb_lt in Hc.
      unfold uint16. rewrite Z.mod_small by lia. lia. }
    rewrite Hn, (IH (S k) fuel) by (intros i Hi; apply H; lia).
    replace (S k + n)%nat with (k + S n)%nat by lia.
    destruct (loop fuel (k + S n) (ctr (k + S n))) as [[r tr]|]; [|reflexivity].
    cbn [seq flat_map]. rewrite <- !app_assoc. reflexivity.
Qed.

Lemma iterations_lines frames k n : line_writes (iterations frames k n) = n.
Proof.
  revert k. induction n as [|n IH]; intros k; [reflexivity|].
  cbn [seq flat_map]. unfold line_writes in *.
  rewrite !count_app, count_cons. fold (line_writes (flag k)).
  fold (line_writes (wframe (frames k))).
  rewrite flag_lines, wframe_lines, IH. reflexivity.
Qed.

Lemma iterations_polls frames k n : poll_results (iterations frames k n) = repeat true n.
Proof.
  revert k. induction n as [|n IH]; intros k; [reflexivity|].
  cbn [seq flat_map]. rewrite !poll_results_app, flag_polls. simpl.
  rewrite wframe_polls, IH. reflexivity.
Qed.

Lemma iterations_text frames k n :
  sink_text (iterations frames k n) =
  fold_right append EmptyString
    (map (fun i => frame_text pr dflt (metadata_length pv) (frames i)) (seq k n)).
Proof.
  revert k. induction n as [|n IH]; intros k; [reflexivity|].
  cbn [seq flat_map map fold_right]. rewrite !sink_text_app, flag_text. simpl.
  rewrite wframe_text, IH. reflexivity.
Qed.

(** A loop that ended evaluated its condition to false after as many
    iterations as it wrote lines, and a failed poll is the first one the
    service fails. *)
Lemma poll_loop_stop fuel k u r tr :
  loop fuel k u = Some (r, tr) ->
  (forall i, (i < line_writes tr)%nat -> get_next (k + i) <> None) /\
  match r with
  | PollFailed => get_next (k + line_writes tr) = None
  | LoopEnded => True
  end.
Proof.
  revert fuel k u r tr. apply poll_loop_cases.
  - intros k u _. rewrite flag_lines. split; [intros i Hi; inversion Hi|exact I].
  - intros k u _ Hg. unfold line_writes. rewrite count_app. fold (line_writes (flag k)).
    rewrite flag_lines. simpl. rewrite Nat.add_0_r.
    split; [intros i Hi; inversion Hi|exact Hg].
  - intros k u d r tr _ Hg [IH1 IH2].
    assert (E : line_writes (flag k ++ EvGetNext true :: wframe d ++ tr)
                = S (line_writes tr)).
    { unfold line_writes. rewrite count_app, count_cons, count_app.
      fold (line_writes (flag k)). fold (line_writes (wframe d)).
      rewrite flag_lines, wframe_lines. reflexivity. }
    rewrite E. split.
    + intros i Hi. destruct i as [|i]; [rewrite Nat.add_0_r, Hg; discriminate|].
      replace (k + S i)%nat with (S k + i)%nat by lia. apply IH1. lia.
    + replace (k + S (line_writes tr))%nat with (S k + line_writes tr)%nat by lia.
      exact IH2.
Qed.

End LoopFacts.

(** ** One service run: create, activate, poll, deactivate, destroy *)

Section ExecuteFacts.

Context {F : FloatOps}.
Variable pv : provider.
Variable pf : platform.
Variable T : Type.
Variable get_next : nat -> option (list T).
Variable dflt : T.
Variable pr : T -> string.
Variables m1 m2 : string.
Variable fp : option string.
Variable wfi : bool.
Variable uc : Z.

Hypothesis pr_not_nl : forall x, pr x <> nl.

Local Abbreviation loop := (poll_loop pv pf T get_next dflt pr m2 fp wfi uc).
Local Abbreviation exec := (execute pv pf T get_next dflt pr m1 m2 fp wfi uc).

(** What precedes the loop and what follows it when it ends. *)
Local Abbreviation before cfg :=
  ([EvServiceCreate cfg true; EvGetMetadata]
   ++ EvActivate true
      :: match fp with Some p => [EvFopen p (fopen_ok pf)] | None => [] end).
Local Abbreviation after :=
  (match fp with Some _ => [EvFclose] | None => [] end
   ++ [EvDeactivate (deactivate_ok pv); EvDestroy]).

(** The five ways a run ends. *)
Lemma execute_cases fuel cfg r tr :
  exec fuel cfg = Some (r, tr) ->
  (service_create_ok pv cfg = false /\ r = false /\
   tr = [EvServiceCreate cfg false; EvPrintf m1]) \/
  (service_create_ok pv cfg = true /\ activate_ok pv = false /\ r = false /\
   tr = [EvServiceCreate cfg true; EvGetMetadata; EvActivate false;
         EvPrintf (line "acc_service_activate() failed"); EvDestroy]) \/
  (exists p, service_create_ok pv cfg = true /\ activate_ok pv = true /\
     fp = Some p /\ fopen_ok pf = false /\ r = false /\
     tr = [EvServiceCreate cfg true; EvGetMetadata; EvActivate true; EvFopen p false;
           EvPrintf (line "opening file failed")]) \/
  (exists ltr, service_create_ok pv cfg = true /\ activate_ok pv = true /\
     loop fuel O 0 = Some (PollFailed, ltr) /\ r = false /\ tr = before cfg ++ ltr) \/
  (exists ltr, service_create_ok pv cfg = true /\ activate_ok pv = true /\
     loop fuel O 0 = Some (LoopEnded, ltr) /\ r = deactivate_ok pv /\
     tr = before cfg ++ ltr ++ after).
Proof.
  unfold execute. intros H.
  destruct (service_create_ok pv cfg) eqn:Hc.
  2:{ left. inversion H. auto. }
  destruct (activate_ok pv) eqn:Ha.
  2:{ right; left. inversion H. auto. }
  assert (Hloop :
    match loop fuel O 0 with
    | Some (PollFailed, ltr) => Some (false, before cfg ++ ltr)
    | Some (LoopEnded, ltr) => Some (deactivate_ok pv, before cfg ++ ltr ++ after)
    | None => None
    end = Some (r, tr) ->
    (exists ltr, true = true /\ true = true /\
       loop fuel O 0 = Some (PollFailed, ltr) /\ r = false /\ tr = before cfg ++ ltr) \/
    (exists ltr, true = true /\ true = true /\
       loop fuel O 0 = Some (LoopEnded, ltr) /\ r = deactivate_ok pv /\
       tr = before cfg ++ ltr ++ after)).
  { destruct (loop fuel O 0) as [[[|] ltr]|]; intros E; inversion E; subst;
      [right|left]; exists ltr; auto. }
  destruct fp as [p|] eqn:Hfp.
  - destruct (fopen_ok pf) eqn:Ho.
    + right; right; right. apply Hloop. exact H.
    + right; right; left. exists p. inversion H. auto 10.
  - right; right; right. apply Hloop. exact H.
Qed.

(** Past the opening of the sink the run is the loop, framed. *)
Lemma execute_polling fuel cfg :
  service_create_ok pv cfg = true -> activate_ok pv = true ->
  fp = None \/ fopen_ok pf = true ->
  exec fuel cfg =
  match loop fuel O 0 with
  | Some (PollFailed, ltr) => Some (false, before cfg ++ ltr)
  | Some (LoopEnded, ltr) => Some (deactivate_ok pv, before cfg ++ ltr ++ after)
  | None => None
  end.
Proof.
  intros Hc Ha Ho. unfold execute. rewrite Hc, Ha.
  destruct fp as [p|]; [destruct Ho as [Ho|Ho]; [discriminate|rewrite Ho]|];
    destruct (loop fuel O 0) as [[[|] ltr]|]; reflexivity.
Qed.

(** A run that has not ended is one whose loop has not. *)
Lemma execute_none fuel cfg : exec fuel cfg = None -> loop fuel O 0 = None.
Proof.
  unfold execute.
  destruct (service_create_ok pv cfg); [|discriminate].
  destruct (activate_ok pv); [|discriminate].
  destruct fp; [destruct (fopen_ok pf); [|discriminate]|];
    destruct (poll_loop _ _ _ _ _ _ _ _ _ _ _ _ _) as [[[|] ltr]|]; intros H;
    first [discriminate H | reflexivity].
Qed.

Lemma before_polls cfg : poll_results (before cfg) = [].
Proof. destruct fp; reflexivity. Qed.

Lemma before_lines cfg : line_writes (before cfg) = O.
Proof. destruct fp; reflexivity. Qed.

Lemma before_text cfg : sink_text (before cfg) = EmptyString.
Proof. destruct fp; reflexivity. Qed.

Lemma before_count cfg p :
  p (EvServiceCreate cfg true) = false -> p EvGetMetadata = false ->
  p (EvActivate true) = false -> (forall s b, p (EvFopen s b) = false) ->
  count p (before cfg) = O /\ existsb p (before cfg) = false.
Proof.
  intros H1 H2 H3 H4. unfold count.
  destruct fp; simpl; rewrite H1, H2, H3, ?H4; auto.
Qed.

Lemma after_polls : poll_results after = [].
Proof. destruct fp; reflexivity. Qed.

Lemma after_lines : line_writes after = O.
Proof. destruct fp; reflexivity. Qed.

Lemma after_text : sink_text after = EmptyString.
Proof. destruct fp; reflexivity. Qed.

Lemma after_destroy : count is_destroy after = 1%nat.
Proof. destruct fp; reflexivity. Qed.

(** The polls and the lines of a run are those of its loop. *)
Lemma execute_shape fuel cfg r tr :
  exec fuel cfg = Some (r, tr) ->
  exists failed : bool,
    poll_results tr = repeat true (line_writes tr) ++ (if failed then [false] else []) /\
    (failed = true -> r = false /\ count is_destroy tr = O
                      /\ existsb is_deactivate tr = false).
Proof.
  intros H. apply execute_cases in H.
  destruct H as [(_ & -> & ->)|[(_ & _ & -> & ->)|[(p & _ & _ & _ & _ & -> & ->)
                |[(ltr & _ & _ & Hl & -> & ->)|(ltr & _ & _ & Hl & -> & ->)]]]].
  - exists false. split; [reflexivity|discriminate].
  - exists false. split; [reflexivity|discriminate].
  - exists false. split; [reflexivity|discriminate].
  - exists true. pose proof (poll_loop_shape _ _ _ _ _ _ _ _ _ _ pr_not_nl _ _ _ _ _ Hl) as Hs.
    pose proof (poll_loop_events _ _ _ _ _ _ _ _ _ _ _ _ _ _ _ Hl) as He.
    split; [|intros _; split; [reflexivity|]].
    + unfold line_writes in *. rewrite poll_results_app, count_app.
      fold (line_writes (before cfg)). rewrite before_polls, before_lines. exact Hs.
    + rewrite count_app, existsb_app.
      rewrite (count_quiet loop_event is_destroy ltr He) by (intros []; simpl; congruence).
      rewrite (existsb_quiet loop_event is_deactivate ltr He)
        by (intros []; simpl; congruence).
      destruct fp; auto.
  - exists false. pose proof (poll_loop_shape _ _ _ _ _ _ _ _ _ _ pr_not_nl _ _ _ _ _ Hl) as Hs.
    unfold line_writes in *.
    rewrite poll_results_app, (poll_results_app ltr), count_app, (count_app _ ltr).
    fold (line_writes (before cfg)). fold (line_writes after).
    rewrite before_polls, before_lines, after_polls, after_lines, Hs. simpl.
    rewrite !app_nil_r, Nat.add_0_r. split; [reflexivity|discriminate].
Qed.

(** What is observed of a run whose loop ended is observed of its loop. *)
Lemma framed_loop cfg ltr :
  line_writes (before cfg ++ ltr ++ after) = line_writes ltr /\
  poll_results (before cfg ++ ltr ++ after) = poll_results ltr /\
  sink_text (before cfg ++ ltr ++ after) = sink_text ltr /\
  (forallb loop_event ltr = true -> count is_destroy (before cfg ++ ltr ++ after) = 1%nat).
Proof.
  unfold line_writes.
  rewrite (count_app _ (before cfg)), (count_app _ ltr).
  rewrite (count_app _ (before cfg)), (count_app _ ltr).
  rewrite (poll_results_app (before cfg)), (poll_results_app ltr).
  rewrite (sink_text_app (before cfg)), (sink_text_app ltr).
  fold (line_writes (before cfg)). fold (line_writes after).
  rewrite before_polls, before_lines, before_text, after_polls, after_lines, after_text.
  rewrite after_destroy, app_nil_r.
  repeat split.
  - simpl. lia.
  - simpl. clear. induction (sink_text ltr) as [|c s IH]; simpl; congruence.
  - intros He. rewrite (count_quiet loop_event is_destroy ltr He)
      by (intros []; simpl; congruence).
    destruct fp; reflexivity.
Qed.

End ExecuteFacts.

(** ** The three services and [main] *)

Section MainFacts.

Context {F : FloatOps}.
Variable pv : provider.
Variable pf : platform.

Lemma fprintf_power_bin_not_nl x : fprintf_power_bin x <> nl.
Proof. apply append_tab_not_nl. Qed.

Lemma fprintf_envelope_not_nl x : fprintf_envelope x <> nl.
Proof. apply append_tab_not_nl. Qed.

Lemma fprintf_iq_not_nl z : fprintf_iq z <> nl.
Proof.
  unfold fprintf_iq. destruct (PRIfloat (fst z)) as [|c [|c' s]]; simpl;
    unfold tab, nl; discriminate.
Qed.

(** A property of all three services follows from the property of the
    common lifecycle. *)
Lemma all_services_intro
  (P : forall T : Type, (nat -> option (list T)) -> T -> (T -> string) -> executor -> Prop) :
  (forall T get_next dflt pr m1 m2, (forall x, pr x <> nl) ->
     P T get_next dflt pr
       (fun fuel cfg fp wfi uc => execute pv pf T get_next dflt pr m1 m2 fp wfi uc fuel cfg)) ->
  all_services pv pf P.
Proof.
  intros H. repeat split.
  - apply (H Z (power_bins_get_next pv) 0 fprintf_power_bin _ _ fprintf_power_bin_not_nl).
  - apply (H Z (envelope_get_next pv) 0 fprintf_envelope _ _ fprintf_envelope_not_nl).
  - apply (H _ (iq_get_next pv) _ fprintf_iq _ _ fprintf_iq_not_nl).
Qed.

Lemma free_file_path_events input : forallb main_event (free_file_path input) = true.
Proof. unfold free_file_path. destruct (file_path input); reflexivity. Qed.

Lemma parse_options_events opts : forall input,
  forallb main_event (snd (parse_options pf opts input)) = true.
Proof.
  induction opts as [|[c optarg] rest IH]; intros input; simpl.
  - destruct (service_type input); reflexivity.
  - repeat match goal with
           | |- context [if ?b then _ else _] => destruct b
           | |- context [atoi ?s] => destruct (atoi s) as [|[p|[p|p|]|]|p]
           | |- context [let (_, _) := ?p in _] => destruct p eqn:?
           end; simpl; try reflexivity; try apply IH.
    match goal with E : parse_options _ _ ?i = _ |- _ => specialize (IH i); rewrite E in IH end.
    exact IH.
Qed.

Lemma set_up_events input :
  forallb main_event (snd (set_up_power_bin pv input)) = true /\
  forallb main_event (snd (set_up_envelope pv input)) = true /\
  forallb main_event (snd (set_up_iq pv input)) = true.
Proof.
  unfold set_up_power_bin, set_up_envelope, set_up_iq.
  repeat split;
    repeat match goal with |- context [if ?b then _ else _] => destruct b end; reflexivity.
Qed.

(** Either [main] fails before any service is run, or it wraps one run
    of the common lifecycle. *)
Lemma main_run fuel opts :
  (exists tr, main pv pf fuel opts = Some (EXIT_FAILURE, tr) /\
              forallb main_event tr = true) \/
  (exists T get_next dflt pr m1 m2 input cfg pre post,
     (forall x : T, pr x <> nl) /\
     forallb main_event pre = true /\
     (forall r : bool, forallb main_event (post r) = true) /\
     fst (parse_options pf opts initialize_input) = Returned true input /\
     main pv pf fuel opts =
     match execute pv pf T get_next dflt pr m1 m2 (file_path input)
             (wait_for_interrupt input) (update_count input) fuel cfg with
     | Some (r, te) =>
         Some (if r then EXIT_SUCCESS else EXIT_FAILURE, pre ++ te ++ post r)
     | None => None
     end).
Proof.
  unfold main.
  destruct (hal_init_ok pf); simpl; [|left; eexists; split; reflexivity].
  pose proof (parse_options_events opts initialize_input) as Hp.
  destruct (parse_options pf opts initialize_input) as [[[|] input|] tp]; simpl in Hp.
  2:{ left. eexists. split; [reflexivity|]. simpl.
      rewrite forallb_app, Hp, free_file_path_events. reflexivity. }
  2:{ left. eexists. split; [reflexivity|]. simpl. exact Hp. }
  destruct (rss_activate_ok pf); simpl.
  2:{ left. eexists. split; [reflexivity|]. simpl. rewrite forallb_app, Hp. reflexivity. }
  destruct (set_up_events input) as (Hpb & Hen & Hiq).
  assert (Ht1 : forall ts, forallb main_event ts = true ->
            forallb main_event
              (EvSignal :: EvHalInit true
               :: (tp ++ [EvRssActivate (log_level input) true]) ++ ts) = true).
  { intros ts Hts. simpl. rewrite !forallb_app, Hp, Hts. reflexivity. }
  destruct (service_type input).
  - left. eexists. split; [reflexivity|]. simpl. rewrite !forallb_app, Hp. reflexivity.
  - destruct (set_up_power_bin pv input) as [[c|] ts]; simpl in Hpb.
    + right.
      exists Z, (power_bins_get_next pv), 0, fprintf_power_bin,
        (line "acc_service_create failed"), (line "Power bin data not properly retrieved"),
        input, (Some c),
        (EvSignal :: EvHalInit true :: (tp ++ [EvRssActivate (log_level input) true]) ++ ts),
        (fun r : bool => free_file_path input ++
           if r then [EvConfigurationDestroy POWER_BIN; EvRssDeactivate]
           else [EvPrintf (line "execute_power_bin() failed")]).
      split; [apply fprintf_power_bin_not_nl|].
      split; [apply Ht1; exact Hpb|].
      split; [intros []; rewrite forallb_app, free_file_path_events; reflexivity|].
      split; [reflexivity|].
      unfold execute_power_bin.
      destruct (execute _ _ _ _ _ _ _ _ _ _ _ _ _) as [[[|] te]|]; simpl;
        rewrite <- ?app_assoc; reflexivity.
    + left. eexists. split; [reflexivity|].
      simpl. rewrite !forallb_app, Hp, Hpb, free_file_path_events. reflexivity.
  - destruct (set_up_envelope pv input) as [[c|] ts]; simpl in Hen.
    + right.
      exists Z, (envelope_get_next pv), 0, fprintf_envelope,
        (line "acc_Service_create failed"), (line "Envelope data not properly retrieved"),
        input, (Some c),
        (EvSignal :: EvHalInit true :: (tp ++ [EvRssActivate (log_level input) true]) ++ ts),
        (fun r : bool => free_file_path input ++
           if r then [EvConfigurationDestroy ENVELOPE; EvRssDeactivate]
           else [EvPrintf (line "execute_envelope() failed")]).
      split; [apply fprintf_envelope_not_nl|].
      split; [apply Ht1; exact Hen|].
      split; [intros []; rewrite forallb_app, free_file_path_events; reflexivity|].
      split; [reflexivity|].
      unfold execute_envelope.
      destruct (execute _ _ _ _ _ _ _ _ _ _ _ _ _) as [[[|] te]|]; simpl;
        rewrite <- ?app_assoc; reflexivity.
    + left. eexists. split; [reflexivity|].
      simpl. rewrite !forallb_app, Hp, Hen, free_file_path_events. reflexivity.
  - destruct (set_up_iq pv input) as [cfg ts]; simpl in Hiq.
    right.
    exists (float * float)%type, (iq_get_next pv), (float_of_Q 0, float_of_Q 0), fprintf_iq,
      (line "acc_service_create failed"), (line "IQ data not properly retrieved"),
      input, cfg,
      (EvSignal :: EvHalInit true :: (tp ++ [EvRssActivate (log_level input) true])
       ++ ts ++ match cfg with None => free_file_path input | Some _ => [] end),
      (fun r : bool => free_file_path input ++
         if r then [EvConfigurationDestroy IQ; EvRssDeactivate]
         else [EvPrintf (line "execute_iq() failed")]).
    split; [apply fprintf_iq_not_nl|].
    split.
    { apply Ht1. rewrite forallb_app, Hiq.
      destruct cfg; [reflexivity|apply free_file_path_events]. }
    split; [intros []; rewrite forallb_app, free_file_path_events; reflexivity|].
    split; [reflexivity|].
    unfold execute_iq.
    destruct (execute _ _ _ _ _ _ _ _ _ _ _ _ _) as [[[|] te]|]; simpl;
      rewrite <- ?app_assoc; reflexivity.
Qed.

End MainFacts.

(** ** Runs seen from [main] *)

Section Wrapped.

Context {F : FloatOps}.
Variables pre te post : trace.
Hypothesis pre_main : forallb main_event pre = true.
Hypothesis post_main : forallb main_event post = true.

Lemma wrapped_count p :
  (forall e, main_event e = true -> p e = false) ->
  count p (pre ++ te ++ post) = count p te.
Proof.
  intros Hp. rewrite !count_app.
  rewrite (count_quiet main_event p pre pre_main Hp).
  rewrite (count_quiet main_event p post post_main Hp). lia.
Qed.

Lemma wrapped_lines : line_writes (pre ++ te ++ post) = line_writes te.
Proof. apply wrapped_count. intros []; simpl; congruence. Qed.

Lemma wrapped_polls : poll_results (pre ++ te ++ post) = poll_results te.
Proof.
  rewrite !poll_results_app.
  rewrite (poll_results_quiet main_event pre pre_main) by (intros []; simpl; congruence).
  rewrite (poll_results_quiet main_event post post_main) by (intros []; simpl; congruence).
  apply app_nil_r.
Qed.

Lemma wrapped_in e : main_event e = false -> In e (pre ++ te ++ post) -> In e te.
Proof.
  intros He Hin. apply in_app_or in Hin as [Hin|Hin].
  - destruct (in_quiet main_event pre e pre_main He Hin).
  - apply in_app_or in Hin as [Hin|Hin]; [exact Hin|].
    destruct (in_quiet main_event post e post_main He Hin).
Qed.

Lemma wrapped_existsb p :
  (forall e, main_event e = true -> p e = false) ->
  existsb p (pre ++ te ++ post) = existsb p te.
Proof.
  intros Hp. rewrite !existsb_app.
  rewrite (existsb_quiet main_event p pre pre_main Hp).
  rewrite (existsb_quiet main_event p post post_main Hp).
  rewrite orb_false_r. reflexivity.
Qed.

End Wrapped.

(** ** Activation failure *)

Lemma execute_activate_fails {F : FloatOps} pv pf T get_next dflt pr m1 m2 fp wfi uc fuel cfg :
  activate_ok pv = false ->
  exists tr,
    execute pv pf T get_next dflt pr m1 m2 fp wfi uc fuel cfg = Some (false, tr) /\
    line_writes tr = O /\ poll_results tr = [] /\
    (service_create_ok pv cfg = true -> In (EvActivate false) tr) /\
    (In (EvActivate false) tr -> count is_destroy tr = 1%nat).
Proof.
  intros Ha. unfold execute. rewrite Ha.
  destruct (service_create_ok pv cfg); eexists; (split; [reflexivity|]);
    repeat split; simpl; intuition congruence.
Qed.

(** C6. When [acc_service_activate] fails, every service run (and every
    run of [main]) ends, reports failure, has written no frame line and
    made no poll; a handle that was created is destroyed, once. *)
Theorem C6_activation_failure {F : FloatOps} (pv : provider) (pf : platform) :
  activate_ok pv = false ->
  all_services pv pf (fun T get_next dflt pr exec =>
    forall fuel cfg fp wfi uc,
      service_create_ok pv cfg = true ->
      exists tr,
        exec fuel cfg fp wfi uc = Some (false, tr) /\
        In (EvActivate false) tr /\
        line_writes tr = O /\ poll_results tr = [] /\
        count is_destroy tr = 1%nat)
  /\
  forall fuel opts,
    exists tr,
      main pv pf fuel opts = Some (EXIT_FAILURE, tr) /\
      line_writes tr = O /\ poll_results tr = [] /\
      (In (EvActivate false) tr -> count is_destroy tr = 1%nat).
Proof.
  intros Ha. split.
  - apply all_services_intro. intros T get_next dflt pr m1 m2 _ fuel cfg fp wfi uc Hc.
    destruct (execute_activate_fails pv pf T get_next dflt pr m1 m2 fp wfi uc fuel cfg Ha)
      as (tr & E & L & P & I1 & I2).
    exists tr. auto 10.
  - intros fuel opts.
    destruct (main_run pv pf fuel opts)
      as [(tr & E & Hq)
         |(T & gn & dflt & pr & m1 & m2 & input & cfg & pre & post & _ & Hpre & Hpost & _ & E)].
    + exists tr. split; [exact E|]. split; [|split].
      * apply (count_quiet main_event); [exact Hq|intros []; simpl; congruence].
      * apply (poll_results_quiet main_event); [exact Hq|intros []; simpl; congruence].
      * intros Hin. destruct (in_quiet main_event tr (EvActivate false) Hq eq_refl Hin).
    + destruct (execute_activate_fails pv pf T gn dflt pr m1 m2 (file_path input)
                  (wait_for_interrupt input) (update_count input) fuel cfg Ha)
        as (te & Ee & L & P & _ & I2).
      rewrite Ee in E. exists (pre ++ te ++ post false).
      split; [exact E|].
      rewrite (wrapped_lines pre te _ Hpre (Hpost false)).
      rewrite (wrapped_polls pre te _ Hpre (Hpost false)).
      split; [exact L|]. split; [exact P|].
      intros Hin. apply (wrapped_in pre te _ Hpre (Hpost false)) in Hin; [|reflexivity].
      rewrite (wrapped_count pre te _ Hpre (Hpost false))
        by (intros []; simpl; congruence).
      auto.
Qed.

Lemma C6_activation_failure_witness :
  let pv := scripted_provider 3 false two_frames two_iq_frames true in
  activate_ok pv = false /\
  exists tr,
    main pv (good_platform None) 0 [("t"%char, "1")] = Some (EXIT_FAILURE, tr) /\
    line_writes tr = O.
Proof.
  intros pv. split; [reflexivity|].
  destruct (C6_activation_failure pv (good_platform None) eq_refl) as [_ Hm].
  destruct (Hm O [("t"%char, "1")]) as (tr & E & L & _).
  exists tr. split; assumption.
Defined.

(** ** Deactivation *)

Lemma execute_deactivated {F : FloatOps} pv pf T get_next dflt pr m1 m2 fp wfi uc
  fuel cfg r tr :
  (forall x, pr x <> nl) ->
  execute pv pf T get_next dflt pr m1 m2 fp wfi uc fuel cfg = Some (r, tr) ->
  existsb is_deactivate tr = true ->
  r = deactivate_ok pv /\
  In (EvDeactivate (deactivate_ok pv)) tr /\
  poll_results tr = repeat true (line_writes tr).
Proof.
  intros Hpr H Hd.
  destruct (execute_shape pv pf T get_next dflt pr m1 m2 fp wfi uc Hpr fuel cfg r tr H)
    as (failed & Hs & Hf).
  destruct failed.
  { destruct (Hf eq_refl) as (_ & _ & Hn). rewrite Hn in Hd. discriminate. }
  rewrite app_nil_r in Hs.
  apply execute_cases in H.
  destruct H as [(_ & _ & ->)|[(_ & _ & _ & ->)|[(p & _ & _ & _ & _ & _ & ->)
                |[(ltr & _ & _ & Hl & _ & ->)|(ltr & _ & _ & Hl & -> & ->)]]]];
    try discriminate Hd.
  - pose proof (poll_loop_events _ _ _ _ _ _ _ _ _ _ _ _ _ _ _ Hl) as He.
    rewrite existsb_app in Hd.
    rewrite (existsb_quiet loop_event is_deactivate ltr He) in Hd
      by (intros []; simpl; congruence).
    destruct fp; discriminate Hd.
  - split; [reflexivity|]. split; [|exact Hs].
    apply in_or_app. right. apply in_or_app. right.
    apply in_or_app. right. left. reflexivity.
Qed.

(** C8. In a run that reaches [acc_service_deactivate], its result is
    the result of the service run, whatever the polls did (they all
    succeeded), and it decides the exit status of the process. *)
Theorem C8_deactivate_decides {F : FloatOps} (pv : provider) (pf : platform) :
  all_services pv pf (fun T get_next dflt pr exec =>
    forall fuel cfg fp wfi uc r tr,
      exec fuel cfg fp wfi uc = Some (r, tr) ->
      existsb is_deactivate tr = true ->
      r = deactivate_ok pv /\
      In (EvDeactivate (deactivate_ok pv)) tr /\
      poll_results tr = repeat true (line_writes tr))
  /\
  forall fuel opts st tr,
    main pv pf fuel opts = Some (st, tr) ->
    existsb is_deactivate tr = true ->
    st = (if deactivate_ok pv then EXIT_SUCCESS else EXIT_FAILURE) /\
    In (EvDeactivate (deactivate_ok pv)) tr /\
    poll_results tr = repeat true (line_writes tr).
Proof.
  split.
  - apply all_services_intro.
    intros T get_next dflt pr m1 m2 Hpr fuel cfg fp wfi uc r tr H Hd.
    exact (execute_deactivated pv pf T get_next dflt pr m1 m2 fp wfi uc fuel cfg r tr Hpr H Hd).
  - intros fuel opts st tr H Hd.
    destruct (main_run pv pf fuel opts)
      as [(tr' & E & Hq)
         |(T & gn & dflt & pr & m1 & m2 & input & cfg & pre & post & Hpr & Hpre & Hpost & _ & E)];
      rewrite E in H.
    + inversion H; subst.
      rewrite (existsb_quiet main_event is_deactivate tr Hq) in Hd
        by (intros []; simpl; congruence).
      discriminate.
    + destruct (execute _ _ _ _ _ _ _ _ _ _ _ _ _) as [[r te]|] eqn:Ee; [|discriminate].
      inversion H; subst.
      rewrite (wrapped_existsb pre te _ Hpre (Hpost r)) in Hd
        by (intros []; simpl; congruence).
      destruct (execute_deactivated _ _ _ _ _ _ _ _ _ _ _ _ _ _ _ Hpr Ee Hd) as (-> & Hin & Hs).
      split; [reflexivity|]. split.
      * apply in_or_app. right. apply in_or_app. left. exact Hin.
      * rewrite (wrapped_polls pre te _ Hpre (Hpost _)).
        rewrite (wrapped_lines pre te _ Hpre (Hpost _)). exact Hs.
Qed.

Lemma C8_deactivate_decides_witness :
  let pv := scripted_provider 3 true two_frames two_iq_frames false in
  let opts := [("t"%char, "0"); ("c"%char, "2")] in
  exists tr,
    main pv (good_platform None) 5 opts = Some (EXIT_FAILURE, tr) /\
    existsb is_deactivate tr = true /\
    In (EvDeactivate false) tr /\
    poll_results tr = [true; true].
Proof.
  intros pv opts. eexists. split; [reflexivity|]. split; [reflexivity|].
  destruct (proj2 (C8_deactivate_decides pv (good_platform None)) 5%nat opts
              EXIT_FAILURE _ eq_refl eq_refl) as (_ & Hin & Hp).
  split; [exact Hin|exact Hp].
Defined.

(** ** Bounded runs and the interrupt flag *)

Lemma poll_loop_flag_free {F : FloatOps} pv pf f T get_next dflt pr m2 fp uc fuel :
  forall k u,
    poll_loop pv (with_interrupted pf f) T get_next dflt pr m2 fp false uc fuel k u =
    poll_loop pv pf T get_next dflt pr m2 fp false uc fuel k u.
Proof.
  induction fuel as [|fuel IH]; intros k u; [reflexivity|].
  cbn [poll_loop]. rewrite IH. reflexivity.
Qed.

Lemma execute_flag_free {F : FloatOps} pv pf f T get_next dflt pr m1 m2 fp uc fuel cfg :
  execute pv (with_interrupted pf f) T get_next dflt pr m1 m2 fp false uc fuel cfg =
  execute pv pf T get_next dflt pr m1 m2 fp false uc fuel cfg.
Proof. unfold execute. rewrite poll_loop_flag_free. reflexivity. Qed.

(** C9. With [wait_for_interrupt] false the outcome of a service run (its
    result and every event, so the loop's exit and the lines written) is
    the same whatever the interrupt flag does: [f] is any other
    behaviour of the flag. *)
Theorem C9_bounded_ignores_interrupt {F : FloatOps} (pv : provider) (pf : platform)
  (f : nat -> bool) (fuel : nat) (cfg : option configuration) (fp : option string) (uc : Z) :
  execute_power_bin pv (with_interrupted pf f) fuel cfg fp false uc
  = execute_power_bin pv pf fuel cfg fp false uc /\
  execute_envelope pv (with_interrupted pf f) fuel cfg fp false uc
  = execute_envelope pv pf fuel cfg fp false uc /\
  execute_iq pv (with_interrupted pf f) fuel cfg fp false uc
  = execute_iq pv pf fuel cfg fp false uc.
Proof.
  unfold execute_power_bin, execute_envelope, execute_iq.
  repeat split; apply execute_flag_free.
Qed.

(** ** A failing poll *)

Lemma nth_error_repeat_true (n i : nat) (l : list bool) :
  nth_error (repeat true n ++ l) i = Some false ->
  (n <= i)%nat /\ nth_error l (i - n) = Some false.
Proof.
  revert i. induction n as [|n IH]; intros i H.
  - rewrite Nat.sub_0_r. split; [lia|exact H].
  - destruct i as [|i]; [discriminate H|].
    destruct (IH i H) as [Hle Hn]. split; [lia|exact Hn].
Qed.

Section PollFailure.

Context {F : FloatOps}.
Variable pv : provider.
Variable pf : platform.
Variable T : Type.
Variable get_next : nat -> option (list T).
Variable dflt : T.
Variable pr : T -> string.
Variables m1 m2 : string.
Variable fp : option string.
Variable wfi : bool.
Variable uc : Z.

Hypothesis pr_not_nl : forall x, pr x <> nl.

Local Abbreviation exec := (execute pv pf T get_next dflt pr m1 m2 fp wfi uc).

(** In a run that has ended, a failed poll is the last one and follows
    as many lines as there were polls before it. *)
Lemma execute_failed_poll K fuel cfg r tr :
  (1 <= K)%nat ->
  exec fuel cfg = Some (r, tr) ->
  nth_error (poll_results tr) (K - 1) = Some false ->
  line_writes tr = (K - 1)%nat /\ List.length (poll_results tr) = K /\ r = false
  /\ count is_destroy tr = O.
Proof.
  intros HK H Hn.
  destruct (execute_shape pv pf T get_next dflt pr m1 m2 fp wfi uc pr_not_nl fuel cfg r tr H)
    as (failed & Hs & Hf).
  rewrite Hs in Hn. apply nth_error_repeat_true in Hn as [Hle Hn].
  destruct failed.
  - destruct (K - 1 - line_writes tr)%nat as [|d] eqn:Hd.
    + assert (E : line_writes tr = (K - 1)%nat) by lia.
      rewrite Hs, length_app, repeat_length, E. simpl.
      destruct (Hf eq_refl) as (Hr & Hdes & _). repeat split; auto; lia.
    + destruct d; discriminate Hn.
  - destruct (K - 1 - line_writes tr)%nat; discriminate Hn.
Qed.

(** The run in which the first [K - 1] polls succeed and the [K]-th is
    made and fails does end. *)
Lemma execute_poll_fails K cfg :
  (1 <= K)%nat ->
  0 <= uc < 65536 ->
  service_create_ok pv cfg = true -> activate_ok pv = true ->
  fp = None \/ fopen_ok pf = true ->
  (forall i, (i < K)%nat ->
     loop_condition pf wfi uc i (if wfi then 0 else Z.of_nat i) = true) ->
  (forall i, (i < K - 1)%nat -> get_next i <> None) ->
  get_next (K - 1) = None ->
  forall fuel, (K <= fuel)%nat ->
  exists tr,
    exec fuel cfg = Some (false, tr) /\
    nth_error (poll_results tr) (K - 1) = Some false.
Proof.
  intros HK Huc Hc Ha Ho Hcond Hok Hfail fuel Hfuel.
  set (frames := fun i => match get_next i with Some d => d | None => [] end).
  assert (Hpre := poll_loop_prefix pv pf T get_next dflt pr m2 fp wfi uc frames Huc
                    (K - 1) O (S (fuel - K))).
  rewrite (poll_loop_fail pv pf T get_next dflt pr m2 fp wfi uc (fuel - K) (0 + (K - 1)))
    in Hpre.
  - replace (K - 1 + S (fuel - K))%nat with fuel in Hpre by lia.
    replace (if wfi then 0 else Z.of_nat 0) with 0 in Hpre by (destruct wfi; reflexivity).
    rewrite (execute_polling pv pf T get_next dflt pr m1 m2 fp wfi uc fuel cfg Hc Ha Ho).
    rewrite Hpre.
    + eexists. split; [reflexivity|].
      rewrite poll_results_app, before_polls, poll_results_app.
      rewrite (iterations_polls pv pf T dflt pr fp wfi), poll_results_app, flag_polls.
      simpl. rewrite nth_error_app2; rewrite repeat_length; [|lia].
      rewrite Nat.sub_diag. reflexivity.
    + intros i Hi. split; [apply Hcond; lia|].
      unfold frames. specialize (Hok i ltac:(lia)).
      destruct (get_next i); [reflexivity|contradiction].
  - apply Hcond. lia.
  - exact Hfail.
Qed.

End PollFailure.

(** C4. For [K >= 1]: in every run that has ended and whose [K]-th
    [get_next] failed, [K - 1] frame lines were written, no further poll
    was made and the result is failure (for [main]: exit status
    failure); and the run in which the loop reaches the [K]-th call and
    that call fails does end, within [K] iterations. *)
Theorem C4_failed_poll_ends_run {F : FloatOps} (pv : provider) (pf : platform) (K : nat) :
  (1 <= K)%nat ->
  all_services pv pf (fun T get_next dflt pr exec =>
    forall cfg fp wfi uc,
      (forall fuel r tr,
         exec fuel cfg fp wfi uc = Some (r, tr) ->
         nth_error (poll_results tr) (K - 1) = Some false ->
         line_writes tr = (K - 1)%nat /\
         List.length (poll_results tr) = K /\
         r = false)
      /\
      (0 <= uc < 65536 ->
       service_create_ok pv cfg = true -> activate_ok pv = true ->
       fp = None \/ fopen_ok pf = true ->
       (forall i, (i < K)%nat ->
          loop_condition pf wfi uc i (if wfi then 0 else Z.of_nat i) = true) ->
       (forall i, (i < K - 1)%nat -> get_next i <> None) ->
       get_next (K - 1)%nat = None ->
       forall fuel, (K <= fuel)%nat ->
       exists tr,
         exec fuel cfg fp wfi uc = Some (false, tr) /\
         nth_error (poll_results tr) (K - 1) = Some false))
  /\
  forall fuel opts st tr,
    main pv pf fuel opts = Some (st, tr) ->
    nth_error (poll_results tr) (K - 1) = Some false ->
    line_writes tr = (K - 1)%nat /\
    List.length (poll_results tr) = K /\
    st = EXIT_FAILURE.
Proof.
  intros HK. split.
  - apply all_services_intro. intros T get_next dflt pr m1 m2 Hpr cfg fp wfi uc. split.
    + intros fuel r tr H Hn.
      destruct (execute_failed_poll pv pf T get_next dflt pr m1 m2 fp wfi uc Hpr
                  K fuel cfg r tr HK H Hn) as (L & P & R & _).
      auto.
    + intros. eapply execute_poll_fails; eauto.
  - intros fuel opts st tr H Hn.
    destruct (main_run pv pf fuel opts)
      as [(tr' & E & Hq)
         |(T & gn & dflt & pr & m1 & m2 & input & cfg & pre & post & Hpr & Hpre & Hpost & _ & E)];
      rewrite E in H.
    + inversion H; subst.
      rewrite (poll_results_quiet main_event tr Hq) in Hn by (intros []; simpl; congruence).
      destruct (K - 1)%nat; discriminate Hn.
    + destruct (execute _ _ _ _ _ _ _ _ _ _ _ _ _) as [[r te]|] eqn:Ee; [|discriminate].
      inversion H; subst.
      rewrite (wrapped_polls pre te _ Hpre (Hpost r)) in *.
      rewrite (wrapped_lines pre te _ Hpre (Hpost r)).
      destruct (execute_failed_poll _ _ _ _ _ _ _ _ _ _ _ Hpr K fuel cfg r te HK Ee Hn)
        as (L & P & -> & _).
      auto.
Qed.

Lemma C4_failed_poll_ends_run_witness :
  let pv := scripted_provider 3 true (fails_at 1 two_frames) two_iq_frames true in
  let pf := good_platform None in
  (1 <= 2)%nat /\
  (exists tr,
     main pv pf 5 [("t"%char, "0"); ("c"%char, "3")] = Some (EXIT_FAILURE, tr) /\
     nth_error (poll_results tr) 1 = Some false /\
     line_writes tr = 1%nat /\ List.length (poll_results tr) = 2%nat) /\
  (exists tr,
     execute_power_bin pv pf 2 (Some a_configuration) None true 0 = Some (false, tr) /\
     nth_error (poll_results tr) 1 = Some false).
Proof.
  intros pv pf.
  assert (H2 : (1 <= 2)%nat) by lia.
  destruct (C4_failed_poll_ends_run pv pf 2 H2) as [[Hpb _] Hmain].
  split; [exact H2|]. split.
  - eexists. split; [reflexivity|]. split; [reflexivity|].
    destruct (Hmain 5%nat [("t"%char, "0"); ("c"%char, "3")] EXIT_FAILURE _ eq_refl eq_refl)
      as (L & P & _).
    split; [exact L|exact P].
  - destruct (Hpb (Some a_configuration) None true 0) as [_ Hrun].
    apply Hrun.
    + lia.
    + reflexivity.
    + reflexivity.
    + left; reflexivity.
    + intros i _. reflexivity.
    + intros i Hi. destruct i; [discriminate|lia].
    + reflexivity.
    + lia.
Defined.

(** ** Bounded runs *)

Lemma frame_text_count {T : Type} (pr : T -> string) (dflt : T) c m :
  (forall x, count_char c (pr x) = m) ->
  forall len data,
    count_char c (frame_text pr dflt len data) = (m * len + count_char c nl)%nat.
Proof.
  intros Hpr len data. unfold frame_text.
  assert (H : forall l : list nat,
            count_char c (fold_right append nl (map (fun i => pr (nth i data dflt)) l))
            = (m * List.length l + count_char c nl)%nat).
  { induction l as [|i l IH]; simpl fold_right; simpl List.length.
    - lia.
    - rewrite count_char_append, Hpr, IH. lia. }
  rewrite H, length_seq. reflexivity.
Qed.

Lemma fprintf_uint_fields (x : Z) :
  count_char TAB (append (print_u x) tab) = 1%nat /\
  count_char NL (append (print_u x) tab) = O.
Proof.
  rewrite !count_char_append, !print_u_digits by reflexivity. split; reflexivity.
Qed.

Lemma fprintf_iq_fields {F : FloatOps} :
  (forall x, count_char TAB (PRIfloat x) = O /\ count_char NL (PRIfloat x) = O) ->
  forall z, count_char TAB (fprintf_iq z) = 2%nat /\ count_char NL (fprintf_iq z) = O.
Proof.
  intros H z. unfold fprintf_iq. rewrite !count_char_append.
  destruct (H (fst z)) as [-> ->]. destruct (H (snd z)) as [-> ->]. split; reflexivity.
Qed.

Section Bounded.

Context {F : FloatOps}.
Variable pv : provider.
Variable pf : platform.
Variable T : Type.
Variable get_next : nat -> option (list T).
Variable dflt : T.
Variable pr : T -> string.
Variables m1 m2 : string.
Variable fp : option string.

Hypothesis pr_not_nl : forall x, pr x <> nl.

(** A bounded run whose polls all succeed makes [N] iterations. *)
Lemma execute_bounded (N : nat) (frames : nat -> list T) cfg fuel :
  Z.of_nat N < 65536 ->
  (forall k, get_next k = Some (frames k)) ->
  service_create_ok pv cfg = true -> activate_ok pv = true ->
  fp = None \/ fopen_ok pf = true ->
  (N < fuel)%nat ->
  exists tr,
    execute pv pf T get_next dflt pr m1 m2 fp false (Z.of_nat N) fuel cfg
    = Some (deactivate_ok pv, tr) /\
    line_writes tr = N /\
    poll_results tr = repeat true N /\
    sink_text tr =
      fold_right append EmptyString
        (map (fun k => frame_text pr dflt (metadata_length pv) (frames k)) (seq 0 N)) /\
    count is_destroy tr = 1%nat.
Proof.
  intros HN Hg Hc Ha Ho Hfuel.
  assert (Hpre := poll_loop_prefix pv pf T get_next dflt pr m2 fp false (Z.of_nat N) frames
                    ltac:(lia) N O (S (fuel - S N))).
  cbv beta iota in Hpre. change (Z.of_nat 0) with 0 in Hpre.
  rewrite (poll_loop_end pv pf T get_next dflt pr m2 fp false (Z.of_nat N)) in Hpre.
  2:{ unfold loop_condition. simpl. apply Z.ltb_irrefl. }
  replace (N + S (fuel - S N))%nat with fuel in Hpre by lia.
  rewrite (execute_polling pv pf T get_next dflt pr m1 m2 fp false (Z.of_nat N) fuel cfg
             Hc Ha Ho).
  rewrite Hpre.
  2:{ intros i Hi. split; [|apply Hg].
      unfold loop_condition. simpl. apply Z.ltb_lt. lia. }
  eexists. split; [reflexivity|].
  change (read_flag pf false (0 + N)) with (@nil event). rewrite app_nil_r.
  match goal with
  | |- context [(_ ++ flat_map ?f ?s ++ _)] =>
      destruct (framed_loop pv pf fp cfg (flat_map f s)) as (-> & -> & -> & Hd)
  end.
  rewrite (iterations_polls pv pf T dflt pr fp false), (iterations_text pv pf T dflt pr fp false).
  rewrite (iterations_lines pv pf T dflt pr fp false pr_not_nl frames O N).
  repeat split. apply Hd.
  assert (Hev : forall n k,
            forallb loop_event
              (flat_map (fun i => read_flag pf false i
                                  ++ EvGetNext true :: write_frame pv T dflt pr fp (frames i))
                        (seq k n)) = true).
  { induction n as [|n IH]; intros k; [reflexivity|].
    cbn [seq flat_map]. rewrite forallb_app, IH. simpl.
    rewrite wframe_loop_event. reflexivity. }
  apply Hev.
Qed.

End Bounded.

(** C2. A bounded run ([wait_for_interrupt] false, [update_count = N],
    [0 < N < 2^16]) that reaches the loop and whose polls all succeed
    ends after [N] polls, has written exactly [N] lines, one per frame in
    order, and each line holds as many tab-terminated fields as the
    frame has elements (twice as many for IQ, the format of a [float]
    having no tab or newline of its own). *)
Theorem C2_bounded_run_writes_N_lines {F : FloatOps} (pv : provider) (pf : platform)
  (N : nat) :
  0 < Z.of_nat N < 65536 ->
  all_services pv pf (fun T get_next dflt pr exec =>
    forall frames cfg fp fuel,
      (forall k, get_next k = Some (frames k)) ->
      service_create_ok pv cfg = true -> activate_ok pv = true ->
      fp = None \/ fopen_ok pf = true ->
      (N < fuel)%nat ->
      exists tr,
        exec fuel cfg fp false (Z.of_nat N) = Some (deactivate_ok pv, tr) /\
        line_writes tr = N /\
        poll_results tr = repeat true N /\
        sink_text tr =
          fold_right append EmptyString
            (map (fun k => frame_text pr dflt (metadata_length pv) (frames k)) (seq 0 N)))
  /\
  (forall len data,
     count_char TAB (frame_text fprintf_power_bin 0 len data) = len /\
     count_char NL (frame_text fprintf_power_bin 0 len data) = 1%nat)
  /\
  (forall len data,
     count_char TAB (frame_text fprintf_envelope 0 len data) = len /\
     count_char NL (frame_text fprintf_envelope 0 len data) = 1%nat)
  /\
  ((forall x, count_char TAB (PRIfloat x) = O /\ count_char NL (PRIfloat x) = O) ->
   forall dflt len data,
     count_char TAB (frame_text fprintf_iq dflt len data) = (2 * len)%nat /\
     count_char NL (frame_text fprintf_iq dflt len data) = 1%nat).
Proof.
  intros HN. split; [|split; [|split]].
  - apply all_services_intro.
    intros T get_next dflt pr m1 m2 Hpr frames cfg fp fuel Hg Hc Ha Ho Hfuel.
    destruct (execute_bounded pv pf T get_next dflt pr m1 m2 fp Hpr N frames cfg fuel
                ltac:(lia) Hg Hc Ha Ho Hfuel) as (tr & E & L & P & S & _).
    exists tr. auto.
  - intros len data. split.
    + rewrite (frame_text_count fprintf_power_bin 0 TAB 1); [simpl; lia|].
      intros x. apply fprintf_uint_fields.
    + rewrite (frame_text_count fprintf_power_bin 0 NL 0); [reflexivity|].
      intros x. apply fprintf_uint_fields.
  - intros len data. split.
    + rewrite (frame_text_count fprintf_envelope 0 TAB 1); [simpl; lia|].
      intros x. apply fprintf_uint_fields.
    + rewrite (frame_text_count fprintf_envelope 0 NL 0); [reflexivity|].
      intros x. apply fprintf_uint_fields.
  - intros Hfl dflt len data. split.
    + rewrite (frame_text_count fprintf_iq dflt TAB 2); [simpl; lia|].
      intros z. apply (fprintf_iq_fields Hfl).
    + rewrite (frame_text_count fprintf_iq dflt NL 0); [reflexivity|].
      intros z. apply (fprintf_iq_fields Hfl).
Qed.

Lemma C2_bounded_run_writes_N_lines_witness :
  let pv := scripted_provider 3 true two_frames two_iq_frames true in
  0 < Z.of_nat 2 < 65536 /\
  exists tr,
    execute_power_bin pv (good_platform None) 3 (Some a_configuration) None false 2
    = Some (true, tr) /\
    line_writes tr = 2%nat /\
    sink_text tr = append (tsv_line ["1"; "2"; "3"]) (tsv_line ["4"; "5"; "6"]).
Proof.
  intros pv.
  assert (H : 0 < Z.of_nat 2 < 65536) by (split; reflexivity).
  split; [exact H|].
  destruct (C2_bounded_run_writes_N_lines pv (good_platform None) 2 H) as [[Hpb _] _].
  destruct (Hpb (fun k => match two_frames k with Some d => d | None => [] end)
                (Some a_configuration) None 3%nat) as (tr & E & L & _ & S).
  - intros k. destruct k as [|[|k]]; reflexivity.
  - reflexivity.
  - reflexivity.
  - left; reflexivity.
  - lia.
  - exists tr. split; [exact E|]. split; [exact L|exact S].
Defined.

(** ** The signal handler *)

Lemma interrupt_handler_keeps signum flag : flag <> 0 -> interrupt_handler signum flag <> 0.
Proof. unfold interrupt_handler. destruct (signum =? SIGINT); [discriminate|auto]. Qed.

Lemma deliver_keeps signals : forall flag, flag <> 0 -> deliver signals flag <> 0.
Proof.
  unfold deliver. induction signals as [|s l IH]; intros flag H; simpl; [exact H|].
  apply IH. apply interrupt_handler_keeps. exact H.
Qed.

Lemma deliver_sigint signals : forall flag, In SIGINT signals -> deliver signals flag <> 0.
Proof.
  unfold deliver. induction signals as [|s l IH]; intros flag H; simpl; [destruct H|].
  destruct H as [->|H]; [|apply IH; exact H].
  apply (deliver_keeps l). unfold interrupt_handler. rewrite Z.eqb_refl. discriminate.
Qed.

(** The flag is never reset: once set it is set at every later check. *)
Lemma flag_at_keeps arrivals k : flag_at arrivals k <> 0 -> flag_at arrivals (S k) <> 0.
Proof. intros H. cbn [flag_at]. apply deliver_keeps. exact H. Qed.

(** A SIGINT handled during iteration [i] is seen by the next check. *)
Lemma flag_at_sigint arrivals i : In SIGINT (arrivals (S i)) -> flag_at arrivals (S i) <> 0.
Proof. intros H. cbn [flag_at]. apply deliver_sigint. exact H. Qed.

(** ** Unbounded runs *)

Section Unbounded.

Context {F : FloatOps}.
Variable pv : provider.
Variable pf : platform.
Variable T : Type.
Variable get_next : nat -> option (list T).
Variable dflt : T.
Variable pr : T -> string.
Variables m1 m2 : string.
Variable fp : option string.

Hypothesis pr_not_nl : forall x, pr x <> nl.

Local Abbreviation loop := (poll_loop pv pf T get_next dflt pr m2 fp true 0).
Local Abbreviation exec := (execute pv pf T get_next dflt pr m1 m2 fp true 0).
Local Abbreviation wframe := (write_frame pv T dflt pr fp).

Lemma unbounded_condition k : loop_condition pf true 0 k 0 = negb (interrupted pf k).
Proof. unfold loop_condition. simpl. apply orb_false_r. Qed.

Lemma wframe_count d p :
  (forall s, p (EvFprintf s) = false) -> p EvFflush = false -> count p (wframe d) = O.
Proof.
  intros Hs Hf. apply (count_quiet (fun e => negb (p e))).
  - unfold write_frame. rewrite !forallb_app.
    replace (forallb _ (map _ _)) with true.
    + simpl. rewrite Hs. destruct fp; simpl; rewrite ?Hf; reflexivity.
    + induction (seq 0 (metadata_length pv)) as [|i l IH]; simpl; [reflexivity|].
      rewrite Hs, <- IH. reflexivity.
  - intros e He. destruct (p e); [discriminate|reflexivity].
Qed.

(** One iteration in front of the rest of the loop. *)
Lemma after_last_iteration d tr :
  after_last is_clear_read (EvReadInterrupted false :: EvGetNext true :: wframe d ++ tr) =
  if existsb is_clear_read tr then after_last is_clear_read tr
  else EvGetNext true :: wframe d ++ tr.
Proof.
  assert (Hw : existsb is_clear_read (wframe d) = false)
    by (apply wframe_no_read; reflexivity).
  cbn [after_last existsb is_clear_read orb]. rewrite existsb_app, Hw. simpl.
  destruct (existsb is_clear_read tr) eqn:E; [|reflexivity].
  apply after_last_app_r. exact E.
Qed.

(** The shape of an unbounded loop that has ended: the flag is read once
    per iteration, before the poll; a read that finds it set is the last
    event; what follows the last read that found it clear is at most
    one poll and one line. *)
Lemma unbounded_loop fuel k r tr :
  loop fuel k 0 = Some (r, tr) ->
  (existsb is_clear_read tr = false -> tr = [EvReadInterrupted true]) /\
  (line_writes (after_last is_clear_read tr) <= 1)%nat /\
  (List.length (poll_results (after_last is_clear_read tr)) <= 1)%nat /\
  after_first is_set_read tr = [] /\
  count is_clear_read tr = List.length (poll_results tr) /\
  (count is_set_read tr <= 1)%nat /\
  (forall i, (i < List.length (poll_results tr))%nat -> interrupted pf (k + i) = false) /\
  (r = LoopEnded ->
   interrupted pf (k + line_writes tr) = true /\ existsb is_set_read tr = true).
Proof.
  intros H.
  refine (poll_loop_cases pv pf T get_next dflt pr m2 fp true 0
            (fun k u r tr => u = 0 -> _) _ _ _ fuel k 0 r tr H eq_refl);
    clear H; clear fuel k r tr.
  - intros k u Hc ->. rewrite unbounded_condition in Hc.
    apply negb_false_iff in Hc. unfold read_flag. rewrite Hc.
    repeat split; try reflexivity; unfold line_writes, count; simpl; try lia.
    rewrite Nat.add_0_r. exact Hc.
  - intros k u Hc _ ->. rewrite unbounded_condition in Hc.
    apply negb_true_iff in Hc. unfold read_flag. rewrite Hc. simpl.
    repeat split; try reflexivity; try discriminate; unfold line_writes, count;
      simpl; try lia.
    intros i Hi. replace i with O by lia. rewrite Nat.add_0_r. exact Hc.
  - intros k u d r tr Hc _ IH ->. specialize (IH eq_refl).
    destruct IH as (I1 & I2 & I3 & I4 & I5 & I6 & I7 & I8).
    rewrite unbounded_condition in Hc. apply negb_true_iff in Hc.
    unfold read_flag. rewrite Hc. cbn [app].
    assert (Hwc : count is_clear_read (wframe d) = O) by (apply wframe_count; reflexivity).
    assert (Hws : count is_set_read (wframe d) = O) by (apply wframe_count; reflexivity).
    assert (Hes : existsb is_set_read (wframe d) = false)
      by (apply wframe_no_read; reflexivity).
    assert (Hl : line_writes (wframe d) = 1%nat) by (apply wframe_lines; exact pr_not_nl).
    assert (Hp : poll_results (wframe d) = []) by apply wframe_polls.
    rewrite after_last_iteration.
    split; [discriminate|].
    split; [|split; [|split; [|split; [|split; [|split]]]]].
    + destruct (existsb is_clear_read tr) eqn:E; [exact I2|].
      rewrite (I1 eq_refl). unfold line_writes in *.
      rewrite count_cons, count_app, Hl. unfold count. simpl. lia.
    + destruct (existsb is_clear_read tr) eqn:E; [exact I3|].
      rewrite (I1 eq_refl). cbn [poll_results]. rewrite poll_results_app, Hp. simpl. lia.
    + cbn [after_first is_set_read]. rewrite after_first_app_r by exact Hes. exact I4.
    + rewrite !count_cons, count_app, Hwc, I5. cbn [poll_results].
      rewrite poll_results_app, Hp. simpl. reflexivity.
    + rewrite !count_cons, count_app, Hws. simpl. exact I6.
    + cbn [poll_results]. rewrite poll_results_app, Hp. simpl.
      intros i Hi. destruct i as [|i]; [rewrite Nat.add_0_r; exact Hc|].
      replace (k + S i)%nat with (S k + i)%nat by lia. apply I7. lia.
    + intros Hr. destruct (I8 Hr) as [J1 J2]. split.
      * unfold line_writes in *. rewrite !count_cons, count_app, Hl. simpl.
        replace (k + S (count is_line_end tr))%nat
          with (S k + count is_line_end tr)%nat by lia.
        exact J1.
      * cbn [existsb is_set_read orb]. rewrite existsb_app, J2. apply orb_true_r.
Qed.

(** Once the flag is set the loop ends. *)
Lemma unbounded_loop_ends j : interrupted pf j = true ->
  forall fuel k, (k <= j)%nat -> (j - k < fuel)%nat -> loop fuel k 0 <> None.
Proof.
  intros Hj. induction fuel as [|fuel IH]; intros k Hk Hf; [lia|].
  cbn [poll_loop]. rewrite unbounded_condition.
  destruct (interrupted pf k) eqn:Hi; simpl; [discriminate|].
  destruct (get_next k); [|discriminate].
  assert (k <> j) by (intros ->; congruence).
  specialize (IH (S k) ltac:(lia) ltac:(lia)).
  destruct (loop fuel (S k) 0) as [[r tr]|]; [discriminate|contradiction].
Qed.

End Unbounded.

Section UnboundedRun.

Context {F : FloatOps}.
Variable pv : provider.
Variable pf : platform.
Variable T : Type.
Variable get_next : nat -> option (list T).
Variable dflt : T.
Variable pr : T -> string.
Variables m1 m2 : string.
Variable fp : option string.

Hypothesis pr_not_nl : forall x, pr x <> nl.

Local Abbreviation exec := (execute pv pf T get_next dflt pr m1 m2 fp true 0).
Local Abbreviation before cfg :=
  ([EvServiceCreate cfg true; EvGetMetadata]
   ++ EvActivate true
      :: match fp with Some p => [EvFopen p (fopen_ok pf)] | None => [] end).
Local Abbreviation after :=
  (match fp with Some _ => [EvFclose] | None => [] end
   ++ [EvDeactivate (deactivate_ok pv); EvDestroy]).

Lemma before_no_read cfg p :
  p = is_clear_read \/ p = is_set_read ->
  existsb p (before cfg) = false /\ count p (before cfg) = O.
Proof. intros [-> | ->]; destruct fp; split; reflexivity. Qed.

Lemma after_no_read p :
  p = is_clear_read \/ p = is_set_read ->
  existsb p after = false /\ count p after = O.
Proof. intros [-> | ->]; destruct fp; split; reflexivity. Qed.

(** The same shape, for the whole service run. *)
Lemma execute_unbounded fuel cfg r tr :
  exec fuel cfg = Some (r, tr) ->
  (line_writes (after_last is_clear_read tr) <= 1)%nat /\
  (List.length (poll_results (after_last is_clear_read tr)) <= 1)%nat /\
  poll_results (after_first is_set_read tr) = [] /\
  line_writes (after_first is_set_read tr) = O /\
  count is_clear_read tr = List.length (poll_results tr) /\
  (count is_set_read tr <= 1)%nat /\
  (forall i, (i < List.length (poll_results tr))%nat -> interrupted pf i = false) /\
  (existsb is_deactivate tr = true ->
   interrupted pf (line_writes tr) = true /\ existsb is_set_read tr = true).
Proof.
  intros H. apply execute_cases in H.
  destruct H as [(_ & _ & ->)|[(_ & _ & _ & ->)|[(p & _ & _ & _ & _ & _ & ->)
                |[(ltr & _ & _ & Hl & _ & ->)|(ltr & _ & _ & Hl & _ & ->)]]]].
  1-3: unfold line_writes, count; simpl; repeat split; try lia; try discriminate;
       intros i Hi; inversion Hi.
  - destruct (unbounded_loop pv pf T get_next dflt pr m2 fp pr_not_nl fuel O _ _ Hl)
      as (I1 & I2 & I3 & I4 & I5 & I6 & I7 & _).
    destruct (before_no_read cfg is_clear_read (or_introl eq_refl)) as [Bc Bcc].
    destruct (before_no_read cfg is_set_read (or_intror eq_refl)) as [Bs Bsc].
    pose proof (poll_loop_events _ _ _ _ _ _ _ _ _ _ _ _ _ _ _ Hl) as He.
    rewrite (after_first_app_r _ (before cfg) ltr Bs), I4.
    rewrite (count_app is_clear_read (before cfg) ltr), Bcc.
    rewrite (count_app is_set_read (before cfg) ltr), Bsc.
    rewrite (poll_results_app (before cfg) ltr), before_polls.
    split; [|split; [|split; [reflexivity|split; [reflexivity|]]]].
    + destruct (existsb is_clear_read ltr) eqn:E.
      * rewrite after_last_app_r by exact E. exact I2.
      * rewrite after_last_none by (rewrite existsb_app, Bc, E; reflexivity).
        rewrite (I1 eq_refl). destruct fp; unfold line_writes, count; simpl; lia.
    + destruct (existsb is_clear_read ltr) eqn:E.
      * rewrite after_last_app_r by exact E. exact I3.
      * rewrite after_last_none by (rewrite existsb_app, Bc, E; reflexivity).
        rewrite (I1 eq_refl). destruct fp; simpl; lia.
    + split; [exact I5|]. split; [exact I6|]. split; [exact I7|].
      rewrite existsb_app.
      rewrite (existsb_quiet loop_event is_deactivate ltr He)
        by (intros []; simpl; congruence).
      destruct fp; discriminate.
  - destruct (unbounded_loop pv pf T get_next dflt pr m2 fp pr_not_nl fuel O _ _ Hl)
      as (I1 & I2 & I3 & I4 & I5 & I6 & I7 & I8).
    destruct (I8 eq_refl) as [J1 J2].
    destruct (before_no_read cfg is_clear_read (or_introl eq_refl)) as [Bc Bcc].
    destruct (before_no_read cfg is_set_read (or_intror eq_refl)) as [Bs Bsc].
    destruct (after_no_read is_clear_read (or_introl eq_refl)) as [Ac Acc].
    destruct (after_no_read is_set_read (or_intror eq_refl)) as [As' Asc].
    destruct (framed_loop pv pf fp cfg ltr) as (Fl & Fp & _ & _).
    rewrite (after_first_app_r _ (before cfg) (ltr ++ after) Bs).
    rewrite (after_first_app_l _ ltr after J2), I4, app_nil_l.
    rewrite after_polls, after_lines, Fl, Fp.
    rewrite (count_app _ (before cfg)), (count_app _ ltr), Bcc, Acc.
    rewrite (count_app _ (before cfg)), (count_app _ ltr), Bsc, Asc.
    split; [|split; [|split; [reflexivity|split; [reflexivity|]]]].
    + destruct (existsb is_clear_read ltr) eqn:E.
      * rewrite after_last_app_r by (rewrite existsb_app, E; reflexivity).
        rewrite after_last_app_l by exact Ac.
        unfold line_writes in *. rewrite count_app. fold (line_writes after).
        rewrite after_lines. lia.
      * rewrite after_last_none
          by (rewrite (existsb_app _ (before cfg)), (existsb_app _ ltr), Bc, E, Ac;
              reflexivity).
        rewrite Fl, (I1 eq_refl). unfold line_writes, count. simpl. lia.
    + destruct (existsb is_clear_read ltr) eqn:E.
      * rewrite after_last_app_r by (rewrite existsb_app, E; reflexivity).
        rewrite after_last_app_l by exact Ac.
        rewrite poll_results_app, after_polls, app_nil_r. exact I3.
      * rewrite after_last_none
          by (rewrite (existsb_app _ (before cfg)), (existsb_app _ ltr), Bc, E, Ac;
              reflexivity).
        rewrite Fp, (I1 eq_refl). simpl. lia.
    + split; [simpl; rewrite Nat.add_0_r; exact I5|].
      split; [simpl; rewrite Nat.add_0_r; exact I6|].
      split; [exact I7|]. intros _. split; [exact J1|].
      rewrite (existsb_app _ (before cfg)), (existsb_app _ ltr), J2.
      rewrite orb_true_r. reflexivity.
Qed.

(** Once the flag is set the run ends. *)
Lemma execute_unbounded_ends j fuel cfg :
  interrupted pf j = true -> (j < fuel)%nat -> exec fuel cfg <> None.
Proof.
  intros Hj Hf Hn. apply execute_none in Hn.
  apply (unbounded_loop_ends pv pf T get_next dflt pr m2 fp j Hj fuel O); [lia|lia|exact Hn].
Qed.


End UnboundedRun.

(** ** The update count and [wait_for_interrupt] *)

Lemma is_opt_eq c o : is_opt c (String o EmptyString) = true -> c = o.
Proof.
  unfold is_opt. intros H. apply String.eqb_eq in H. congruence.
Qed.

(** Only the sweep-count option touches the counter and the flag
    [wait_for_interrupt]. *)
Lemma parse_options_no_count {F : FloatOps} pf opts :
  (forall c optarg, In (c, optarg) opts -> c <> "c"%char) ->
  forall input0 b input tp,
    parse_options pf opts input0 = (Returned b input, tp) ->
    update_count input = update_count input0 /\
    wait_for_interrupt input = wait_for_interrupt input0.
Proof.
  induction opts as [|[c optarg] rest IH]; intros Hno input0 b input tp H.
  - simpl in H. destruct (service_type input0); injection H as <- <- <-; auto.
  - assert (Hrest : forall c optarg, In (c, optarg) rest -> c <> "c"%char)
      by (intros c' o' Hin; apply (Hno c' o'); right; exact Hin).
    specialize (IH Hrest).
    assert (Hc : is_opt c "c" = false).
    { destruct (is_opt c "c") eqn:E; [|reflexivity].
      apply is_opt_eq in E. destruct (Hno c optarg (or_introl eq_refl) E). }
    cbn [parse_options] in H. rewrite Hc in H.
    repeat match type of H with
           | context [if ?x then _ else _] => destruct x
           | context [match atoi ?s with _ => _ end] =>
               destruct (atoi s) as [|[p|[p|p|]|]|p]
           | context [let (_, _) := ?p in _] => destruct p as [? ?] eqn:?
           end;
      try discriminate H;
      try (injection H as <- <- <-; auto; fail);
      try (apply IH in H; exact H).
    injection H as -> <-.
    match goal with E : parse_options _ _ _ = _ |- _ => apply IH in E; exact E end.
Qed.




(** ** Early returns *)

(** When the output file cannot be opened the function returns at once:
    the handle, created and activated, is neither deactivated nor
    destroyed. *)
Lemma execute_fopen_fails {F : FloatOps} pv pf T get_next dflt pr m1 m2 p wfi uc fuel cfg :
  service_create_ok pv cfg = true -> activate_ok pv = true -> fopen_ok pf = false ->
  exists tr,
    execute pv pf T get_next dflt pr m1 m2 (Some p) wfi uc fuel cfg = Some (false, tr) /\
    In (EvServiceCreate cfg true) tr /\ In (EvActivate true) tr /\
    count is_deactivate tr = O /\ count is_destroy tr = O.
Proof.
  intros Hc Ha Ho. unfold execute. rewrite Hc, Ha, Ho.
  eexists. split; [reflexivity|]. simpl. auto 10.
Qed.

(** The other exits (activation failure, end of the loop by count or
    by cancellation) fall through to [acc_service_destroy], once. *)
Lemma execute_destroys_once {F : FloatOps} pv pf T get_next dflt pr m1 m2 fp wfi uc
  fuel cfg r tr :
  execute pv pf T get_next dflt pr m1 m2 fp wfi uc fuel cfg = Some (r, tr) ->
  In (EvActivate false) tr \/ existsb is_deactivate tr = true ->
  count is_destroy tr = 1%nat.
Proof.
  intros H Hd. apply execute_cases in H.
  destruct H as [(_ & _ & ->)|[(_ & _ & _ & ->)|[(p & _ & _ & _ & _ & _ & ->)
                |[(ltr & _ & _ & Hl & _ & ->)|(ltr & _ & _ & Hl & _ & ->)]]]].
  - destruct Hd as [[Hd|[Hd|[]]]|Hd]; discriminate Hd.
  - reflexivity.
  - destruct Hd as [[Hd|[Hd|[Hd|[Hd|[Hd|[]]]]]]|Hd]; discriminate Hd.
  - pose proof (poll_loop_events _ _ _ _ _ _ _ _ _ _ _ _ _ _ _ Hl) as He.
    exfalso. destruct Hd as [Hd|Hd].
    + apply in_app_or in Hd as [Hd|Hd].
      * destruct fp; simpl in Hd; intuition discriminate.
      * apply (in_quiet loop_event ltr (EvActivate false) He eq_refl Hd).
    + rewrite existsb_app in Hd.
      rewrite (existsb_quiet loop_event is_deactivate ltr He) in Hd
        by (intros []; simpl; congruence).
      destruct fp; discriminate Hd.
  - pose proof (poll_loop_events _ _ _ _ _ _ _ _ _ _ _ _ _ _ _ Hl) as He.
    destruct (framed_loop pv pf fp cfg ltr) as (_ & _ & _ & Hc). exact (Hc He).
Qed.

(** C1 fails on the code.  A poll that fails ([return false] in the
    loop) and an output file that cannot be opened ([return false]
    before the loop) both leave the function without
    [acc_service_destroy], although the handle was created. *)
Theorem C1_destroy_skipped_on_early_return :
  (exists tr,
     execute_power_bin
       (scripted_provider 3 true (fails_at 1 two_frames) two_iq_frames true)
       (good_platform None) 5 (Some a_configuration) None false 2 = Some (false, tr) /\
     In (EvServiceCreate (Some a_configuration) true) tr /\
     poll_results tr = [true; false] /\
     count is_destroy tr = O)
  /\
  (exists tr,
     execute_envelope
       (scripted_provider 3 true two_frames two_iq_frames true)
       no_file_platform 5 (Some a_configuration) (Some "out.txt") false 2
     = Some (false, tr) /\
     In (EvServiceCreate (Some a_configuration) true) tr /\
     In (EvFopen "out.txt" false) tr /\
     count is_destroy tr = O).
Proof.
  split; eexists; (split; [reflexivity|]); simpl; auto 10.
Qed.

(** ** A configuration that cannot be created *)

(** For power bins and envelope [main] returns [EXIT_FAILURE] before
    any call on the service; for IQ the [return] is missing and
    [acc_service_create] is called with the null configuration. *)
Lemma main_null_configuration {F : FloatOps} pv pf fuel opts input tp :
  hal_init_ok pf = true -> rss_activate_ok pf = true ->
  parse_options pf opts initialize_input = (Returned true input, tp) ->
  configuration_create_ok pv (service_type input) = false ->
  match service_type input with
  | POWER_BIN | ENVELOPE =>
      exists tr,
        main pv pf fuel opts = Some (EXIT_FAILURE, tr) /\ count is_service_call tr = O
  | IQ =>
      service_create_ok pv None = false ->
      exists tr,
        main pv pf fuel opts = Some (EXIT_FAILURE, tr) /\
        In (EvServiceCreate None false) tr /\ count is_service_call tr = 1%nat
  | INVALID_SERVICE => True
  end.
Proof.
  intros Hh Hr Hp Hc.
  pose proof (parse_options_events pf opts initialize_input) as Hq.
  rewrite Hp in Hq. simpl in Hq.
  assert (Hs : count is_service_call tp = O)
    by (apply (count_quiet main_event); [exact Hq|intros []; simpl; congruence]).
  assert (Hf : count is_service_call (free_file_path input) = O)
    by (unfold free_file_path; destruct (file_path input); reflexivity).
  unfold main. rewrite Hh, Hp, Hr. cbn [negb].
  destruct (service_type input); [exact I| | |].
  - unfold set_up_power_bin. rewrite Hc. eexists. split; [reflexivity|].
    rewrite !count_app, Hs, Hf. reflexivity.
  - unfold set_up_envelope. rewrite Hc. eexists. split; [reflexivity|].
    rewrite !count_app, Hs, Hf. reflexivity.
  - intros Hn. unfold set_up_iq, execute_iq, execute. rewrite Hc, Hn.
    eexists. split; [reflexivity|]. split.
    + apply in_or_app. right. apply in_or_app. right. apply in_or_app. right.
      apply in_or_app. left. left. reflexivity.
    + rewrite !count_app, Hs, Hf. reflexivity.
Qed.

(** C3 fails on the code for IQ.  With service type 2 and a
    configuration that cannot be created, [main] frees the file path
    and goes on: [acc_service_create] is called with the null
    configuration and the path is freed a second time. *)
Theorem C3_iq_null_configuration_reaches_create :
  exists tr,
    main no_configuration_provider (good_platform None) 1
         [("t"%char, "2"); ("o"%char, "out.txt")] = Some (EXIT_FAILURE, tr) /\
    In (EvConfigurationCreate IQ false) tr /\
    In (EvServiceCreate None false) tr /\
    count is_service_call tr = 1%nat /\
    count (fun e => match e with EvMemFree => true | _ => false end) tr = 2%nat.
Proof.
  eexists. split; [reflexivity|].
  repeat split; try reflexivity; simpl; repeat (first [left; reflexivity | right]).
Qed.

(** * Further properties of the program *)

(** ** [parse_options] *)

Section ParseFacts.

Context {F : FloatOps}.
Variable pf : platform.

(** What a property of the input must survive to hold of the parsed
    input: every assignment [parse_options] makes, under the check that
    guards it. *)
Lemma parse_options_invariant (P : input_t -> Prop) :
  (forall i v, v <> INVALID_SERVICE -> P i -> P (set_service_type v i)) ->
  (forall i a, P i ->
     P (set_wait_for_interrupt false (set_update_count (uint16 (atoi a)) i))) ->
  (forall i v, P i -> P (set_start_m v i)) ->
  (forall i v, P i -> P (set_end_m v i)) ->
  (forall i f, fltb (float_of_Q 0) f && fltb f (float_of_Q 100000) = true ->
     P i -> P (set_frequency f i)) ->
  (forall i g, fleb (float_of_Q 0) g && fleb g (float_of_Q 1) = true ->
     P i -> P (set_gain g i)) ->
  (forall i n, 0 < n <= 32 -> P i -> P (set_n_bins n i)) ->
  (forall i a, P i -> P (set_service_profile (uint32 (atoi a)) i)) ->
  (forall i o, P i -> P (set_file_path o i)) ->
  (forall i r, fleb (float_of_Q 0) r && fleb r (float_of_Q 1) = true ->
     P i -> P (set_running_avg r i)) ->
  (forall i s, 0 < s <= 4 -> P i -> P (set_sensor s i)) ->
  (forall i, P i -> P (set_log_level ACC_LOG_LEVEL_VERBOSE i)) ->
  forall opts input0 b input tp,
    P input0 ->
    parse_options pf opts input0 = (Returned b input, tp) ->
    P input.
Proof.
  intros Ht Hc Hb He Hf Hg Hn Hy Ho Hr Hs Hv.
  induction opts as [|[c a] rest IH]; intros input0 b input tp H0 H.
  - simpl in H. destruct (service_type input0); injection H as <- <- <-; exact H0.
  - cbn [parse_options] in H.
    destruct (is_opt c "t").
    { destruct (atoi a) as [|[p|[p|p|]|]|p];
        try (injection H as <- <- <-; exact H0);
        (eapply IH; [|exact H]); apply Ht; (discriminate || exact H0). }
    destruct (is_opt c "c"); [eapply IH; [|exact H]; apply Hc; exact H0|].
    destruct (is_opt c "b"); [eapply IH; [|exact H]; apply Hb; exact H0|].
    destruct (is_opt c "e"); [eapply IH; [|exact H]; apply He; exact H0|].
    destruct (is_opt c "f").
    { cbv zeta in H. destruct (fltb _ _ && fltb _ _) eqn:E; [|discriminate H].
      eapply IH; [|exact H]. apply Hf; assumption. }
    destruct (is_opt c "g").
    { cbv zeta in H. destruct (fleb _ _ && fleb _ _) eqn:E; [|discriminate H].
      eapply IH; [|exact H]. apply Hg; assumption. }
    destruct (is_opt c "n").
    { cbv zeta in H. destruct ((0 <? atoi a) && (atoi a <=? 32)) eqn:E; [|discriminate H].
      eapply IH; [|exact H]. apply Hn; [|exact H0].
      apply andb_true_iff in E as [E1 E2]. apply Z.ltb_lt in E1. apply Z.leb_le in E2. lia. }
    destruct (is_opt c "y"); [eapply IH; [|exact H]; apply Hy; exact H0|].
    destruct (is_opt c "o").
    { destruct (mem_alloc_ok pf).
      - destruct (parse_options pf rest (set_file_path (Some a) input0)) as [r t] eqn:E.
        injection H as -> <-. eapply IH; [|exact E]. apply Ho; exact H0.
      - injection H as <- <- <-. apply Ho; exact H0. }
    destruct (is_opt c "r").
    { cbv zeta in H. destruct (fleb _ _ && fleb _ _) eqn:E; [|discriminate H].
      eapply IH; [|exact H]. apply Hr; assumption. }
    destruct (is_opt c "s").
    { cbv zeta in H. destruct ((0 <? atoi a) && (atoi a <=? 4)) eqn:E; [|discriminate H].
      eapply IH; [|exact H]. apply Hs; [|exact H0].
      apply andb_true_iff in E as [E1 E2]. apply Z.ltb_lt in E1. apply Z.leb_le in E2. lia. }
    destruct (is_opt c "v"); [eapply IH; [|exact H]; apply Hv; exact H0|].
    destruct (is_opt c "h" || is_opt c "?"); [injection H as <- <- <-; exact H0|].
    eapply IH; [exact H0|exact H].
Qed.

Lemma is_opt_refl c : is_opt c (String c EmptyString) = true.
Proof. unfold is_opt. apply String.eqb_refl. Qed.

Lemma is_opt_neq c o : c <> o -> is_opt c (String o EmptyString) = false.
Proof.
  intros H. destruct (is_opt c (String o EmptyString)) eqn:E; [|reflexivity].
  apply is_opt_eq in E. contradiction.
Qed.

(** What a successful parse says of its first option: it is not the
    help option, a service type is one of the three, and the rest of
    the options is parsed, with success, from the input this option
    leaves. *)
Lemma parse_options_success c a rest input0 input tp :
  parse_options pf ((c, a) :: rest) input0 = (Returned true input, tp) ->
  c <> "h"%char /\ c <> "?"%char /\
  (c = "t"%char -> service_of (atoi a) <> INVALID_SERVICE) /\
  exists input1 tp1,
    parse_options pf rest input1 = (Returned true input, tp1) /\
    (c = "t"%char -> input1 = set_service_type (service_of (atoi a)) input0) /\
    (c <> "t"%char -> service_type input1 = service_type input0) /\
    (c = "c"%char ->
     input1 = set_wait_for_interrupt false (set_update_count (uint16 (atoi a)) input0)) /\
    (c <> "o"%char -> file_path input1 = file_path input0) /\
    (c = "o"%char -> file_path input1 = Some a /\ mem_alloc_ok pf = true).
Proof.
  intros H. cbn [parse_options] in H.
  assert (Hsimple : forall o input1 tp1,
            is_opt c (String o EmptyString) = true ->
            o <> "h"%char -> o <> "?"%char -> o <> "t"%char -> o <> "o"%char ->
            parse_options pf rest input1 = (Returned true input, tp1) ->
            service_type input1 = service_type input0 ->
            file_path input1 = file_path input0 ->
            (o = "c"%char ->
             input1 = set_wait_for_interrupt false
                        (set_update_count (uint16 (atoi a)) input0)) ->
            c <> "h"%char /\ c <> "?"%char /\
            (c = "t"%char -> service_of (atoi a) <> INVALID_SERVICE) /\
            exists input1 tp1,
              parse_options pf rest input1 = (Returned true input, tp1) /\
              (c = "t"%char -> input1 = set_service_type (service_of (atoi a)) input0) /\
              (c <> "t"%char -> service_type input1 = service_type input0) /\
              (c = "c"%char ->
               input1 = set_wait_for_interrupt false
                          (set_update_count (uint16 (atoi a)) input0)) /\
              (c <> "o"%char -> file_path input1 = file_path input0) /\
              (c = "o"%char -> file_path input1 = Some a /\ mem_alloc_ok pf = true)).
  { intros o input1 tp1 E N1 N2 N3 N4 Hp Hs Hfp Hc. apply is_opt_eq in E. subst o.
    split; [exact N1|]. split; [exact N2|]. split; [intros; contradiction|].
    exists input1, tp1. split; [exact Hp|]. split; [intros; contradiction|].
    split; [intros; exact Hs|]. split; [exact Hc|]. split; [intros; exact Hfp|].
    intros; contradiction. }
  destruct (is_opt c "t") eqn:Et.
  { apply is_opt_eq in Et. subst c.
    split; [discriminate|]. split; [discriminate|].
    destruct (atoi a) as [|[p|[p|p|]|]|p]; try discriminate H;
      (split; [intros _; discriminate|]);
      eexists; eexists; (split; [exact H|]);
      repeat split; try reflexivity; try discriminate; intros; contradiction. }
  destruct (is_opt c "c") eqn:Ec;
    [eapply (Hsimple "c"%char); try exact H; try exact Ec; try discriminate; reflexivity|].
  destruct (is_opt c "b") eqn:Eb;
    [eapply (Hsimple "b"%char); try exact H; try exact Eb; try discriminate; reflexivity|].
  destruct (is_opt c "e") eqn:Ee;
    [eapply (Hsimple "e"%char); try exact H; try exact Ee; try discriminate; reflexivity|].
  destruct (is_opt c "f") eqn:Ef.
  { cbv zeta in H. destruct (fltb _ _ && fltb _ _); [|discriminate H].
    eapply (Hsimple "f"%char); try exact H; try exact Ef; try discriminate; reflexivity. }
  destruct (is_opt c "g") eqn:Eg.
  { cbv zeta in H. destruct (fleb _ _ && fleb _ _); [|discriminate H].
    eapply (Hsimple "g"%char); try exact H; try exact Eg; try discriminate; reflexivity. }
  destruct (is_opt c "n") eqn:En.
  { cbv zeta in H. destruct ((0 <? atoi a) && (atoi a <=? 32)); [|discriminate H].
    eapply (Hsimple "n"%char); try exact H; try exact En; try discriminate; reflexivity. }
  destruct (is_opt c "y") eqn:Ey;
    [eapply (Hsimple "y"%char); try exact H; try exact Ey; try discriminate; reflexivity|].
  destruct (is_opt c "o") eqn:Eo.
  { apply is_opt_eq in Eo. subst c.
    split; [discriminate|]. split; [discriminate|]. split; [discriminate|].
    destruct (mem_alloc_ok pf); [|discriminate H].
    destruct (parse_options pf rest (set_file_path (Some a) input0)) as [r t] eqn:E.
    injection H as -> <-. exists (set_file_path (Some a) input0), t.
    repeat split; try assumption; try reflexivity; try discriminate; intros; contradiction. }
  destruct (is_opt c "r") eqn:Er.
  { cbv zeta in H. destruct (fleb _ _ && fleb _ _); [|discriminate H].
    eapply (Hsimple "r"%char); try exact H; try exact Er; try discriminate; reflexivity. }
  destruct (is_opt c "s") eqn:Es.
  { cbv zeta in H. destruct ((0 <? atoi a) && (atoi a <=? 4)); [|discriminate H].
    eapply (Hsimple "s"%char); try exact H; try exact Es; try discriminate; reflexivity. }
  destruct (is_opt c "v") eqn:Ev;
    [eapply (Hsimple "v"%char); try exact H; try exact Ev; try discriminate; reflexivity|].
  destruct (is_opt c "h" || is_opt c "?") eqn:Eh; [discriminate H|].
  apply orb_false_iff in Eh as [Eh Eq].
  assert (Hne : forall o, is_opt c (String o EmptyString) = false -> c <> o)
    by (intros o E ->; rewrite is_opt_refl in E; discriminate).
  split; [apply Hne; exact Eh|]. split; [apply Hne; exact Eq|].
  split; [intros ->; rewrite is_opt_refl in Et; discriminate|].
  exists input0, tp. split; [exact H|].
  split; [intros ->; rewrite is_opt_refl in Et; discriminate|].
  split; [reflexivity|].
  split; [intros ->; rewrite is_opt_refl in Ec; discriminate|].
  split; [reflexivity|].
  intros ->; rewrite is_opt_refl in Eo; discriminate.
Qed.

End ParseFacts.

Section ParseResults.

Context {F : FloatOps}.
Variable pf : platform.

(** The ranges of the integer fields are kept by every assignment. *)
Lemma parse_options_ranges opts b input tp :
  parse_options pf opts initialize_input = (Returned b input, tp) ->
  0 < n_bins input <= 32 /\
  0 < sensor input <= 4 /\
  0 <= update_count input < 65536 /\
  0 <= service_profile input < 4294967296 /\
  (wait_for_interrupt input = true -> update_count input = 0).
Proof.
  apply (parse_options_invariant pf (fun i =>
    0 < n_bins i <= 32 /\ 0 < sensor i <= 4 /\ 0 <= update_count i < 65536 /\
    0 <= service_profile i < 4294967296 /\
    (wait_for_interrupt i = true -> update_count i = 0)));
    try (intros; assumption).
  - intros i a (H1 & H2 & _ & H4 & _). cbn.
    repeat split; try tauto; try discriminate;
      unfold uint16; apply Z.mod_pos_bound; reflexivity.
  - intros i n Hn (H1 & H2 & H3 & H4 & H5). cbn. tauto.
  - intros i a (H1 & H2 & H3 & _ & H5). cbn.
    repeat split; try tauto; unfold uint32; apply Z.mod_pos_bound; reflexivity.
  - intros i s Hs (H1 & H2 & H3 & H4 & H5). cbn. tauto.
  - cbn. repeat split; try reflexivity; try discriminate.
Qed.


(** X1. Whatever the options, the parsed input keeps the integer
    fields in the ranges the checks accept (the defaults are in range),
    the two counters fit their unsigned types, and
    [wait_for_interrupt] can only be true with a count of 0. *)
Theorem parse_options_keeps_ranges opts b input tp :
  parse_options pf opts initialize_input = (Returned b input, tp) ->
  0 < n_bins input <= 32 /\
  0 < sensor input <= 4 /\
  0 <= update_count input < 65536 /\
  0 <= service_profile input < 4294967296 /\
  (wait_for_interrupt input = true -> update_count input = 0).
Proof. apply parse_options_ranges. Qed.

(** X2. The floating-point fields of the parsed input are the defaults
    or values that passed the range checks: frequency in (0, 100000),
    gain and running average in [0, 1]. *)
Theorem parse_options_validates_floats opts b input tp :
  parse_options pf opts initialize_input = (Returned b input, tp) ->
  (frequency input = DEFAULT_FREQUENCY \/
   fltb (float_of_Q 0) (frequency input)
   && fltb (frequency input) (float_of_Q 100000) = true) /\
  (gain input = DEFAULT_GAIN \/
   fleb (float_of_Q 0) (gain input) && fleb (gain input) (float_of_Q 1) = true) /\
  (running_avg input = DEFAULT_RUNNING_AVG \/
   fleb (float_of_Q 0) (running_avg input)
   && fleb (running_avg input) (float_of_Q 1) = true).
Proof.
  apply (parse_options_invariant pf (fun i =>
    (frequency i = DEFAULT_FREQUENCY \/
     fltb (float_of_Q 0) (frequency i) && fltb (frequency i) (float_of_Q 100000) = true) /\
    (gain i = DEFAULT_GAIN \/
     fleb (float_of_Q 0) (gain i) && fleb (gain i) (float_of_Q 1) = true) /\
    (running_avg i = DEFAULT_RUNNING_AVG \/
     fleb (float_of_Q 0) (running_avg i)
     && fleb (running_avg i) (float_of_Q 1) = true)));
    try (intros; assumption).
  - intros i f Hf (_ & H2 & H3). cbn. auto.
  - intros i g Hg (H1 & _ & H3). cbn. auto.
  - intros i r Hr (H1 & H2 & _). cbn. auto.
  - cbn. auto.
Qed.

(** The options after a successful parse's prefix are parsed with
    success too. *)
Lemma parse_options_suffix o1 : forall o2 input0 input tp,
  parse_options pf (o1 ++ o2) input0 = (Returned true input, tp) ->
  exists input1 tp1, parse_options pf o2 input1 = (Returned true input, tp1).
Proof.
  induction o1 as [|[c a] o1 IH]; intros o2 input0 input tp H.
  - exists input0, tp. exact H.
  - apply parse_options_success in H as (_ & _ & _ & input1 & tp1 & H & _).
    exact (IH _ _ _ _ H).
Qed.

Lemma parse_options_no_type opts : forall input0 input tp,
  (forall c a, In (c, a) opts -> c <> "t"%char) ->
  parse_options pf opts input0 = (Returned true input, tp) ->
  service_type input = service_type input0.
Proof.
  induction opts as [|[c a] rest IH]; intros input0 input tp Hno H.
  - simpl in H. destruct (service_type input0) eqn:E; try discriminate H;
      injection H as <- <-; exact E.
  - apply parse_options_success in H as (_ & _ & _ & input1 & tp1 & H & _ & Hs & _).
    rewrite (IH _ _ _ (fun c' a' Hin => Hno c' a' (or_intror Hin)) H).
    apply Hs. apply (Hno c a). left. reflexivity.
Qed.

(** X3. A successful parse has selected one of the three services, and
    a service-type option was given: the branch of [main] for an
    invalid service type cannot be taken. *)
Theorem parse_options_selects_service opts input tp :
  parse_options pf opts initialize_input = (Returned true input, tp) ->
  service_type input <> INVALID_SERVICE /\
  exists a, In ("t"%char, a) opts /\ service_of (atoi a) <> INVALID_SERVICE.
Proof.
  assert (G : forall opts input0 input tp,
            parse_options pf opts input0 = (Returned true input, tp) ->
            service_type input <> INVALID_SERVICE /\
            (service_type input0 = INVALID_SERVICE ->
             exists a, In ("t"%char, a) opts /\ service_of (atoi a) <> INVALID_SERVICE)).
  { clear. induction opts as [|[c a] rest IH]; intros input0 input tp H.
    - simpl in H. destruct (service_type input0) eqn:E; try discriminate H;
        injection H as <- <-; rewrite E; split; discriminate.
    - apply parse_options_success in H
        as (_ & _ & Ht & input1 & tp1 & H & Hset & Hs & _).
      destruct (IH _ _ _ H) as [I1 I2]. split; [exact I1|].
      intros E0. destruct (Ascii.eqb_spec c "t"%char) as [->|Hc].
      + exists a. split; [left; reflexivity|apply Ht; reflexivity].
      + destruct (I2 ltac:(rewrite (Hs Hc); exact E0)) as (a' & Hin & Hv).
        exists a'. split; [right; exact Hin|exact Hv]. }
  intros H. destruct (G _ _ _ _ H) as [G1 G2]. split; [exact G1|].
  apply G2. reflexivity.
Qed.

(** X4. The last service-type option and the last sweep-count option
    are the ones that count. *)
Theorem parse_options_last_wins o1 c a o2 input tp :
  parse_options pf (o1 ++ (c, a) :: o2) initialize_input = (Returned true input, tp) ->
  (forall c' a', In (c', a') o2 -> c' <> c) ->
  (c = "t"%char -> service_type input = service_of (atoi a)) /\
  (c = "c"%char ->
   update_count input = uint16 (atoi a) /\ wait_for_interrupt input = false).
Proof.
  intros H Hno.
  apply parse_options_suffix in H as (input1 & tp1 & H).
  apply parse_options_success in H as (_ & _ & _ & input2 & tp2 & H & Ht & _ & Hc & _).
  split; intros ->.
  - rewrite (parse_options_no_type o2 _ _ _ Hno H), (Ht eq_refl). reflexivity.
  - destruct (parse_options_no_count pf o2 Hno _ _ _ _ H) as [-> ->].
    rewrite (Hc eq_refl). split; reflexivity.
Qed.

(** With a help option among the options the parse does not succeed. *)
Lemma parse_options_help opts : forall c a input0 b input tp,
  In (c, a) opts -> c = "h"%char \/ c = "?"%char ->
  parse_options pf opts input0 = (Returned b input, tp) -> b = false.
Proof.
  induction opts as [|[c' a'] rest IH]; intros c a input0 b input tp Hin Hc H;
    [destruct Hin|].
  destruct b; [|reflexivity].
  apply parse_options_success in H as (N1 & N2 & _ & input1 & tp1 & H & _).
  destruct Hin as [E|Hin].
  - injection E as -> ->. destruct Hc; contradiction.
  - exact (IH c a _ _ _ _ Hin Hc H).
Qed.

Lemma parse_options_parse_events opts : forall input,
  forallb parse_event (snd (parse_options pf opts input)) = true.
Proof.
  induction opts as [|[c optarg] rest IH]; intros input; simpl.
  - destruct (service_type input); reflexivity.
  - repeat match goal with
           | |- context [if ?b then _ else _] => destruct b
           | |- context [atoi ?s] => destruct (atoi s) as [|[p|[p|p|]|]|p]
           | |- context [let (_, _) := ?p in _] => destruct p eqn:?
           end; simpl; try reflexivity; try apply IH.
    match goal with E : parse_options _ _ ?i = _ |- _ => specialize (IH i); rewrite E in IH end.
    exact IH.
Qed.

End ParseResults.

Lemma parse_options_keeps_ranges_witness :
  exists input tp,
    parse_options (good_platform None)
      [("t"%char, "1"); ("n"%char, "32"); ("s"%char, "4"); ("c"%char, "70000");
       ("y"%char, "-1")] initialize_input = (Returned true input, tp) /\
    n_bins input = 32 /\ sensor input = 4 /\ update_count input = 4464 /\
    service_profile input = 4294967295 /\
    0 <= update_count input < 65536.
Proof.
  do 2 eexists. split; [reflexivity|].
  split; [reflexivity|]. split; [reflexivity|]. split; [reflexivity|].
  split; [reflexivity|].
  exact (proj1 (proj2 (proj2 (parse_options_keeps_ranges (good_platform None)
                                [("t"%char, "1"); ("n"%char, "32"); ("s"%char, "4");
                                 ("c"%char, "70000"); ("y"%char, "-1")] _ _ _
                                eq_refl)))).
Defined.

Lemma parse_options_validates_floats_witness :
  exists input tp,
    parse_options (good_platform None)
      [("t"%char, "0"); ("g"%char, "0.5"); ("f"%char, "25")] initialize_input
    = (Returned true input, tp) /\
    (gain input = DEFAULT_GAIN \/
     fleb (float_of_Q 0) (gain input) && fleb (gain input) (float_of_Q 1) = true).
Proof.
  do 2 eexists. split; [reflexivity|].
  exact (proj1 (proj2 (parse_options_validates_floats (good_platform None)
                         [("t"%char, "0"); ("g"%char, "0.5"); ("f"%char, "25")] _ _ _
                         eq_refl))).
Defined.

Lemma parse_options_selects_service_witness :
  exists input tp,
    parse_options (good_platform None) [("v"%char, EmptyString); ("t"%char, "2")]
      initialize_input
    = (Returned true input, tp) /\
    service_type input <> INVALID_SERVICE.
Proof.
  do 2 eexists. split; [reflexivity|].
  exact (proj1 (parse_options_selects_service (good_platform None)
                  [("v"%char, EmptyString); ("t"%char, "2")] _ _ eq_refl)).
Defined.

Lemma parse_options_last_wins_witness :
  exists input tp,
    parse_options (good_platform None)
      ([("t"%char, "0"); ("c"%char, "5")] ++ ("c"%char, "7") :: [("t"%char, "1")])
      initialize_input = (Returned true input, tp) /\
    update_count input = uint16 (atoi "7") /\ wait_for_interrupt input = false.
Proof.
  do 2 eexists. split; [reflexivity|].
  refine (proj2 (parse_options_last_wins (good_platform None)
                   [("t"%char, "0"); ("c"%char, "5")] "c"%char "7" [("t"%char, "1")]
                   _ _ eq_refl _) eq_refl).
  intros c' a' [H|[]]. injection H as <- _. discriminate.
Defined.

(** ** [main]: runs that stop before the service *)

(** X5. With a help option anywhere among the options [main] fails
    without activating the radar system software and without any call
    on the service. *)
Theorem main_help_fails_early {F : FloatOps} (pv : provider) (pf : platform) fuel opts c a :
  In (c, a) opts -> c = "h"%char \/ c = "?"%char ->
  exists tr,
    main pv pf fuel opts = Some (EXIT_FAILURE, tr) /\
    count is_rss_activate tr = O /\
    count is_service_call tr = O.
Proof.
  intros Hin Hc. unfold main.
  destruct (hal_init_ok pf); cbn [negb];
    [|eexists; split; [reflexivity|split; reflexivity]].
  pose proof (parse_options_parse_events pf opts initialize_input) as Hp.
  destruct (parse_options pf opts initialize_input) as [[b input|] tp] eqn:E;
    cbn [snd] in Hp.
  - rewrite (parse_options_help pf opts c a _ _ _ _ Hin Hc E).
    eexists. split; [reflexivity|].
    assert (Hf : forall p : event -> bool,
              p EvMemFree = false -> count p (free_file_path input) = O)
      by (intros p Hq; unfold free_file_path, count; destruct (file_path input); simpl;
          rewrite ?Hq; reflexivity).
    rewrite !count_app, !Hf by reflexivity.
    rewrite !(count_quiet parse_event _ tp Hp) by (intros []; simpl; congruence).
    split; reflexivity.
  - eexists. split; [reflexivity|].
    rewrite !count_app.
    rewrite !(count_quiet parse_event _ tp Hp) by (intros []; simpl; congruence).
    split; reflexivity.
Qed.

Lemma main_help_fails_early_witness :
  exists tr,
    main (scripted_provider 3 true two_frames two_iq_frames true) (good_platform None) 0
         [("t"%char, "0"); ("h"%char, EmptyString); ("c"%char, "3")]
    = Some (EXIT_FAILURE, tr) /\
    count is_service_call tr = O.
Proof.
  destruct (main_help_fails_early
              (scripted_provider 3 true two_frames two_iq_frames true) (good_platform None)
              O [("t"%char, "0"); ("h"%char, EmptyString); ("c"%char, "3")]
              "h"%char EmptyString (or_intror (or_introl eq_refl)) (or_introl eq_refl))
    as (tr & E & _ & S).
  exists tr. split; assumption.
Defined.

(** ** More on the polling loop *)

Section LoopMore.

Context {F : FloatOps}.
Variable pv : provider.
Variable pf : platform.
Variable T : Type.
Variable get_next : nat -> option (list T).
Variable dflt : T.
Variable pr : T -> string.
Variables m1 m2 : string.
Variable fp : option string.
Variable wfi : bool.
Variable uc : Z.

Hypothesis pr_not_nl : forall x, pr x <> nl.

Local Abbreviation loop := (poll_loop pv pf T get_next dflt pr m2 fp wfi uc).
Local Abbreviation exec := (execute pv pf T get_next dflt pr m1 m2 fp wfi uc).
Local Abbreviation wframe := (write_frame pv T dflt pr fp).
Local Abbreviation before cfg :=
  ([EvServiceCreate cfg true; EvGetMetadata]
   ++ EvActivate true
      :: match fp with Some p => [EvFopen p (fopen_ok pf)] | None => [] end).
Local Abbreviation after :=
  (match fp with Some _ => [EvFclose] | None => [] end
   ++ [EvDeactivate (deactivate_ok pv); EvDestroy]).

Lemma flag_count k p : (forall b, p (EvReadInterrupted b) = false) ->
  count p (read_flag pf wfi k) = O.
Proof. intros H. unfold read_flag, count. destruct wfi; simpl; rewrite ?H; reflexivity. Qed.

Lemma wframe_count_any d p :
  (forall s, p (EvFprintf s) = false) ->
  count p (wframe d) = match fp with None => if p EvFflush then 1%nat else O | Some _ => O end.
Proof.
  intros Hs. unfold write_frame. rewrite !count_app.
  replace (count p (map _ _)) with O.
  - unfold count. simpl. rewrite Hs. destruct fp; simpl; [reflexivity|].
    destruct (p EvFflush); reflexivity.
  - induction (seq 0 (metadata_length pv)) as [|i l IH]; [reflexivity|].
    simpl. rewrite count_cons, Hs, <- IH. reflexivity.
Qed.

(** What the loop wrote is the lines of the frames it polled, whole and
    in order. *)
Lemma poll_loop_text fuel k u r tr :
  loop fuel k u = Some (r, tr) ->
  sink_text tr =
  fold_right append EmptyString
    (map (fun i => frame_text pr dflt (metadata_length pv) (polled get_next i))
         (seq k (line_writes tr))).
Proof.
  revert fuel k u r tr. apply poll_loop_cases.
  - intros k u _. rewrite flag_text, flag_lines. reflexivity.
  - intros k u _ _. unfold line_writes. rewrite sink_text_app, count_app.
    fold (line_writes (read_flag pf wfi k)). rewrite flag_text, flag_lines. reflexivity.
  - intros k u d r tr _ Hg IH.
    assert (E : line_writes (read_flag pf wfi k ++ EvGetNext true :: wframe d ++ tr)
                = S (line_writes tr)).
    { unfold line_writes. rewrite count_app, count_cons, count_app.
      fold (line_writes (read_flag pf wfi k)). fold (line_writes (wframe d)).
      rewrite flag_lines, wframe_lines by exact pr_not_nl. reflexivity. }
    rewrite E. cbn [seq map fold_right].
    rewrite sink_text_app, flag_text. cbn [append sink_text].
    rewrite sink_text_app, wframe_text, IH. unfold polled. rewrite Hg. reflexivity.
Qed.

(** The flushes and the failed polls of the loop. *)
Lemma poll_loop_flushes fuel k u r tr :
  loop fuel k u = Some (r, tr) ->
  count is_fflush tr =
    match fp with
    | None => List.length (poll_results tr)
    | Some _ => count is_failed_poll tr
    end /\
  count is_failed_poll tr = match r with PollFailed => 1%nat | LoopEnded => O end.
Proof.
  revert fuel k u r tr. apply poll_loop_cases.
  - intros k u _. rewrite !flag_count, flag_polls by reflexivity.
    destruct fp; split; reflexivity.
  - intros k u _ _. rewrite !count_app, !flag_count, poll_results_app, flag_polls
      by reflexivity.
    destruct fp; split; reflexivity.
  - intros k u d r tr _ _ [IH1 IH2].
    rewrite !count_app, !flag_count, poll_results_app, flag_polls by reflexivity.
    rewrite !count_cons, !count_app, !wframe_count_any by reflexivity.
    cbn [poll_results is_fflush is_failed_poll app].
    rewrite poll_results_app, wframe_polls, IH1, IH2.
    destruct fp; split; simpl; reflexivity.
Qed.

(** Without [wait_for_interrupt] the loop makes at most
    [update_count - updates] polls, and ends. *)
Lemma bounded_loop_polls :
  wfi = false -> uc < 65536 ->
  forall fuel k u r tr,
    loop fuel k u = Some (r, tr) -> 0 <= u ->
    Z.of_nat (List.length (poll_results tr)) <= Z.max 0 (uc - u).
Proof.
  intros Hw Huc.
  apply (poll_loop_cases pv pf T get_next dflt pr m2 fp wfi uc
           (fun k u r tr => 0 <= u ->
              Z.of_nat (List.length (poll_results tr)) <= Z.max 0 (uc - u))).
  - intros k u _ Hu. rewrite flag_polls. simpl. lia.
  - intros k u Hc _ Hu. rewrite poll_results_app, flag_polls. simpl.
    unfold loop_condition in Hc. rewrite Hw in Hc. simpl in Hc. apply Z.ltb_lt in Hc. lia.
  - intros k u d r tr Hc _ IH Hu.
    unfold loop_condition in Hc. rewrite Hw in Hc. simpl in Hc. apply Z.ltb_lt in Hc.
    rewrite Hw in IH. unfold uint16 in IH. rewrite Z.mod_small in IH by lia.
    specialize (IH ltac:(lia)).
    rewrite poll_results_app, flag_polls. cbn [app poll_results].
    rewrite poll_results_app, wframe_polls. cbn [app List.length]. lia.
Qed.

Lemma bounded_loop_ends :
  wfi = false -> uc < 65536 ->
  forall fuel k u, 0 <= u -> Z.max 0 (uc - u) < Z.of_nat fuel -> loop fuel k u <> None.
Proof.
  intros Hw Huc. induction fuel as [|fuel IH]; intros k u Hu Hf.
  - exfalso. simpl in Hf. lia.
  - cbn [poll_loop]. unfold loop_condition. rewrite Hw. cbn [andb orb].
    destruct (u <? uc) eqn:Hc; [|intros X; discriminate X].
    apply Z.ltb_lt in Hc.
    destruct (get_next k); [|intros X; discriminate X].
    unfold uint16. rewrite Z.mod_small by lia.
    specialize (IH (S k) (u + 1) ltac:(lia) ltac:(lia)). rewrite Hw in IH.
    destruct (poll_loop _ _ _ _ _ _ _ _ _ _ _ _ _) as [[r tr]|];
      [intros X; discriminate X|exact IH].
Qed.

(** With [wait_for_interrupt] and a positive count the condition never
    becomes false: the loop ends by a failed poll only. *)
Lemma stuck_loop_fails :
  wfi = true -> 0 < uc ->
  forall fuel k u r tr, loop fuel k u = Some (r, tr) -> u = 0 -> r = PollFailed.
Proof.
  intros Hw Huc.
  apply (poll_loop_cases pv pf T get_next dflt pr m2 fp wfi uc
           (fun k u r tr => u = 0 -> r = PollFailed)).
  - intros k u Hc ->. unfold loop_condition in Hc.
    apply orb_false_iff in Hc as [_ Hc]. apply Z.ltb_ge in Hc. lia.
  - reflexivity.
  - intros k u d r tr _ _ IH Hu. apply IH. rewrite Hw. exact Hu.
Qed.

End LoopMore.

(** ** More on a service run *)

Section ExecuteMore.

Context {F : FloatOps}.
Variable pv : provider.
Variable pf : platform.
Variable T : Type.
Variable get_next : nat -> option (list T).
Variable dflt : T.
Variable pr : T -> string.
Variables m1 m2 : string.
Variable fp : option string.
Variable wfi : bool.
Variable uc : Z.

Hypothesis pr_not_nl : forall x, pr x <> nl.

Local Abbreviation loop := (poll_loop pv pf T get_next dflt pr m2 fp wfi uc).
Local Abbreviation exec := (execute pv pf T get_next dflt pr m1 m2 fp wfi uc).
Local Abbreviation before cfg :=
  ([EvServiceCreate cfg true; EvGetMetadata]
   ++ EvActivate true
      :: match fp with Some p => [EvFopen p (fopen_ok pf)] | None => [] end).
Local Abbreviation after :=
  (match fp with Some _ => [EvFclose] | None => [] end
   ++ [EvDeactivate (deactivate_ok pv); EvDestroy]).

(** A run that has ended, seen as the events around its loop: either
    the loop was not reached (and nothing was polled or written) or the
    trace is the loop's between [before] and, when it ended, [after]. *)
Lemma execute_frame fuel cfg r tr :
  exec fuel cfg = Some (r, tr) ->
  (r = false /\ poll_results tr = [] /\ line_writes tr = O /\
   sink_text tr = EmptyString /\
   count is_fflush tr = O /\ count is_fclose tr = O /\ count is_deactivate tr = O /\
   count is_failed_poll tr = O /\ (count is_fopen tr <= 1)%nat /\
   (fp = None -> count is_fopen tr = O)) \/
  (exists e ltr,
     loop fuel O 0 = Some (e, ltr) /\
     service_create_ok pv cfg = true /\ activate_ok pv = true /\
     tr = before cfg ++ ltr ++ match e with LoopEnded => after | PollFailed => [] end /\
     r = match e with LoopEnded => deactivate_ok pv | PollFailed => false end).
Proof.
  intros H. apply execute_cases in H.
  destruct H as [(_ & -> & ->)|[(_ & _ & -> & ->)|[(p & _ & _ & -> & _ & -> & ->)
                |[(ltr & Hc & Ha & Hl & -> & ->)|(ltr & Hc & Ha & Hl & -> & ->)]]]].
  1-3: left; unfold line_writes, count; simpl; repeat split; auto; discriminate.
  - right. exists PollFailed, ltr. rewrite app_nil_r. auto.
  - right. exists LoopEnded, ltr. auto.
Qed.

Lemma frame_count cfg p ltr e :
  count p (before cfg ++ ltr ++ match e with LoopEnded => after | PollFailed => [] end)
  = (count p (before cfg) + count p ltr
     + match e with LoopEnded => count p after | PollFailed => O end)%nat.
Proof.
  rewrite (count_app p (before cfg)), (count_app p ltr).
  destruct e; [|unfold count at 3; simpl]; lia.
Qed.

Lemma execute_text fuel cfg r tr :
  exec fuel cfg = Some (r, tr) ->
  sink_text tr =
  fold_right append EmptyString
    (map (fun i => frame_text pr dflt (metadata_length pv) (polled get_next i))
         (seq 0 (line_writes tr))).
Proof.
  intros H. apply execute_frame in H as [(_ & _ & -> & -> & _)|(e & ltr & Hl & _ & _ & -> & _)];
    [reflexivity|].
  pose proof (poll_loop_text pv pf T get_next dflt pr m2 fp wfi uc pr_not_nl _ _ _ _ _ Hl) as Ht.
  unfold line_writes. rewrite frame_count. fold (line_writes (before cfg)).
  fold (line_writes ltr). rewrite before_lines.
  rewrite (sink_text_app (before cfg)), before_text, sink_text_app, Ht.
  destruct e.
  - fold (line_writes after). rewrite after_lines, after_text, Nat.add_0_r. simpl.
    clear. induction (fold_right _ _ _) as [|c s IH]; simpl; congruence.
  - rewrite Nat.add_0_r. simpl.
    clear. induction (fold_right _ _ _) as [|c s IH]; simpl; congruence.
Qed.

Lemma execute_streams fuel cfg r tr :
  exec fuel cfg = Some (r, tr) ->
  (fp = None ->
   count is_fopen tr = O /\ count is_fclose tr = O /\
   count is_fflush tr = List.length (poll_results tr)) /\
  (fp <> None ->
   count is_fflush tr = count is_failed_poll tr /\
   count is_fclose tr = count is_deactivate tr /\
   (count is_fclose tr <= count is_fopen tr <= 1)%nat).
Proof.
  intros H.
  apply execute_frame in H
    as [(_ & -> & _ & _ & -> & -> & -> & -> & Ho & Ho')|(e & ltr & Hl & _ & _ & -> & _)].
  { split; [intros E; rewrite (Ho' E); auto|intros _; repeat split; auto; lia]. }
  destruct (poll_loop_flushes pv pf T get_next dflt pr m2 fp wfi uc _ _ _ _ _ Hl) as [Hf Hp].
  pose proof (poll_loop_events _ _ _ _ _ _ _ _ _ _ _ _ _ _ _ Hl) as He.
  assert (Hq : forall p : event -> bool,
            (forall x, loop_event x = true -> p x = false) -> count p ltr = O)
    by (intros p Hq; apply (count_quiet loop_event); assumption).
  rewrite !frame_count.
  rewrite (Hq is_fopen), (Hq is_fclose), (Hq is_deactivate)
    by (intros []; simpl; congruence).
  rewrite Hf.
  replace (poll_results (before cfg ++ ltr ++ _)) with (poll_results ltr).
  2:{ rewrite (poll_results_app (before cfg)), before_polls, poll_results_app.
      destruct e; [rewrite after_polls|]; rewrite app_nil_r; reflexivity. }
  split.
  - intros ->. destruct e; unfold count; simpl; repeat split; lia.
  - intros Hne. destruct fp as [p|]; [|contradiction].
    generalize (count is_failed_poll ltr). intros n.
    destruct e; unfold count; simpl; lia.
Qed.

Lemma execute_bounded_ends fuel cfg :
  wfi = false -> 0 <= uc < 65536 -> uc < Z.of_nat fuel ->
  exists r tr,
    exec fuel cfg = Some (r, tr) /\
    Z.of_nat (line_writes tr) <= Z.of_nat (List.length (poll_results tr)) <= uc.
Proof.
  intros Hw Huc Hf.
  destruct (exec fuel cfg) as [[r tr]|] eqn:H.
  - exists r, tr. split; [reflexivity|].
    destruct (execute_shape pv pf T get_next dflt pr m1 m2 fp wfi uc pr_not_nl fuel cfg r tr H)
      as (failed & Hs & _).
    split; [rewrite Hs, length_app, repeat_length; lia|].
    apply execute_frame in H as [(_ & -> & _)|(e & ltr & Hl & _ & _ & -> & _)];
      [simpl; lia|].
    replace (poll_results (before cfg ++ ltr ++ _)) with (poll_results ltr).
    2:{ rewrite (poll_results_app (before cfg)), before_polls, poll_results_app.
        destruct e; [rewrite after_polls|]; rewrite app_nil_r; reflexivity. }
    pose proof (bounded_loop_polls pv pf T get_next dflt pr m2 fp wfi uc Hw ltac:(lia)
                  _ _ _ _ _ Hl ltac:(lia)).
    lia.
  - exfalso. apply execute_none in H.
    apply (bounded_loop_ends pv pf T get_next dflt pr m2 fp wfi uc Hw ltac:(lia)
             fuel O 0 ltac:(lia) ltac:(lia) H).
Qed.

Lemma execute_stuck fuel cfg r tr :
  wfi = true -> 0 < uc ->
  service_create_ok pv cfg = true -> activate_ok pv = true ->
  fp = None \/ fopen_ok pf = true ->
  exec fuel cfg = Some (r, tr) ->
  r = false /\ count is_failed_poll tr = 1%nat /\ count is_deactivate tr = O /\
  get_next (line_writes tr) = None.
Proof.
  intros Hw Huc Hc Ha Ho H.
  rewrite (execute_polling pv pf T get_next dflt pr m1 m2 fp wfi uc fuel cfg Hc Ha Ho) in H.
  destruct (poll_loop _ _ _ _ _ _ _ _ _ _ _ _ _) as [[e ltr]|] eqn:Hl; [|discriminate].
  pose proof (stuck_loop_fails pv pf T get_next dflt pr m2 fp wfi uc Hw Huc _ _ _ _ _ Hl eq_refl).
  subst e.
  assert (Hr : r = false) by congruence.
  assert (Htr : tr = before cfg ++ ltr) by congruence.
  clear H. subst r tr.
  destruct (poll_loop_flushes pv pf T get_next dflt pr m2 fp wfi uc _ _ _ _ _ Hl) as [_ Hp].
  destruct (poll_loop_stop pv pf T get_next dflt pr m2 fp wfi uc pr_not_nl _ _ _ _ _ Hl)
    as [_ Hs].
  pose proof (poll_loop_events _ _ _ _ _ _ _ _ _ _ _ _ _ _ _ Hl) as He.
  split; [reflexivity|].
  unfold line_writes. rewrite !(count_app _ (before cfg)).
  fold (line_writes (before cfg)). rewrite before_lines, Hp.
  rewrite (count_quiet loop_event is_deactivate ltr He) by (intros []; simpl; congruence).
  destruct fp; unfold count; simpl; auto.
Qed.

End ExecuteMore.

(** X6. A run without [wait_for_interrupt] ends whatever the service
    answers, after at most [update_count] polls, and writes at most as
    many lines as it polled. *)
Theorem bounded_run_ends {F : FloatOps} (pv : provider) (pf : platform) :
  all_services pv pf (fun T get_next dflt pr exec =>
    forall cfg fp uc fuel,
      0 <= uc < 65536 -> uc < Z.of_nat fuel ->
      exists r tr,
        exec fuel cfg fp false uc = Some (r, tr) /\
        Z.of_nat (line_writes tr) <= Z.of_nat (List.length (poll_results tr)) <= uc).
Proof.
  apply all_services_intro. intros T get_next dflt pr m1 m2 Hpr cfg fp uc fuel Huc Hf.
  exact (execute_bounded_ends pv pf T get_next dflt pr m1 m2 fp false uc Hpr fuel cfg
           eq_refl Huc Hf).
Qed.

Lemma bounded_run_ends_witness :
  exists r tr,
    execute_envelope (scripted_provider 3 true (fails_at 4 two_frames) two_iq_frames true)
      (good_platform None) 8 (Some a_configuration) None false 7 = Some (r, tr) /\
    Z.of_nat (line_writes tr) <= Z.of_nat (List.length (poll_results tr)) <= 7.
Proof.
  destruct (bounded_run_ends
              (scripted_provider 3 true (fails_at 4 two_frames) two_iq_frames true)
              (good_platform None)) as (_ & Henv & _).
  apply (Henv (Some a_configuration) None 7 8%nat); lia.
Defined.

(** X7. Called with [wait_for_interrupt] true and a positive count (a
    combination [parse_options] never produces) the loop does not look
    at the counter again and cannot be left through its condition: a run
    that reached the loop and ended did so by a failed poll, without
    deactivating, and with polls that always succeed it never ends,
    whatever the interrupt flag does. *)
Theorem interrupt_ignored_with_positive_count {F : FloatOps} (pv : provider) (pf : platform) :
  all_services pv pf (fun T get_next dflt pr exec =>
    forall cfg fp uc,
      0 < uc ->
      service_create_ok pv cfg = true -> activate_ok pv = true ->
      fp = None \/ fopen_ok pf = true ->
      (forall fuel r tr,
         exec fuel cfg fp true uc = Some (r, tr) ->
         r = false /\ count is_failed_poll tr = 1%nat /\ count is_deactivate tr = O) /\
      ((forall i, get_next i <> None) ->
       forall fuel, exec fuel cfg fp true uc = None)).
Proof.
  apply all_services_intro. intros T get_next dflt pr m1 m2 Hpr cfg fp uc Huc Hc Ha Ho.
  split.
  - intros fuel r tr H.
    destruct (execute_stuck pv pf T get_next dflt pr m1 m2 fp true uc Hpr fuel cfg r tr
                eq_refl Huc Hc Ha Ho H) as (R & P & D & _).
    auto.
  - intros Hall fuel.
    destruct (execute pv pf T get_next dflt pr m1 m2 fp true uc fuel cfg) as [[r tr]|] eqn:H;
      [|reflexivity].
    destruct (execute_stuck pv pf T get_next dflt pr m1 m2 fp true uc Hpr fuel cfg r tr
                eq_refl Huc Hc Ha Ho H) as (_ & _ & _ & N).
    destruct (Hall _ N).
Qed.

Lemma interrupt_ignored_with_positive_count_witness :
  let pv := scripted_provider 3 true two_frames two_iq_frames true in
  let pf := good_platform (Some O) in
  interrupted pf 0 = true /\
  execute_power_bin pv pf 50 (Some a_configuration) None true 1 = None.
Proof.
  intros pv pf. split; [reflexivity|].
  destruct (interrupt_ignored_with_positive_count pv pf) as (Hpb & _).
  destruct (Hpb (Some a_configuration) None 1 ltac:(lia) eq_refl eq_refl
              (or_introl eq_refl)) as [_ Hnever].
  apply Hnever. intros i. destruct i as [|[|i]]; discriminate.
Defined.

(** X9. Standard output is never opened or closed and is flushed
    after every poll, successful or not; a file is opened at most once,
    closed exactly when the service is deactivated (so not after a
    failed poll) and flushed only with the message of a failed poll. *)
Theorem flush_and_close_discipline {F : FloatOps} (pv : provider) (pf : platform) :
  all_services pv pf (fun T get_next dflt pr exec =>
    forall fuel cfg fp wfi uc r tr,
      exec fuel cfg fp wfi uc = Some (r, tr) ->
      (fp = None ->
       count is_fopen tr = O /\ count is_fclose tr = O /\
       count is_fflush tr = List.length (poll_results tr)) /\
      (fp <> None ->
       count is_fflush tr = count is_failed_poll tr /\
       count is_fclose tr = count is_deactivate tr /\
       (count is_fclose tr <= count is_fopen tr <= 1)%nat)).
Proof.
  apply all_services_intro. intros T get_next dflt pr m1 m2 Hpr fuel cfg fp wfi uc r tr H.
  exact (execute_streams pv pf T get_next dflt pr m1 m2 fp wfi uc fuel cfg r tr H).
Qed.

Lemma flush_and_close_discipline_witness :
  exists tr,
    execute_iq (scripted_provider 3 true two_frames two_iq_frames true)
      (good_platform (Some 2%nat)) 9 (Some a_configuration) None true 0 = Some (true, tr) /\
    count is_fclose tr = O /\ count is_fflush tr = 2%nat.
Proof.
  eexists. split; [reflexivity|].
  destruct (flush_and_close_discipline
              (scripted_provider 3 true two_frames two_iq_frames true)
              (good_platform (Some 2%nat))) as (_ & _ & Hiq).
  destruct (Hiq 9%nat (Some a_configuration) None true 0 true _ eq_refl) as [Hnone _].
  destruct (Hnone eq_refl) as (_ & C & Fl). split; [exact C|exact Fl].
Defined.

(** ** [main] around a service run *)

Lemma execute_run_events {F : FloatOps} pv pf T get_next dflt pr m1 m2 fp wfi uc
  fuel cfg r tr :
  execute pv pf T get_next dflt pr m1 m2 fp wfi uc fuel cfg = Some (r, tr) ->
  forallb run_event tr = true.
Proof.
  intros H. apply execute_cases in H.
  destruct H as [(_ & _ & ->)|[(_ & _ & _ & ->)|[(p & _ & _ & _ & _ & _ & ->)
                |[(ltr & _ & _ & Hl & _ & ->)|(ltr & _ & _ & Hl & _ & ->)]]]];
    try reflexivity;
    pose proof (poll_loop_events _ _ _ _ _ _ _ _ _ _ _ _ _ _ _ Hl) as He;
    assert (Hr : forallb run_event ltr = true)
      by (rewrite forallb_forall in *; intros e Hin; specialize (He e Hin);
          destruct e; simpl in *; congruence);
    rewrite !forallb_app, Hr; destruct fp; reflexivity.
Qed.

Section MainFrame.

Context {F : FloatOps}.
Variable pv : provider.
Variable pf : platform.

Lemma free_count input :
  count is_mem_free (free_file_path input)
  = match file_path input with Some _ => 1%nat | None => O end.
Proof. unfold free_file_path. destruct (file_path input); reflexivity. Qed.

Lemma parse_trace_startup opts input :
  forallb startup_event (snd (parse_options pf opts input)) = true /\
  count is_mem_free (snd (parse_options pf opts input)) = O.
Proof.
  pose proof (parse_options_parse_events pf opts input) as H. split.
  - rewrite forallb_forall in *. intros e Hin. specialize (H e Hin).
    destruct e; simpl in *; congruence.
  - apply (count_quiet parse_event); [exact H|intros []; simpl; congruence].
Qed.

Lemma startup_free input : forallb startup_event (free_file_path input) = true.
Proof. unfold free_file_path. destruct (file_path input); reflexivity. Qed.

Lemma set_up_startup input :
  (forallb startup_event (snd (set_up_power_bin pv input)) = true /\
   count is_mem_free (snd (set_up_power_bin pv input)) = O) /\
  (forallb startup_event (snd (set_up_envelope pv input)) = true /\
   count is_mem_free (snd (set_up_envelope pv input)) = O) /\
  (forallb startup_event (snd (set_up_iq pv input)) = true /\
   count is_mem_free (snd (set_up_iq pv input)) = O /\
   (fst (set_up_iq pv input) = None -> configuration_create_ok pv IQ = false)).
Proof.
  unfold set_up_power_bin, set_up_envelope, set_up_iq.
  repeat split;
    repeat match goal with |- context [if ?b then _ else _] => destruct b eqn:? end;
    try reflexivity; simpl; discriminate.
Qed.

(** [main] either fails during start-up, freeing the file path at most
    once, or wraps one service run between its start-up events and the
    release of the file path, followed on success by the release of the
    configuration and of the radar system software. *)
Lemma main_frame fuel opts :
  (exists tr,
     main pv pf fuel opts = Some (EXIT_FAILURE, tr) /\
     forallb startup_event tr = true /\
     (count is_mem_free tr <= 1)%nat /\
     (forall b input tp,
        parse_options pf opts initialize_input = (Returned b input, tp) ->
        file_path input = None -> count is_mem_free tr = O)) \/
  (exists T get_next dflt pr m1 m2 input tp cfg pre t m,
     (forall x : T, pr x <> nl) /\
     parse_options pf opts initialize_input = (Returned true input, tp) /\
     forallb startup_event pre = true /\
     count is_mem_free pre
     = match cfg with
       | None => count is_mem_free (free_file_path input)
       | Some _ => O
       end /\
     (cfg = None -> service_type input = IQ /\ configuration_create_ok pv IQ = false) /\
     main pv pf fuel opts =
     match execute pv pf T get_next dflt pr m1 m2 (file_path input)
             (wait_for_interrupt input) (update_count input) fuel cfg with
     | Some (r, te) =>
         Some (if r then EXIT_SUCCESS else EXIT_FAILURE,
               pre ++ te ++ free_file_path input
               ++ if r then [EvConfigurationDestroy t; EvRssDeactivate] else [EvPrintf m])
     | None => None
     end).
Proof.
  unfold main.
  destruct (hal_init_ok pf); cbn [negb].
  2:{ left. eexists. split; [reflexivity|]. repeat split; try reflexivity.
      unfold count; simpl; lia. }
  destruct (parse_trace_startup opts initialize_input) as [Hp Hpf].
  destruct (parse_options pf opts initialize_input) as [[[|] input|] tp] eqn:Ep;
    cbn [snd] in Hp, Hpf.
  2:{ left. eexists. split; [reflexivity|].
      split; [simpl; rewrite forallb_app, Hp, startup_free; reflexivity|].
      rewrite !count_app, Hpf, free_count.
      split; [destruct (file_path input); unfold count; simpl; lia|].
      intros b i t E Hn. injection E as _ <- _. rewrite Hn. reflexivity. }
  2:{ left. eexists. split; [reflexivity|].
      split; [simpl; exact Hp|]. rewrite !count_app, Hpf.
      split; [unfold count; simpl; lia|]. intros b i t E. discriminate E. }
  destruct (rss_activate_ok pf); cbn [negb].
  2:{ left. eexists. split; [reflexivity|].
      split; [simpl; rewrite forallb_app, Hp; reflexivity|].
      rewrite !count_app, Hpf. split; [unfold count; simpl; lia|]. reflexivity. }
  destruct (set_up_startup input) as ((Hpb & Fpb) & (Hen & Fen) & (Hiq & Fiq & Niq)).
  assert (Ht1 : forall ts, forallb startup_event ts = true ->
            forallb startup_event
              (([EvSignal; EvHalInit true] ++ tp ++ [EvRssActivate (log_level input) true])
               ++ ts) = true).
  { intros ts Hts. simpl. rewrite !forallb_app, Hp, Hts. reflexivity. }
  assert (Hc1 : forall ts,
            count is_mem_free
              (([EvSignal; EvHalInit true] ++ tp ++ [EvRssActivate (log_level input) true])
               ++ ts) = count is_mem_free ts).
  { intros ts. rewrite !count_app, Hpf. reflexivity. }
  destruct (service_type input) eqn:Est.
  - left. eexists. split; [reflexivity|].
    split; [simpl; rewrite !forallb_app, Hp; reflexivity|].
    rewrite !count_app, Hpf. split; [unfold count; simpl; lia|]. reflexivity.
  - destruct (set_up_power_bin pv input) as [[c|] ts]; cbn [snd] in Hpb, Fpb.
    + right.
      exists Z, (power_bins_get_next pv), 0, fprintf_power_bin,
        (line "acc_service_create failed"), (line "Power bin data not properly retrieved"),
        input, tp, (Some c),
        (([EvSignal; EvHalInit true] ++ tp ++ [EvRssActivate (log_level input) true])
         ++ ts),
        POWER_BIN, (line "execute_power_bin() failed").
      split; [apply fprintf_power_bin_not_nl|]. split; [reflexivity|].
      split; [apply Ht1; exact Hpb|]. split; [rewrite Hc1; exact Fpb|].
      split; [discriminate|].
      unfold execute_power_bin.
      destruct (execute _ _ _ _ _ _ _ _ _ _ _ _ _) as [[[|] te]|];
        rewrite <- ?app_assoc; reflexivity.
    + left. eexists. split; [reflexivity|].
      rewrite app_assoc. split; [rewrite forallb_app, Ht1, startup_free by exact Hpb; reflexivity|].
      rewrite count_app, Hc1, Fpb, free_count.
      split; [destruct (file_path input); lia|].
      intros b i t E Hn. injection E as _ <- _. rewrite Hn. reflexivity.
  - destruct (set_up_envelope pv input) as [[c|] ts]; cbn [snd] in Hen, Fen.
    + right.
      exists Z, (envelope_get_next pv), 0, fprintf_envelope,
        (line "acc_Service_create failed"), (line "Envelope data not properly retrieved"),
        input, tp, (Some c),
        (([EvSignal; EvHalInit true] ++ tp ++ [EvRssActivate (log_level input) true])
         ++ ts),
        ENVELOPE, (line "execute_envelope() failed").
      split; [apply fprintf_envelope_not_nl|]. split; [reflexivity|].
      split; [apply Ht1; exact Hen|]. split; [rewrite Hc1; exact Fen|].
      split; [discriminate|].
      unfold execute_envelope.
      destruct (execute _ _ _ _ _ _ _ _ _ _ _ _ _) as [[[|] te]|];
        rewrite <- ?app_assoc; reflexivity.
    + left. eexists. split; [reflexivity|].
      rewrite app_assoc. split; [rewrite forallb_app, Ht1, startup_free by exact Hen; reflexivity|].
      rewrite count_app, Hc1, Fen, free_count.
      split; [destruct (file_path input); lia|].
      intros b i t E Hn. injection E as _ <- _. rewrite Hn. reflexivity.
  - destruct (set_up_iq pv input) as [cfg ts]; cbn [fst snd] in Hiq, Fiq, Niq.
    right.
    exists (float * float)%type, (iq_get_next pv), (float_of_Q 0, float_of_Q 0), fprintf_iq,
      (line "acc_service_create failed"), (line "IQ data not properly retrieved"),
      input, tp, cfg,
      (([EvSignal; EvHalInit true] ++ tp ++ [EvRssActivate (log_level input) true])
       ++ ts ++ match cfg with None => free_file_path input | Some _ => [] end),
      IQ, (line "execute_iq() failed").
    split; [apply fprintf_iq_not_nl|]. split; [reflexivity|].
    split.
    { apply Ht1. rewrite forallb_app, Hiq. destruct cfg; [reflexivity|apply startup_free]. }
    split.
    { rewrite Hc1, count_app, Fiq. destruct cfg; reflexivity. }
    split; [intros ->; split; [exact Est|apply Niq; reflexivity]|].
    unfold execute_iq.
    destruct (execute _ _ _ _ _ _ _ _ _ _ _ _ _) as [[[|] te]|];
      rewrite <- ?app_assoc; reflexivity.
Qed.

End MainFrame.

Section MainResults.

Context {F : FloatOps}.
Variable pv : provider.
Variable pf : platform.

Lemma wait_stays_false opts input0 b input tp :
  parse_options pf opts input0 = (Returned b input, tp) ->
  wait_for_interrupt input0 = false -> wait_for_interrupt input = false.
Proof.
  intros H H0. revert H0 H.
  apply (parse_options_invariant pf (fun i => wait_for_interrupt i = false));
    intros; try assumption; reflexivity.
Qed.

Lemma parse_options_count_given opts a input0 input tp :
  In ("c"%char, a) opts ->
  parse_options pf opts input0 = (Returned true input, tp) ->
  wait_for_interrupt input = false.
Proof.
  intros Hin H. apply in_split in Hin as (l1 & l2 & ->).
  apply parse_options_suffix in H as (input1 & tp1 & H).
  apply parse_options_success in H as (_ & _ & _ & input2 & tp2 & H & _ & _ & Hc & _).
  apply (wait_stays_false _ _ _ _ _ H). rewrite (Hc eq_refl). reflexivity.
Qed.

(** X10. [main] ends when the sweep-count option is given, whatever
    the service answers and the interrupt flag does, and in any case
    once the flag is seen set: no more than 65535 iterations, or than
    the iterations made before the flag was set, are needed. *)
Theorem main_ends fuel opts :
  65536 <= Z.of_nat fuel ->
  (exists a, In ("c"%char, a) opts) \/
  (exists j, (j < fuel)%nat /\ interrupted pf j = true) ->
  exists st tr, main pv pf fuel opts = Some (st, tr).
Proof.
  intros Hfuel Hstop.
  destruct (main_run pv pf fuel opts)
    as [(tr & E & _)
       |(T & gn & dflt & pr & m1 & m2 & input & cfg & pre & post & Hpr & _ & _ & Hp & E)].
  { exists EXIT_FAILURE, tr. exact E. }
  destruct (parse_options pf opts initialize_input) as [o tp] eqn:Ep.
  cbn [fst] in Hp. subst o.
  destruct (parse_options_ranges pf opts true input tp Ep) as (_ & _ & Hu & _ & Hw).
  assert (Hex : execute pv pf T gn dflt pr m1 m2 (file_path input)
                  (wait_for_interrupt input) (update_count input) fuel cfg <> None).
  { destruct (wait_for_interrupt input) eqn:W.
    - rewrite (Hw eq_refl). destruct Hstop as [(a & Hin)|(j & Hj & Hi)].
      + rewrite (parse_options_count_given opts a _ _ _ Hin Ep) in W. discriminate W.
      + apply (execute_unbounded_ends pv pf T gn dflt pr m1 m2 (file_path input) j fuel cfg
                 Hi Hj).
    - destruct (execute_bounded_ends pv pf T gn dflt pr m1 m2 (file_path input) false
                  (update_count input) Hpr fuel cfg eq_refl Hu ltac:(lia))
        as (r & tr & Ee & _).
      rewrite Ee. discriminate. }
  destruct (execute _ _ _ _ _ _ _ _ _ _ _ _ _) as [[r te]|]; [|contradiction].
  do 2 eexists. exact E.
Qed.

(** X11. [main] returns [EXIT_SUCCESS] only after a complete life
    cycle: the service was created and activated, no poll failed, the
    service was deactivated with success and destroyed once, and the
    configuration and the radar system software were released once.
    When it returns [EXIT_FAILURE] it has released neither. *)
Theorem main_success_is_a_full_cycle fuel opts st tr :
  main pv pf fuel opts = Some (st, tr) ->
  (st = EXIT_SUCCESS ->
   (exists cfg, In (EvServiceCreate cfg true) tr) /\
   In (EvActivate true) tr /\
   count is_failed_poll tr = O /\
   In (EvDeactivate true) tr /\
   count is_destroy tr = 1%nat /\
   count is_configuration_destroy tr = 1%nat /\
   count is_rss_deactivate tr = 1%nat) /\
  (st = EXIT_FAILURE ->
   count is_configuration_destroy tr = O /\ count is_rss_deactivate tr = O).
Proof.
  intros H.
  destruct (main_frame pv pf fuel opts)
    as [(tr' & E & Hq & _)
       |(T & gn & dflt & pr & m1 & m2 & input & tp & cfg & pre & t & m
         & Hpr & _ & Hpre & _ & _ & E)];
    rewrite E in H.
  { injection H as <- <-. split; [discriminate|]. intros _.
    split; apply (count_quiet startup_event); try exact Hq; intros []; simpl; congruence. }
  destruct (execute _ _ _ _ _ _ _ _ _ _ _ _ _) as [[r te]|] eqn:Ee; [|discriminate H].
  injection H as <- <-.
  pose proof (execute_run_events _ _ _ _ _ _ _ _ _ _ _ _ _ _ _ Ee) as Hrun.
  assert (Hcount : forall p : event -> bool,
            p EvMemFree = false ->
            (forall e, startup_event e = true -> p e = false) ->
            count p (pre ++ te ++ free_file_path input
                     ++ if r then [EvConfigurationDestroy t; EvRssDeactivate]
                        else [EvPrintf m])
            = (count p te
               + count p (if r then [EvConfigurationDestroy t; EvRssDeactivate]
                          else [EvPrintf m]))%nat).
  { intros p Hf Hs. rewrite !count_app.
    rewrite (count_quiet startup_event p pre Hpre Hs).
    replace (count p (free_file_path input)) with O; [reflexivity|].
    unfold free_file_path, count. destruct (file_path input); simpl; rewrite ?Hf; reflexivity. }
  assert (Hte : forall p : event -> bool,
            (forall e, run_event e = true -> p e = false) -> count p te = O)
    by (intros p Hq; apply (count_quiet run_event); assumption).
  destruct r; (split; [|intros X; try discriminate X]); try (intros X; discriminate X).
  - intros _.
    pose proof Ee as Hc. apply execute_cases in Hc.
    destruct Hc as [(_ & Hc & _)|[(_ & _ & Hc & _)|[(p & _ & _ & _ & _ & Hc & _)
                  |[(ltr & _ & _ & _ & Hc & _)|(ltr & _ & _ & Hl & Hd & ->)]]]];
      try discriminate Hc.
    destruct (poll_loop_flushes _ _ _ _ _ _ _ _ _ _ _ _ _ _ _ Hl) as [_ Hfp].
    assert (Hin : forall e, In e (([EvServiceCreate cfg true; EvGetMetadata]
                                    ++ EvActivate true
                                       :: match file_path input with
                                          | Some p => [EvFopen p (fopen_ok pf)]
                                          | None => []
                                          end)
                                   ++ ltr
                                   ++ match file_path input with
                                      | Some _ => [EvFclose]
                                      | None => []
                                      end ++ [EvDeactivate (deactivate_ok pv); EvDestroy]) ->
                         In e (pre ++ (([EvServiceCreate cfg true; EvGetMetadata]
                                        ++ EvActivate true
                                           :: match file_path input with
                                              | Some p => [EvFopen p (fopen_ok pf)]
                                              | None => []
                                              end)
                                       ++ ltr
                                       ++ match file_path input with
                                          | Some _ => [EvFclose]
                                          | None => []
                                          end
                                          ++ [EvDeactivate (deactivate_ok pv); EvDestroy])
                               ++ free_file_path input
                               ++ [EvConfigurationDestroy t; EvRssDeactivate]))
      by (intros e He; apply in_or_app; right; apply in_or_app; left; exact He).
    split; [exists cfg; apply Hin; left; reflexivity|].
    split; [apply Hin; right; right; left; reflexivity|].
    rewrite !Hcount by (try reflexivity; intros []; simpl; congruence).
    rewrite (Hte is_configuration_destroy), (Hte is_rss_deactivate)
      by (intros []; simpl; congruence).
    rewrite (execute_destroys_once _ _ _ _ _ _ _ _ _ _ _ _ _ _ _ Ee)
      by (right; rewrite !existsb_app; destruct (file_path input); simpl;
          rewrite ?orb_true_r; reflexivity).
    split.
    { rewrite (count_app _ _ (ltr ++ _)), (count_app _ ltr), Hfp.
      destruct (file_path input); reflexivity. }
    split.
    { apply Hin. apply in_or_app. right. apply in_or_app. right.
      apply in_or_app. right. left. rewrite <- Hd. reflexivity. }
    repeat split; reflexivity.
  - rewrite !Hcount by (try reflexivity; intros []; simpl; congruence).
    rewrite (Hte is_configuration_destroy), (Hte is_rss_deactivate)
      by (intros []; simpl; congruence).
    split; reflexivity.
Qed.

(** X12. The file path is freed at most twice, and twice only in the
    IQ case when the configuration could not be created (where [main]
    frees it and goes on); a path that was not given is never freed. *)
Theorem main_frees_file_path fuel opts st tr :
  main pv pf fuel opts = Some (st, tr) ->
  (count is_mem_free tr <= 2)%nat /\
  forall b input tp,
    parse_options pf opts initialize_input = (Returned b input, tp) ->
    (file_path input = None -> count is_mem_free tr = O) /\
    (count is_mem_free tr = 2%nat ->
     service_type input = IQ /\ configuration_create_ok pv IQ = false
     /\ file_path input <> None).
Proof.
  intros H.
  destruct (main_frame pv pf fuel opts)
    as [(tr' & E & _ & Hle & Hnone)
       |(T & gn & dflt & pr & m1 & m2 & input & tp & cfg & pre & t & m
         & Hpr & Ep & Hpre & Hfree & Hcfg & E)];
    rewrite E in H.
  { injection H as <- <-. split; [lia|]. intros b input tp Ep.
    split; [apply (Hnone b input tp Ep)|lia]. }
  destruct (execute _ _ _ _ _ _ _ _ _ _ _ _ _) as [[r te]|] eqn:Ee; [|discriminate H].
  injection H as <- <-.
  pose proof (execute_run_events _ _ _ _ _ _ _ _ _ _ _ _ _ _ _ Ee) as Hrun.
  assert (Hc : count is_mem_free
                 (pre ++ te ++ free_file_path input
                  ++ if r then [EvConfigurationDestroy t; EvRssDeactivate] else [EvPrintf m])
               = (count is_mem_free pre + count is_mem_free (free_file_path input))%nat).
  { rewrite !count_app.
    rewrite (count_quiet run_event is_mem_free te Hrun) by (intros []; simpl; congruence).
    destruct r; unfold count; simpl; lia. }
  rewrite Hc, Hfree, free_count.
  split; [destruct cfg, (file_path input); lia|].
  intros b input' tp' Ep'. rewrite Ep in Ep'. injection Ep' as _ <- _.
  split.
  - intros ->. destruct cfg; reflexivity.
  - intros H2. destruct cfg as [c|].
    + destruct (file_path input); discriminate H2.
    + destruct (Hcfg eq_refl) as [H1 H3].
      split; [exact H1|]. split; [exact H3|].
      destruct (file_path input); [discriminate|discriminate H2].
Qed.

End MainResults.

Lemma main_ends_witness :
  exists st tr,
    main (scripted_provider 3 true two_frames two_iq_frames true) (good_platform (Some 2%nat))
         (Z.to_nat 65536) [("t"%char, "1")] = Some (st, tr).
Proof.
  apply main_ends; [lia|].
  right. exists 2%nat. split; [lia|reflexivity].
Defined.

Lemma main_success_is_a_full_cycle_witness :
  exists tr,
    main (scripted_provider 3 true two_frames two_iq_frames true) (good_platform None) 4
         [("t"%char, "2"); ("c"%char, "2"); ("o"%char, "out.txt")]
    = Some (EXIT_SUCCESS, tr) /\
    count is_destroy tr = 1%nat /\ count is_rss_deactivate tr = 1%nat.
Proof.
  eexists. split; [reflexivity|].
  destruct (main_success_is_a_full_cycle
              (scripted_provider 3 true two_frames two_iq_frames true) (good_platform None)
              4%nat [("t"%char, "2"); ("c"%char, "2"); ("o"%char, "out.txt")]
              EXIT_SUCCESS _ eq_refl) as [Hs _].
  destruct (Hs eq_refl) as (_ & _ & _ & _ & D & _ & R).
  split; [exact D|exact R].
Defined.

Lemma main_frees_file_path_witness :
  exists tr,
    main no_configuration_provider (good_platform None) 1
         [("t"%char, "2"); ("o"%char, "out.txt")] = Some (EXIT_FAILURE, tr) /\
    count is_mem_free tr = 2%nat /\
    configuration_create_ok no_configuration_provider IQ = false.
Proof.
  eexists. split; [reflexivity|]. split; [reflexivity|].
  destruct (main_frees_file_path no_configuration_provider (good_platform None) 1%nat
              [("t"%char, "2"); ("o"%char, "out.txt")] EXIT_FAILURE _ eq_refl) as [_ Hp].
  destruct (Hp true _ _ eq_refl) as [_ H2].
  exact (proj1 (proj2 (H2 eq_refl))).
Defined.

(** ** The signal handler and the flag *)

Lemma deliver_set signals : deliver signals 1 = 1.
Proof.
  unfold deliver. induction signals as [|s l IH]; simpl; [reflexivity|].
  unfold interrupt_handler at 2. destruct (s =? SIGINT); exact IH.
Qed.

Lemma deliver_value signals : forall flag,
  deliver signals flag = if existsb (Z.eqb SIGINT) signals then 1 else flag.
Proof.
  induction signals as [|s l IH]; intros flag; [reflexivity|].
  change (deliver (s :: l) flag) with (deliver l (interrupt_handler s flag)).
  unfold interrupt_handler. cbn [existsb]. rewrite (Z.eqb_sym SIGINT s).
  destruct (s =? SIGINT); cbn [orb]; [apply deliver_set|apply IH].
Qed.

(** X13. The flag is 0 or 1, and it is set at a check exactly when a
    SIGINT was handled before that check: no other signal sets it. *)
Theorem flag_set_exactly_by_sigint (arrivals : nat -> list Z) (k : nat) :
  (flag_at arrivals k = 0 \/ flag_at arrivals k = 1) /\
  (flag_at arrivals k <> 0 <-> exists i, (i <= k)%nat /\ In SIGINT (arrivals i)).
Proof.
  assert (Hin : forall l, existsb (Z.eqb SIGINT) l = true <-> In SIGINT l).
  { intros l. rewrite existsb_exists. split.
    - intros (x & Hx & E). apply Z.eqb_eq in E. subst x. exact Hx.
    - intros H. exists SIGINT. split; [exact H|apply Z.eqb_refl]. }
  induction k as [|k [IH1 IH2]]; cbn [flag_at]; rewrite deliver_value.
  - destruct (existsb (Z.eqb SIGINT) (arrivals O)) eqn:E.
    + split; [right; reflexivity|]. split; [|discriminate].
      intros _. exists O. split; [lia|apply Hin; exact E].
    + split; [left; reflexivity|]. split; [intros H; contradiction|].
      intros (i & Hi & H). replace i with O in H by lia.
      apply Hin in H. congruence.
  - destruct (existsb (Z.eqb SIGINT) (arrivals (S k))) eqn:E.
    + split; [right; reflexivity|]. split; [|discriminate].
      intros _. exists (S k). split; [lia|apply Hin; exact E].
    + split; [exact IH1|]. rewrite IH2. split.
      * intros (i & Hi & H). exists i. split; [lia|exact H].
      * intros (i & Hi & H). destruct (Nat.eq_dec i (S k)) as [->|Hne].
        -- apply Hin in H. congruence.
        -- exists i. split; [lia|exact H].
Qed.

Lemma flag_set_exactly_by_sigint_witness :
  flag_at (fun k => if Nat.eqb k 1 then [15; SIGINT] else [1]) 3 <> 0 /\
  flag_at (fun _ => [1; 15]) 3 = 0.
Proof.
  split.
  - apply (proj2 (flag_set_exactly_by_sigint _ 3%nat)).
    exists 1%nat. split; [lia|]. right. left. reflexivity.
  - destruct (proj1 (flag_set_exactly_by_sigint (fun _ => [1; 15]) 3%nat)) as [H|H];
      [exact H|discriminate H].
Defined.

(** ** Reading a line back *)

Lemma digits_value_acc (d : Decimal.uint) : forall (acc : positive) c r,
  digit_of c = None ->
  digits_value (Zpos acc) (append (NilEmpty.string_of_uint d) (String c r))
  = Zpos (Pos.of_uint_acc d acc).
Proof.
  induction d as [|d IH|d IH|d IH|d IH|d IH|d IH|d IH|d IH|d IH|d IH];
    intros acc c r Hc;
    cbn [NilEmpty.string_of_uint append digits_value Pos.of_uint_acc];
    [rewrite Hc; reflexivity|..];
    match goal with
    | |- context [digit_of ?a] =>
        let v := eval vm_compute in (digit_of a) in change (digit_of a) with v
    end; cbv iota; rewrite <- (IH _ c r Hc); f_equal; lia.
Qed.

Lemma digits_value_uint (d : Decimal.uint) : forall c r,
  digit_of c = None ->
  digits_value 0 (append (NilEmpty.string_of_uint d) (String c r))
  = Z.of_N (Pos.of_uint d).
Proof.
  induction d as [|d IH|d IH|d IH|d IH|d IH|d IH|d IH|d IH|d IH|d IH];
    intros c r Hc;
    cbn [NilEmpty.string_of_uint append digits_value Pos.of_uint];
    [rewrite Hc; reflexivity|..];
    match goal with
    | |- context [digit_of ?a] =>
        let v := eval vm_compute in (digit_of a) in change (digit_of a) with v
    end; cbv iota;
    first [apply IH; exact Hc
          | cbn [Z.of_N]; rewrite <- (digits_value_acc d _ c r Hc); reflexivity].
Qed.

(** [atoi] reads back what [%u] wrote, whatever follows the tab. *)
Lemma atoi_print_u (x : Z) (r : string) :
  0 <= x < 65536 -> atoi (append (append (print_u x) tab) r) = x.
Proof.
  intros Hx. unfold print_u, tab.
  assert (E : forall s c r, append (append s (String c EmptyString)) r
                            = append s (String c r))
    by (clear; induction s as [|a s IH]; intros c r; simpl; [reflexivity|rewrite IH; reflexivity]).
  rewrite E.
  pose proof (DecimalN.Unsigned.of_to (Z.to_N x)) as Hof. unfold N.of_uint in Hof.
  pose proof (digits_value_uint (N.to_uint (Z.to_N x)) TAB r eq_refl) as Hd.
  rewrite Hof, Z2N.id in Hd by lia.
  unfold atoi, strtol.
  destruct (N.to_uint (Z.to_N x)) as [|d|d|d|d|d|d|d|d|d|d] eqn:Ed.
  1:{ destruct (Z.to_N x); simpl in Ed; [discriminate Ed|].
      exfalso. apply (DecimalPos.Unsigned.to_uint_nonnil p). exact Ed. }
  all: cbn [NilZero.string_of_uint]; cbn [NilEmpty.string_of_uint append] in *;
    cbn [skip_space];
    match goal with
    | |- context [is_space ?a] =>
        let v := eval vm_compute in (is_space a) in change (is_space a) with v
    end; cbv iota; rewrite Hd; unfold LONG_MIN, LONG_MAX, int32;
    rewrite Z.min_r, Z.max_r, Z.mod_small; lia.
Qed.

Lemma after_tab_field (s r : string) :
  count_char TAB s = O -> after_tab (append (append s tab) r) = r.
Proof.
  induction s as [|c s IH]; cbn [append count_char after_tab]; intros H.
  - reflexivity.
  - destruct (Ascii.eqb c TAB); [discriminate H|]. apply IH. exact H.
Qed.

Lemma read_fields_line (v : nat -> Z) (l : list nat) :
  (forall i, 0 <= v i < 65536) ->
  read_fields (List.length l)
    (fold_right append nl (map (fun i => append (print_u (v i)) tab) l))
  = map v l.
Proof.
  intros Hv. induction l as [|i l IH]; [reflexivity|].
  cbn [List.length map fold_right read_fields].
  rewrite atoi_print_u by apply Hv.
  rewrite after_tab_field by (apply print_u_digits; reflexivity).
  rewrite IH. reflexivity.
Qed.

(** X14. A line of power bins or of an envelope determines its
    samples: [atoi] reads back each field as the 16-bit sample that was
    written, so two frames that give the same line have the same
    samples. *)
Theorem line_determines_samples (len : nat) (data : list Z) :
  read_fields len (frame_text fprintf_power_bin 0 len data)
  = map (fun i => uint16 (nth i data 0)) (seq 0 len) /\
  read_fields len (frame_text fprintf_envelope 0 len data)
  = map (fun i => uint16 (nth i data 0)) (seq 0 len) /\
  forall data',
    frame_text fprintf_power_bin 0 len data = frame_text fprintf_power_bin 0 len data' ->
    forall i, (i < len)%nat -> uint16 (nth i data 0) = uint16 (nth i data' 0).
Proof.
  assert (Hu : forall x, 0 <= uint16 x < 65536)
    by (intros x; unfold uint16; apply Z.mod_pos_bound; reflexivity).
  assert (Hpb : forall d,
            read_fields len (frame_text fprintf_power_bin 0 len d)
            = map (fun i => uint16 (nth i d 0)) (seq 0 len)).
  { intros d. unfold frame_text, fprintf_power_bin.
    rewrite <- (length_seq len 0) at 1.
    apply (read_fields_line (fun i => uint16 (nth i d 0))). intros i. apply Hu. }
  split; [apply Hpb|]. split.
  - unfold frame_text, fprintf_envelope.
    rewrite <- (length_seq len 0) at 1.
    replace (map (fun index => append (print_u (Z.quot (2 * uint16 (nth index data 0) + 1) 2)) tab)
                 (seq 0 len))
      with (map (fun i => append (print_u (uint16 (nth i data 0))) tab) (seq 0 len)).
    + apply (read_fields_line (fun i => uint16 (nth i data 0))). intros i. apply Hu.
    + apply map_ext. intros i. do 2 f_equal.
      specialize (Hu (nth i data 0)).
      rewrite Z.quot_div_nonneg by lia. apply (Z.div_unique _ 2 _ 1); lia.
  - intros data' H i Hi.
    assert (E : map (fun i => uint16 (nth i data 0)) (seq 0 len)
                = map (fun i => uint16 (nth i data' 0)) (seq 0 len))
      by (rewrite <- !Hpb, H; reflexivity).
    apply (ext_in_map E). apply in_seq. lia.
Qed.

Lemma line_determines_samples_witness :
  read_fields 3 (frame_text fprintf_power_bin 0 3 [1; 2; 65537]) = [1; 2; 1] /\
  frame_text fprintf_power_bin 0 3 [1; 2; 65537]
  = frame_text fprintf_power_bin 0 3 [1; 2; 1; 9] /\
  uint16 (nth 2 [1; 2; 65537] 0) = uint16 (nth 2 [1; 2; 1; 9] 0).
Proof.
  destruct (line_determines_samples 3 [1; 2; 65537]) as (Hread & _ & Hinj).
  split; [exact Hread|]. split; [reflexivity|].
  apply (Hinj [1; 2; 1; 9] eq_refl 2%nat). lia.
Defined.

(** ** The sensor option *)

Section SensorOption.

Context {F : FloatOps}.
Variable pv : provider.
Variable pf : platform.

(** Parsing from an input with another sensor gives the same events
    and the same outcome, up to the sensor of the parsed input. *)
Lemma parse_sensor_commutes opts : forall a i0,
  snd (parse_options pf opts (set_sensor a i0)) = snd (parse_options pf opts i0) /\
  (fst (parse_options pf opts (set_sensor a i0)) = fst (parse_options pf opts i0) \/
   exists b j,
     fst (parse_options pf opts i0) = Returned b j /\
     fst (parse_options pf opts (set_sensor a i0)) = Returned b (set_sensor a j)).
Proof.
  induction opts as [|[c x] rest IH]; intros a i0.
  - cbn [parse_options]. change (service_type (set_sensor a i0)) with (service_type i0).
    destruct (service_type i0);
      (split; [reflexivity|right; do 2 eexists; split; reflexivity]).
  - cbn [parse_options].
    assert (Hret : forall (b : bool) (tr : trace),
              snd (Returned b (set_sensor a i0), tr) = snd (Returned b i0, tr) /\
              (fst (Returned b (set_sensor a i0), tr) = fst (Returned b i0, tr) \/
               exists b' j,
                 fst (Returned b i0, tr) = Returned b' j /\
                 fst (Returned b (set_sensor a i0), tr) = Returned b' (set_sensor a j)))
      by (intros b tr; split; [reflexivity|right; do 2 eexists; split; reflexivity]).
    assert (Hexit : forall tr : trace,
              snd (@Exited F, tr) = snd (@Exited F, tr) /\
              (fst (@Exited F, tr) = fst (@Exited F, tr) \/
               exists b' j,
                 fst (@Exited F, tr) = Returned b' j /\
                 fst (@Exited F, tr) = Returned b' (set_sensor a j)))
      by (intros tr; split; [reflexivity|left; reflexivity]).
    destruct (is_opt c "t").
    { destruct (atoi x) as [|[p|[p|p|]|]|p]; try apply Hret;
        match goal with
        | |- snd (parse_options _ _ _) = snd (parse_options _ _ ?y) /\ _ => exact (IH a y)
        end. }
    destruct (is_opt c "c"); [exact (IH a (set_wait_for_interrupt false
                                             (set_update_count (uint16 (atoi x)) i0)))|].
    destruct (is_opt c "b"); [exact (IH a (set_start_m (strtof x) i0))|].
    destruct (is_opt c "e"); [exact (IH a (set_end_m (strtof x) i0))|].
    destruct (is_opt c "f").
    { cbv zeta. destruct (fltb _ _ && fltb _ _); [|apply Hexit].
      exact (IH a (set_frequency (strtof x) i0)). }
    destruct (is_opt c "g").
    { cbv zeta. destruct (fleb _ _ && fleb _ _); [|apply Hexit].
      exact (IH a (set_gain (strtof x) i0)). }
    destruct (is_opt c "n").
    { cbv zeta. destruct ((0 <? atoi x) && (atoi x <=? 32)); [|apply Hexit].
      exact (IH a (set_n_bins (atoi x) i0)). }
    destruct (is_opt c "y"); [exact (IH a (set_service_profile (uint32 (atoi x)) i0))|].
    destruct (is_opt c "o").
    { destruct (mem_alloc_ok pf).
      - destruct (IH a (set_file_path (Some x) i0)) as [I1 I2].
        change (set_file_path (Some x) (set_sensor a i0))
          with (set_sensor a (set_file_path (Some x) i0)).
        destruct (parse_options pf rest (set_sensor a (set_file_path (Some x) i0)))
          as [r1 t1].
        destruct (parse_options pf rest (set_file_path (Some x) i0)) as [r2 t2].
        cbn [fst snd] in *. subst t2. split; [reflexivity|exact I2].
      - split; [reflexivity|]. right. exists false, (set_file_path None i0).
        split; reflexivity. }
    destruct (is_opt c "r").
    { cbv zeta. destruct (fleb _ _ && fleb _ _); [|apply Hexit].
      exact (IH a (set_running_avg (strtof x) i0)). }
    destruct (is_opt c "s").
    { cbv zeta. destruct ((0 <? atoi x) && (atoi x <=? 4)); [|apply Hexit].
      change (set_sensor (atoi x) (set_sensor a i0)) with (set_sensor (atoi x) i0).
      split; [reflexivity|left; reflexivity]. }
    destruct (is_opt c "v"); [exact (IH a (set_log_level ACC_LOG_LEVEL_VERBOSE i0))|].
    destruct (is_opt c "h" || is_opt c "?"); [apply Hret|].
    exact (IH a i0).
Qed.

(** X15. For the envelope and IQ services a sensor option changes
    nothing: the builders of these two services never set the sensor,
    and the run with the option is the run without it. *)
Theorem sensor_option_ignored_for_envelope_and_iq fuel opts v input tp :
  0 < atoi v <= 4 ->
  parse_options pf opts initialize_input = (Returned true input, tp) ->
  service_type input = ENVELOPE \/ service_type input = IQ ->
  main pv pf fuel (("s"%char, v) :: opts) = main pv pf fuel opts.
Proof.
  intros Hv Ep Hs.
  assert (Hhead : parse_options pf (("s"%char, v) :: opts) initialize_input
                  = parse_options pf opts (set_sensor (atoi v) initialize_input)).
  { cbn [parse_options].
    replace ((0 <? atoi v) && (atoi v <=? 4)) with true; [reflexivity|].
    symmetry. apply andb_true_iff. split; [apply Z.ltb_lt|apply Z.leb_le]; lia. }
  unfold main. rewrite Hhead, Ep.
  destruct (parse_sensor_commutes opts (atoi v) initialize_input) as [Ht Ho].
  rewrite Ep in Ht, Ho. cbn [fst snd] in Ht, Ho.
  destruct (parse_options pf opts (set_sensor (atoi v) initialize_input)) as [o1 t1].
  cbn [fst snd] in Ht, Ho. subst t1.
  destruct Ho as [->|(b & j & Ej & ->)]; [reflexivity|].
  injection Ej as <- <-.
  destruct (negb (hal_init_ok pf)); [reflexivity|].
  destruct (negb (rss_activate_ok pf)); [reflexivity|].
  change (service_type (set_sensor (atoi v) input)) with (service_type input).
  destruct Hs as [-> | ->]; reflexivity.
Qed.

End SensorOption.

Lemma sensor_option_ignored_for_envelope_and_iq_witness :
  let pv := scripted_provider 3 true two_frames two_iq_frames true in
  let pf := good_platform None in
  main pv pf 4 [("s"%char, "3"); ("t"%char, "1"); ("c"%char, "2")]
  = main pv pf 4 [("t"%char, "1"); ("c"%char, "2")].
Proof.
  intros pv pf.
  eapply (sensor_option_ignored_for_envelope_and_iq pv pf 4%nat
            [("t"%char, "1"); ("c"%char, "2")] "3").
  - change (0 < 3 <= 4). lia.
  - reflexivity.
  - left. reflexivity.
Defined.

(** * Output streams, cancellation and the sweep count *)

(** ** What reaches standard output and the file *)

Lemma append_assoc_string (a b c : string) :
  append (append a b) c = append a (append b c).
Proof. induction a as [|x a IH]; simpl; [reflexivity|]. rewrite IH. reflexivity. Qed.

Lemma append_empty_r (s : string) : append s EmptyString = s.
Proof. induction s as [|x s IH]; simpl; [reflexivity|]. rewrite IH. reflexivity. Qed.

Lemma filter_repeat_true (n : nat) (l : list bool) :
  List.length (filter (fun ok : bool => ok) (repeat true n ++ l))
  = (n + List.length (filter (fun ok : bool => ok) l))%nat.
Proof. induction n as [|n IH]; simpl; [reflexivity|]. rewrite IH. reflexivity. Qed.

Section Streams.

Context {F : FloatOps}.

Lemma printf_text_app (a b : trace) :
  printf_text (a ++ b) = append (printf_text a) (printf_text b).
Proof.
  induction a as [|e a IH]; simpl; [reflexivity|].
  destruct e; simpl; rewrite ?IH, ?append_assoc_string; reflexivity.
Qed.

Lemma stdout_text_app fp (a b : trace) :
  stdout_text fp (a ++ b) = append (stdout_text fp a) (stdout_text fp b).
Proof.
  induction a as [|e a IH]; simpl; [reflexivity|].
  destruct e; simpl; rewrite ?IH, ?append_assoc_string; try reflexivity.
  destruct fp; rewrite ?append_assoc_string; reflexivity.
Qed.

(** With a file path, standard output receives the [printf] messages
    only. *)
Lemma stdout_text_file p (tr : trace) : stdout_text (Some p) tr = printf_text tr.
Proof.
  induction tr as [|e tr IH]; simpl; [reflexivity|].
  destruct e; simpl; rewrite ?IH; reflexivity.
Qed.

Lemma good_polls_app (a b : trace) : good_polls (a ++ b) = (good_polls a + good_polls b)%nat.
Proof. unfold good_polls. rewrite poll_results_app, filter_app, length_app. reflexivity. Qed.

End Streams.

Section RunOutput.

Context {F : FloatOps}.
Variable pv : provider.
Variable pf : platform.
Variable T : Type.
Variable get_next : nat -> option (list T).
Variable dflt : T.
Variable pr : T -> string.
Variables m1 m2 : string.
Variable fp : option string.
Variable wfi : bool.
Variable uc : Z.

Hypothesis pr_not_nl : forall x, pr x <> nl.

Local Abbreviation loop := (poll_loop pv pf T get_next dflt pr m2 fp wfi uc).
Local Abbreviation exec := (execute pv pf T get_next dflt pr m1 m2 fp wfi uc).
Local Abbreviation wframe := (write_frame pv T dflt pr fp).
Local Abbreviation flag := (read_flag pf wfi).
Local Abbreviation before cfg :=
  ([EvServiceCreate cfg true; EvGetMetadata]
   ++ EvActivate true
      :: match fp with Some p => [EvFopen p (fopen_ok pf)] | None => [] end).
Local Abbreviation after :=
  (match fp with Some _ => [EvFclose] | None => [] end
   ++ [EvDeactivate (deactivate_ok pv); EvDestroy]).

Lemma flag_silent k :
  printf_text (flag k) = EmptyString /\ stdout_text None (flag k) = EmptyString /\
  good_polls (flag k) = O /\ count is_printf (flag k) = O.
Proof. unfold read_flag. destruct wfi; repeat split. Qed.

Lemma wframe_silent d :
  printf_text (wframe d) = EmptyString /\
  stdout_text None (wframe d) = sink_text (wframe d) /\
  good_polls (wframe d) = O /\ count is_printf (wframe d) = O.
Proof.
  unfold good_polls. rewrite wframe_polls.
  unfold write_frame.
  rewrite !printf_text_app, !stdout_text_app, !sink_text_app, !count_app.
  assert (H : printf_text (map (fun index => EvFprintf (pr (nth index d dflt)))
                             (seq 0 (metadata_length pv))) = EmptyString /\
              stdout_text None (map (fun index => EvFprintf (pr (nth index d dflt)))
                                  (seq 0 (metadata_length pv)))
              = sink_text (map (fun index => EvFprintf (pr (nth index d dflt)))
                             (seq 0 (metadata_length pv))) /\
              count is_printf (map (fun index => EvFprintf (pr (nth index d dflt)))
                                 (seq 0 (metadata_length pv))) = O).
  { induction (seq 0 (metadata_length pv)) as [|i l (I1 & I2 & I3)]; [repeat split|].
    cbn [map printf_text stdout_text sink_text]. rewrite count_cons, I1, I2, I3.
    repeat split. }
  destruct H as (-> & -> & ->). destruct fp; repeat split.
Qed.

(** Every successful poll of the loop has its line; the only message is
    that of a failed poll, and it follows the lines. *)
Lemma poll_loop_streams fuel k u r tr :
  loop fuel k u = Some (r, tr) ->
  good_polls tr = line_writes tr /\
  count is_printf tr = match r with PollFailed => 1%nat | LoopEnded => O end /\
  stdout_text None tr = append (sink_text tr) (printf_text tr).
Proof.
  revert fuel k u r tr. apply poll_loop_cases.
  - intros k u _. destruct (flag_silent k) as (P & S & G & C).
    rewrite G, C, S, P, flag_lines, flag_text. repeat split.
  - intros k u _ _. destruct (flag_silent k) as (P & S & G & C).
    unfold line_writes.
    rewrite good_polls_app, !count_app, stdout_text_app, sink_text_app, printf_text_app.
    fold (line_writes (flag k)).
    rewrite G, C, S, P, flag_lines, flag_text. repeat split.
  - intros k u d r tr _ _ (IH1 & IH2 & IH3).
    destruct (flag_silent k) as (P & S & G & C).
    destruct (wframe_silent d) as (Pw & Sw & Gw & Cw).
    unfold line_writes in *.
    rewrite good_polls_app, !count_app, stdout_text_app, sink_text_app, printf_text_app.
    fold (line_writes (flag k)).
    rewrite G, C, S, P, flag_lines, flag_text.
    change (EvGetNext true :: wframe d ++ tr) with ([EvGetNext true] ++ wframe d ++ tr).
    rewrite !good_polls_app, !count_app, !stdout_text_app, !sink_text_app, !printf_text_app.
    fold (line_writes (wframe d)).
    rewrite Gw, Cw, Sw, Pw, wframe_lines, IH1, IH2, IH3 by exact pr_not_nl.
    repeat split. cbn [stdout_text sink_text printf_text append].
    rewrite append_assoc_string. reflexivity.
Qed.

(** The output of a service run, however it ends. *)
Lemma execute_output fuel cfg r tr :
  exec fuel cfg = Some (r, tr) ->
  (forall i, (i < good_polls tr)%nat -> get_next i <> None) /\
  line_writes tr = good_polls tr /\
  sink_text tr = frame_lines pr dflt (metadata_length pv) get_next (good_polls tr) /\
  stdout_text fp tr
  = append (match fp with None => sink_text tr | Some _ => EmptyString end) (printf_text tr) /\
  (count is_printf tr <= 1)%nat /\
  (count is_printf tr = O <-> existsb is_deactivate tr = true).
Proof.
  intros H.
  pose proof (execute_text pv pf T get_next dflt pr m1 m2 fp wfi uc pr_not_nl _ _ _ _ H) as Ht.
  assert (Hs : stdout_text fp tr
               = append (match fp with None => stdout_text None tr | Some _ => EmptyString end)
                        (match fp with None => EmptyString | Some _ => printf_text tr end)).
  { destruct fp as [p|]; [apply stdout_text_file|rewrite append_empty_r; reflexivity]. }
  apply execute_cases in H.
  destruct H as [(_ & _ & ->)|[(_ & _ & _ & ->)|[(p & _ & _ & -> & _ & _ & ->)
                |[(ltr & _ & _ & Hl & _ & ->)|(ltr & _ & _ & Hl & _ & ->)]]]].
  1-3: unfold good_polls, line_writes, count; cbn;
       repeat split; try lia; try discriminate; try (intros i Hi; inversion Hi);
       destruct fp; reflexivity.
  - destruct (poll_loop_streams _ _ _ _ _ Hl) as (G & C & S).
    destruct (poll_loop_stop pv pf T get_next dflt pr m2 fp wfi uc pr_not_nl _ _ _ _ _ Hl)
      as [Hg _].
    pose proof (poll_loop_events _ _ _ _ _ _ _ _ _ _ _ _ _ _ _ Hl) as He.
    assert (Gt : good_polls (before cfg ++ ltr) = line_writes ltr).
    { rewrite (good_polls_app (before cfg)), G. destruct fp; reflexivity. }
    assert (Lt : line_writes (before cfg ++ ltr) = line_writes ltr).
    { unfold line_writes. rewrite count_app. destruct fp; reflexivity. }
    rewrite Gt, Lt in *. unfold frame_lines. rewrite <- Ht.
    split; [exact Hg|]. split; [reflexivity|]. split; [reflexivity|]. split.
    + rewrite Hs. clear Hs Ht.
      rewrite (stdout_text_app None (before cfg)), (sink_text_app (before cfg)),
        (printf_text_app (before cfg)), S.
      destruct fp; cbn [app stdout_text sink_text printf_text append];
        rewrite ?append_empty_r; reflexivity.
    + rewrite (count_app is_printf (before cfg)), C, existsb_app.
      rewrite (existsb_quiet loop_event is_deactivate ltr He)
        by (intros []; simpl; congruence).
      destruct fp; unfold count; cbn; repeat split; try lia; discriminate.
  - destruct (poll_loop_streams _ _ _ _ _ Hl) as (G & C & S).
    destruct (poll_loop_stop pv pf T get_next dflt pr m2 fp wfi uc pr_not_nl _ _ _ _ _ Hl)
      as [Hg _].
    assert (Gt : good_polls (before cfg ++ ltr ++ after) = line_writes ltr).
    { rewrite (good_polls_app (before cfg)), (good_polls_app ltr), G. destruct fp; cbn; lia. }
    destruct (framed_loop pv pf fp cfg ltr) as (Lt & _ & St & _).
    rewrite Gt, Lt in *. unfold frame_lines. rewrite <- Ht.
    split; [exact Hg|]. split; [reflexivity|]. split; [reflexivity|]. split.
    + rewrite Hs, St. clear Hs Ht.
      rewrite (stdout_text_app None (before cfg)), (stdout_text_app None ltr),
        (printf_text_app (before cfg)), (printf_text_app ltr), S.
      destruct fp; cbn [app stdout_text sink_text printf_text append];
        rewrite ?append_empty_r; reflexivity.
    + rewrite (count_app is_printf (before cfg)), (count_app is_printf ltr), C.
      rewrite (existsb_app _ (before cfg)), (existsb_app _ ltr).
      replace (existsb is_deactivate after) with true by (destruct fp; reflexivity).
      rewrite !orb_true_r.
      destruct fp; unfold count; cbn; repeat split; lia.
Qed.

End RunOutput.

(** X8. However a run ends, every successful poll has written its
    line and nothing else was written by [fprintf]: the file of the file
    path holds the lines of the polled frames, whole and in order;
    without a file path standard output holds these lines followed by
    the message of the run, if any.  There is at most one message, and
    none exactly when the service was deactivated. *)
Theorem output_is_whole_lines {F : FloatOps} (pv : provider) (pf : platform) :
  all_services pv pf (fun T get_next dflt pr exec =>
    forall fuel cfg fp wfi uc r tr,
      exec fuel cfg fp wfi uc = Some (r, tr) ->
      (forall i, (i < good_polls tr)%nat -> get_next i <> None) /\
      line_writes tr = good_polls tr /\
      file_text fp tr
      = match fp with
        | Some _ => frame_lines pr dflt (metadata_length pv) get_next (good_polls tr)
        | None => EmptyString
        end /\
      stdout_text fp tr
      = append match fp with
               | None => frame_lines pr dflt (metadata_length pv) get_next (good_polls tr)
               | Some _ => EmptyString
               end (printf_text tr) /\
      (count is_printf tr <= 1)%nat /\
      (count is_printf tr = O <-> existsb is_deactivate tr = true)).
Proof.
  apply all_services_intro. intros T get_next dflt pr m1 m2 Hpr fuel cfg fp wfi uc r tr H.
  destruct (execute_output pv pf T get_next dflt pr m1 m2 fp wfi uc Hpr fuel cfg r tr H)
    as (A1 & A2 & A3 & A4 & A5 & A6).
  split; [exact A1|]. split; [exact A2|]. split; [|split; [|split; [exact A5|exact A6]]].
  - unfold file_text. destruct fp; [exact A3|reflexivity].
  - rewrite A4. destruct fp; [reflexivity|]. rewrite A3. reflexivity.
Qed.

Lemma output_is_whole_lines_witness :
  exists tr,
    execute_power_bin (scripted_provider 3 true (fails_at 1 two_frames) two_iq_frames true)
      (good_platform None) 9 (Some a_configuration) None true 0
    = Some (false, tr) /\
    poll_results tr = [true; false] /\
    line_writes tr = 1%nat /\
    stdout_text None tr
    = append (tsv_line ["1"; "2"; "3"]) (line "Power bin data not properly retrieved").
Proof.
  eexists. split; [reflexivity|]. split; [reflexivity|].
  destruct (output_is_whole_lines
              (scripted_provider 3 true (fails_at 1 two_frames) two_iq_frames true)
              (good_platform None)) as (Hpb & _).
  destruct (Hpb 9%nat (Some a_configuration) None true 0 false _ eq_refl)
    as (_ & L & _ & S & _).
  split; [exact L|exact S].
Defined.

(** ** Cancellation of an unbounded run *)

Section Cancellation.

Context {F : FloatOps}.
Variable pv : provider.
Variable pf : platform.
Variable T : Type.
Variable get_next : nat -> option (list T).
Variable dflt : T.
Variable pr : T -> string.
Variables m1 m2 : string.
Variable fp : option string.

Hypothesis pr_not_nl : forall x, pr x <> nl.

Local Abbreviation loop := (poll_loop pv pf T get_next dflt pr m2 fp true 0).
Local Abbreviation exec := (execute pv pf T get_next dflt pr m1 m2 fp true 0).
Local Abbreviation wframe := (write_frame pv T dflt pr fp).
Local Abbreviation before cfg :=
  ([EvServiceCreate cfg true; EvGetMetadata]
   ++ EvActivate true
      :: match fp with Some p => [EvFopen p (fopen_ok pf)] | None => [] end).
Local Abbreviation after :=
  (match fp with Some _ => [EvFclose] | None => [] end
   ++ [EvDeactivate (deactivate_ok pv); EvDestroy]).
Local Abbreviation iterations k n :=
  (flat_map (fun i => read_flag pf true i ++ EvGetNext true :: wframe (polled get_next i))
            (seq k n)).

(** A poll that follows the last read of the flag that found it clear
    has its line when it succeeds. *)
Lemma unbounded_loop_tail fuel k r tr :
  loop fuel k 0 = Some (r, tr) ->
  good_polls tr = line_writes tr /\
  line_writes (after_last is_clear_read tr) = good_polls (after_last is_clear_read tr).
Proof.
  intros H.
  refine (poll_loop_cases pv pf T get_next dflt pr m2 fp true 0
            (fun k u r tr => u = 0 -> _) _ _ _ fuel k 0 r tr H eq_refl);
    clear H; clear fuel k r tr.
  - intros k u Hc ->. rewrite unbounded_condition in Hc.
    apply negb_false_iff in Hc. unfold read_flag. rewrite Hc. split; reflexivity.
  - intros k u Hc _ ->. rewrite unbounded_condition in Hc.
    apply negb_true_iff in Hc. unfold read_flag. rewrite Hc. split; reflexivity.
  - intros k u d r tr Hc _ IH ->. destruct (IH eq_refl) as [I1 I2].
    rewrite unbounded_condition in Hc. apply negb_true_iff in Hc.
    unfold read_flag. rewrite Hc. cbn [app].
    destruct (wframe_silent pv T dflt pr fp d) as (_ & _ & Gw & _).
    assert (E : forall t, good_polls (EvGetNext true :: wframe d ++ t) = S (good_polls t) /\
                          line_writes (EvGetNext true :: wframe d ++ t) = S (line_writes t)).
    { intros t. change (EvGetNext true :: wframe d ++ t) with ([EvGetNext true] ++ wframe d ++ t).
      unfold line_writes. rewrite !good_polls_app, !count_app, Gw.
      fold (line_writes (wframe d)). rewrite wframe_lines by exact pr_not_nl.
      split; reflexivity. }
    destruct (E tr) as [E1 E2]. split.
    + change (EvReadInterrupted false :: EvGetNext true :: wframe d ++ tr)
        with ([EvReadInterrupted false] ++ EvGetNext true :: wframe d ++ tr).
      unfold line_writes in *. rewrite good_polls_app, count_app, E1, E2, I1. reflexivity.
    + rewrite after_last_iteration.
      destruct (existsb is_clear_read tr); [exact I2|]. rewrite E1, E2, I1. reflexivity.
Qed.

Lemma execute_unbounded_tail fuel cfg r tr :
  exec fuel cfg = Some (r, tr) ->
  line_writes (after_last is_clear_read tr) = good_polls (after_last is_clear_read tr).
Proof.
  intros H.
  destruct (execute_output pv pf T get_next dflt pr m1 m2 fp true 0 pr_not_nl fuel cfg r tr H)
    as (_ & Hall & _).
  apply execute_cases in H.
  destruct H as [(_ & _ & ->)|[(_ & _ & _ & ->)|[(p & _ & _ & _ & _ & _ & ->)
                |[(ltr & _ & _ & Hl & _ & ->)|(ltr & _ & _ & Hl & _ & ->)]]]].
  1-3: reflexivity.
  - destruct (unbounded_loop_tail _ _ _ _ Hl) as [_ Ht].
    assert (Bc : existsb is_clear_read (before cfg) = false) by (destruct fp; reflexivity).
    destruct (existsb is_clear_read ltr) eqn:E.
    + rewrite after_last_app_r by exact E. exact Ht.
    + rewrite after_last_none by (rewrite existsb_app, Bc, E; reflexivity). exact Hall.
  - destruct (unbounded_loop_tail _ _ _ _ Hl) as [_ Ht].
    assert (Bc : existsb is_clear_read (before cfg) = false) by (destruct fp; reflexivity).
    assert (Ac : existsb is_clear_read after = false) by (destruct fp; reflexivity).
    destruct (existsb is_clear_read ltr) eqn:E.
    + rewrite after_last_app_r by (rewrite existsb_app, E; reflexivity).
      rewrite after_last_app_l by exact Ac.
      unfold line_writes in *. rewrite count_app, good_polls_app, Ht.
      destruct fp; reflexivity.
    + rewrite after_last_none
        by (rewrite (existsb_app _ (before cfg)), (existsb_app _ ltr), Bc, E, Ac; reflexivity).
      exact Hall.
Qed.

(** The iterations made while the flag is clear and the polls succeed. *)
Lemma clear_iterations j fuel :
  (forall i, (i < j)%nat -> interrupted pf i = false /\ get_next i <> None) ->
  loop (j + fuel) O 0 =
  match loop fuel j 0 with
  | Some (r, tr) => Some (r, iterations O j ++ tr)
  | None => None
  end.
Proof.
  intros Hj.
  apply (poll_loop_prefix pv pf T get_next dflt pr m2 fp true 0 (polled get_next)
           ltac:(lia) j O fuel).
  intros i Hi. destruct (Hj i ltac:(lia)) as [Hc Hg]. split.
  - rewrite unbounded_condition, Hc. reflexivity.
  - unfold polled. destruct (get_next i); [reflexivity|contradiction].
Qed.

Lemma iterations_no_clear_after d t :
  existsb is_clear_read t = false ->
  after_last is_clear_read (EvReadInterrupted false :: EvGetNext true :: wframe d ++ t)
  = EvGetNext true :: wframe d ++ t.
Proof. intros Ht. rewrite after_last_iteration, Ht. reflexivity. Qed.

(** The flag is found set by the check that follows iteration [j - 1]:
    the run is exactly [j] iterations, each with its poll and its line,
    then the deactivation; the last iteration, during which the flag
    was set at the latest, is complete. *)
Lemma execute_cancelled j fuel cfg :
  service_create_ok pv cfg = true -> activate_ok pv = true ->
  fp = None \/ fopen_ok pf = true ->
  interrupted pf j = true ->
  (forall i, (i < j)%nat -> interrupted pf i = false /\ get_next i <> None) ->
  (j < fuel)%nat ->
  exists tr,
    exec fuel cfg = Some (deactivate_ok pv, tr) /\
    poll_results tr = repeat true j /\
    line_writes tr = j /\
    sink_text tr = frame_lines pr dflt (metadata_length pv) get_next j /\
    ((0 < j)%nat ->
     poll_results (after_last is_clear_read tr) = [true] /\
     line_writes (after_last is_clear_read tr) = 1%nat /\
     sink_text (after_last is_clear_read tr)
     = frame_text pr dflt (metadata_length pv) (polled get_next (j - 1))).
Proof.
  intros Hc Ha Ho Hj Hi Hf.
  assert (Hend : forall f, loop (S f) j 0 = Some (LoopEnded, [EvReadInterrupted true])).
  { intros f. cbn [poll_loop]. rewrite unbounded_condition, Hj. cbn [negb].
    unfold read_flag. rewrite Hj. reflexivity. }
  assert (Hloop : loop fuel O 0 = Some (LoopEnded, iterations O j ++ [EvReadInterrupted true])).
  { replace fuel with (j + S (fuel - S j))%nat by lia.
    rewrite (clear_iterations j _ Hi), Hend. reflexivity. }
  rewrite (execute_polling pv pf T get_next dflt pr m1 m2 fp true 0 fuel cfg Hc Ha Ho), Hloop.
  eexists. split; [reflexivity|].
  destruct (framed_loop pv pf fp cfg (iterations O j ++ [EvReadInterrupted true]))
    as (-> & -> & -> & _).
  unfold line_writes. rewrite poll_results_app, count_app, sink_text_app.
  fold (line_writes (iterations O j)).
  rewrite (iterations_polls pv pf T dflt pr fp true (polled get_next) O j).
  rewrite (iterations_lines pv pf T dflt pr fp true pr_not_nl (polled get_next) O j).
  rewrite (iterations_text pv pf T dflt pr fp true (polled get_next) O j).
  split; [apply app_nil_r|]. split; [unfold count; simpl; lia|].
  split; [apply append_empty_r|].
  intros Hpos. destruct j as [|j]; [lia|]. clear Hpos.
  replace (S j - 1)%nat with j by lia.
  destruct (Hi j ltac:(lia)) as [Hcj _].
  assert (Bt : existsb is_clear_read ([EvReadInterrupted true] ++ after) = false)
    by (destruct fp; reflexivity).
  assert (Hw : existsb is_clear_read (wframe (polled get_next j)) = false)
    by (apply wframe_no_read; reflexivity).
  assert (Etr : (before cfg ++ (iterations O (S j) ++ [EvReadInterrupted true]) ++ after)
                = (before cfg ++ iterations O j)
                  ++ (EvReadInterrupted false :: EvGetNext true
                      :: wframe (polled get_next j) ++ [EvReadInterrupted true] ++ after)).
  { rewrite seq_S, flat_map_app. cbn [flat_map Nat.add]. unfold read_flag at 2. rewrite Hcj.
    rewrite app_nil_r, <- !app_assoc. reflexivity. }
  rewrite Etr.
  rewrite after_last_app_r
    by (cbn [existsb is_clear_read orb]; reflexivity).
  rewrite iterations_no_clear_after by exact Bt.
  cbn [poll_results sink_text]. unfold line_writes.
  rewrite poll_results_app, count_cons, count_app, sink_text_app.
  fold (line_writes (wframe (polled get_next j))).
  rewrite wframe_polls, wframe_lines, wframe_text by exact pr_not_nl.
  destruct fp; cbn; rewrite append_empty_r; repeat split.
Qed.

End Cancellation.

(** C7. The handler only sets the flag, which stays set, and a SIGINT
    handled during an iteration is seen by the check that follows it.
    In an unbounded run ([wait_for_interrupt] true, [update_count] 0)
    the flag is read once per iteration, before the poll, and every poll
    follows a read that found it clear.  Every successful poll has its
    frame line written, also the poll in flight when the flag is set:
    what follows the last read that found the flag clear is at most one
    poll and, when that poll succeeds, exactly its line; nothing is
    polled or written after a read that found the flag set.  When the
    flag is first found set by the check after [j] iterations whose
    polls succeed, the run ends with exactly [j] polls and the [j] frame
    lines, the last iteration being complete (one poll, one line, the
    text of frame [j - 1]), and the service is deactivated.  Once the
    flag is seen set the run ends in any case, with at most [j] polls
    and [j] lines. *)
Theorem C7_cooperative_cancellation {F : FloatOps} (pv : provider) (pf : platform) :
  (forall arrivals k, flag_at arrivals k <> 0 -> flag_at arrivals (S k) <> 0) /\
  (forall arrivals i, In SIGINT (arrivals (S i)) -> flag_at arrivals (S i) <> 0) /\
  all_services pv pf (fun T get_next dflt pr exec =>
    forall cfg fp,
      (forall fuel r tr,
         exec fuel cfg fp true 0 = Some (r, tr) ->
         count is_clear_read tr = List.length (poll_results tr) /\
         (count is_set_read tr <= 1)%nat /\
         (forall i, (i < List.length (poll_results tr))%nat -> interrupted pf i = false) /\
         (line_writes (after_last is_clear_read tr) <= 1)%nat /\
         (List.length (poll_results (after_last is_clear_read tr)) <= 1)%nat /\
         poll_results (after_first is_set_read tr) = [] /\
         line_writes (after_first is_set_read tr) = O /\
         line_writes tr = good_polls tr /\
         line_writes (after_last is_clear_read tr)
         = good_polls (after_last is_clear_read tr) /\
         sink_text tr = frame_lines pr dflt (metadata_length pv) get_next (good_polls tr))
      /\
      (forall j fuel,
         service_create_ok pv cfg = true -> activate_ok pv = true ->
         fp = None \/ fopen_ok pf = true ->
         interrupted pf j = true ->
         (forall i, (i < j)%nat -> interrupted pf i = false /\ get_next i <> None) ->
         (j < fuel)%nat ->
         exists tr,
           exec fuel cfg fp true 0 = Some (deactivate_ok pv, tr) /\
           poll_results tr = repeat true j /\
           line_writes tr = j /\
           sink_text tr = frame_lines pr dflt (metadata_length pv) get_next j /\
           ((0 < j)%nat ->
            poll_results (after_last is_clear_read tr) = [true] /\
            line_writes (after_last is_clear_read tr) = 1%nat /\
            sink_text (after_last is_clear_read tr)
            = frame_text pr dflt (metadata_length pv) (polled get_next (j - 1))))
      /\
      (forall j fuel,
         interrupted pf j = true -> (j < fuel)%nat ->
         exists r tr,
           exec fuel cfg fp true 0 = Some (r, tr) /\
           (List.length (poll_results tr) <= j)%nat /\
           (line_writes tr <= j)%nat)).
Proof.
  split; [exact flag_at_keeps|]. split; [exact flag_at_sigint|].
  apply all_services_intro. intros T get_next dflt pr m1 m2 Hpr cfg fp.
  split; [|split].
  - intros fuel r tr H.
    destruct (execute_unbounded pv pf T get_next dflt pr m1 m2 fp Hpr fuel cfg r tr H)
      as (A1 & A2 & A3 & A4 & A5 & A6 & A7 & _).
    destruct (execute_output pv pf T get_next dflt pr m1 m2 fp true 0 Hpr fuel cfg r tr H)
      as (_ & B1 & B2 & _).
    pose proof (execute_unbounded_tail pv pf T get_next dflt pr m1 m2 fp Hpr fuel cfg r tr H)
      as B3.
    auto 12.
  - intros j fuel Hc Ha Ho Hj Hi Hf.
    exact (execute_cancelled pv pf T get_next dflt pr m1 m2 fp Hpr j fuel cfg
             Hc Ha Ho Hj Hi Hf).
  - intros j fuel Hj Hf.
    pose proof (execute_unbounded_ends pv pf T get_next dflt pr m1 m2 fp j fuel cfg Hj Hf)
      as Hn.
    destruct (execute pv pf T get_next dflt pr m1 m2 fp true 0 fuel cfg) as [[r tr]|] eqn:H;
      [|contradiction].
    exists r, tr. split; [reflexivity|].
    destruct (execute_unbounded pv pf T get_next dflt pr m1 m2 fp Hpr fuel cfg r tr H)
      as (_ & _ & _ & _ & _ & _ & A7 & _).
    assert (Hp : (List.length (poll_results tr) <= j)%nat).
    { destruct (Nat.le_gt_cases (List.length (poll_results tr)) j) as [Hle|Hgt];
        [exact Hle|]. rewrite (A7 j Hgt) in Hj. discriminate. }
    split; [exact Hp|].
    destruct (execute_shape pv pf T get_next dflt pr m1 m2 fp true 0 Hpr fuel cfg r tr H)
      as (failed & Hs & _).
    rewrite Hs, length_app, repeat_length in Hp. lia.
Qed.

Lemma C7_cooperative_cancellation_witness :
  let pv := scripted_provider 3 true two_frames two_iq_frames true in
  let pf := signalled_platform (sigint_during 1) in
  In SIGINT (sigint_during 1 2) /\
  flag_at (sigint_during 1) 2 <> 0 /\
  interrupted pf 1 = false /\ interrupted pf 2 = true /\
  exists tr,
    execute_power_bin pv pf 5 (Some a_configuration) None true 0 = Some (true, tr) /\
    poll_results tr = [true; true] /\
    line_writes tr = 2%nat /\
    sink_text tr = append (tsv_line ["1"; "2"; "3"]) (tsv_line ["4"; "5"; "6"]) /\
    poll_results (after_last is_clear_read tr) = [true] /\
    sink_text (after_last is_clear_read tr) = tsv_line ["4"; "5"; "6"] /\
    line_writes (after_first is_set_read tr) = O.
Proof.
  intros pv pf.
  assert (Hin : In SIGINT (sigint_during 1 2)) by (left; reflexivity).
  destruct (C7_cooperative_cancellation pv pf) as (_ & Hsig & Hpb & _).
  destruct (Hpb (Some a_configuration) None) as (Hrun & Hexact & _).
  split; [exact Hin|]. split; [exact (Hsig (sigint_during 1) 1%nat Hin)|].
  split; [reflexivity|]. split; [reflexivity|].
  assert (Hclear : forall i, (i < 2)%nat ->
            interrupted pf i = false /\ power_bins_get_next pv i <> None).
  { intros i Hi. destruct i as [|[|i]]; [split; [reflexivity|discriminate]..|lia]. }
  destruct (Hexact 2%nat 5%nat eq_refl eq_refl (or_introl eq_refl) eq_refl Hclear ltac:(lia))
    as (tr & E & P & L & S & Hlast).
  destruct (Hlast ltac:(lia)) as (P1 & _ & S1).
  destruct (Hrun 5%nat true tr E) as (_ & _ & _ & _ & _ & _ & A7 & _).
  exists tr. split; [exact E|]. split; [exact P|]. split; [exact L|].
  split; [exact S|]. split; [exact P1|]. split; [exact S1|exact A7].
Defined.

(** ** The sweep count, modulo 2^16 *)

Lemma parse_type_then_count {F : FloatOps} pf t c input0 input :
  fst (parse_options pf [("t"%char, t); ("c"%char, c)] input0) = Returned true input ->
  wait_for_interrupt input = false /\ update_count input = uint16 (atoi c).
Proof.
  cbn [parse_options]. change (is_opt "t" "t") with true. cbv iota.
  change (is_opt "c" "t") with false. change (is_opt "c" "c") with true. cbv iota.
  destruct (atoi t) as [|[p|[p|p|]|]|p]; cbn [fst];
    try discriminate; intros H; injection H as <-; split; reflexivity.
Qed.

Section SweepCount.

Context {F : FloatOps}.
Variable pv : provider.
Variable pf : platform.

(** A successful parse has selected a service. *)
Lemma parse_options_valid_type opts : forall input0 input tp,
  parse_options pf opts input0 = (Returned true input, tp) ->
  service_type input <> INVALID_SERVICE.
Proof.
  induction opts as [|[c a] rest IH]; intros input0 input tp H.
  - simpl in H. destruct (service_type input0) eqn:E; try discriminate H;
      injection H as <- <-; rewrite E; discriminate.
  - apply parse_options_success in H as (_ & _ & _ & input1 & tp1 & H & _).
    exact (IH _ _ _ H).
Qed.

(** The value left by the last sweep-count option. *)
Lemma parse_options_last_count o1 a o2 input0 input tp :
  (forall c' a', In (c', a') o2 -> c' <> "c"%char) ->
  parse_options pf (o1 ++ ("c"%char, a) :: o2) input0 = (Returned true input, tp) ->
  update_count input = atoi a mod 2 ^ 16 /\
  0 <= update_count input < 2 ^ 16 /\
  wait_for_interrupt input = false.
Proof.
  intros Hno H.
  apply parse_options_suffix in H as (input1 & tp1 & H).
  apply parse_options_success in H as (_ & _ & _ & input2 & tp2 & H & _ & _ & Hc & _).
  destruct (parse_options_no_count pf o2 Hno _ _ _ _ H) as [-> ->].
  rewrite (Hc eq_refl). cbn [update_count wait_for_interrupt set_wait_for_interrupt
                              set_update_count].
  split; [reflexivity|]. split; [|reflexivity].
  unfold uint16. apply Z.mod_pos_bound. reflexivity.
Qed.

(** A service type followed by a sweep count is parsed with success. *)
Lemma parse_type_and_count t a :
  0 <= atoi t <= 2 ->
  parse_options pf [("t"%char, t); ("c"%char, a)] initialize_input
  = (Returned true
       (set_wait_for_interrupt false
          (set_update_count (atoi a mod 2 ^ 16)
             (set_service_type (service_of (atoi t)) initialize_input))), []).
Proof.
  intros Ht. cbn [parse_options]. change (is_opt "t" "t") with true. cbv iota.
  change (is_opt "c" "t") with false. change (is_opt "c" "c") with true. cbv iota.
  destruct (atoi t) as [|[p|[p|p|]|]|p]; try lia; reflexivity.
Qed.

(** With the counter at 0 and without [wait_for_interrupt] the loop is
    not entered: the flag is not read, nothing is polled or written, and
    a run that reached the loop goes on to deactivate and destroy. *)
Lemma execute_zero_count_cycle T get_next dflt pr m1 m2 fp fuel cfg :
  exists r tr,
    execute pv pf T get_next dflt pr m1 m2 fp false 0 (S fuel) cfg = Some (r, tr) /\
    poll_results tr = [] /\ line_writes tr = O /\ count is_flag_read tr = O /\
    (service_create_ok pv cfg = true -> activate_ok pv = true ->
     fp = None \/ fopen_ok pf = true ->
     r = deactivate_ok pv /\ count is_activate tr = 1%nat /\
     count is_deactivate tr = 1%nat /\ count is_destroy tr = 1%nat).
Proof.
  unfold execute.
  destruct (service_create_ok pv cfg).
  2:{ do 2 eexists. split; [reflexivity|]. split; [reflexivity|]. split; [reflexivity|].
      split; [reflexivity|]. intros X. discriminate X. }
  destruct (activate_ok pv).
  2:{ do 2 eexists. split; [reflexivity|]. split; [reflexivity|]. split; [reflexivity|].
      split; [reflexivity|]. intros _ X. discriminate X. }
  destruct fp as [p|]; [destruct (fopen_ok pf)|];
    do 2 eexists; (split; [reflexivity|]); (split; [reflexivity|]);
    (split; [reflexivity|]); (split; [reflexivity|]); intros _ _ Ho;
    first [ destruct Ho as [X|X]; discriminate X | repeat split ].
Qed.

(** When start-up succeeds, [main] runs the selected service on the
    configuration it built. *)
Lemma main_reaches_execute fuel opts input tp :
  hal_init_ok pf = true -> rss_activate_ok pf = true ->
  parse_options pf opts initialize_input = (Returned true input, tp) ->
  configuration_create_ok pv (service_type input) = true ->
  exists T get_next dflt pr m1 m2 c pre post,
    (forall x : T, pr x <> nl) /\
    forallb main_event pre = true /\
    (forall r : bool, forallb main_event (post r) = true) /\
    main pv pf fuel opts =
    match execute pv pf T get_next dflt pr m1 m2 (file_path input)
            (wait_for_interrupt input) (update_count input) fuel (Some c) with
    | Some (r, te) =>
        Some (if r then EXIT_SUCCESS else EXIT_FAILURE, pre ++ te ++ post r)
    | None => None
    end.
Proof.
  intros Hh Hr Hp Hc.
  pose proof (parse_options_events pf opts initialize_input) as Hpe.
  pose proof (parse_options_valid_type _ _ _ _ Hp) as Hv.
  destruct (set_up_events pv input) as (Hpb & Hen & Hiq).
  unfold main. rewrite Hh, Hp, Hr. cbn [negb]. rewrite Hp in Hpe. cbn [snd] in Hpe.
  assert (Ht1 : forall ts, forallb main_event ts = true ->
            forallb main_event
              (([EvSignal; EvHalInit true] ++ tp ++ [EvRssActivate (log_level input) true])
               ++ ts) = true).
  { intros ts Hts. simpl. rewrite !forallb_app, Hpe, Hts. reflexivity. }
  destruct (service_type input) eqn:Est; [contradiction| | |].
  - destruct (set_up_power_bin pv input) as [[c|] ts] eqn:Es; cbn [snd] in Hpb.
    2:{ unfold set_up_power_bin in Es. rewrite Hc in Es. discriminate Es. }
    exists Z, (power_bins_get_next pv), 0, fprintf_power_bin,
      (line "acc_service_create failed"), (line "Power bin data not properly retrieved"), c,
      (([EvSignal; EvHalInit true] ++ tp ++ [EvRssActivate (log_level input) true]) ++ ts),
      (fun r : bool => free_file_path input ++
         if r then [EvConfigurationDestroy POWER_BIN; EvRssDeactivate]
         else [EvPrintf (line "execute_power_bin() failed")]).
    split; [apply fprintf_power_bin_not_nl|].
    split; [apply Ht1; exact Hpb|].
    split; [intros []; rewrite forallb_app, free_file_path_events; reflexivity|].
    unfold execute_power_bin.
    destruct (execute _ _ _ _ _ _ _ _ _ _ _ _ _) as [[[|] te]|];
      rewrite <- ?app_assoc; reflexivity.
  - destruct (set_up_envelope pv input) as [[c|] ts] eqn:Es; cbn [snd] in Hen.
    2:{ unfold set_up_envelope in Es. rewrite Hc in Es. discriminate Es. }
    exists Z, (envelope_get_next pv), 0, fprintf_envelope,
      (line "acc_Service_create failed"), (line "Envelope data not properly retrieved"), c,
      (([EvSignal; EvHalInit true] ++ tp ++ [EvRssActivate (log_level input) true]) ++ ts),
      (fun r : bool => free_file_path input ++
         if r then [EvConfigurationDestroy ENVELOPE; EvRssDeactivate]
         else [EvPrintf (line "execute_envelope() failed")]).
    split; [apply fprintf_envelope_not_nl|].
    split; [apply Ht1; exact Hen|].
    split; [intros []; rewrite forallb_app, free_file_path_events; reflexivity|].
    unfold execute_envelope.
    destruct (execute _ _ _ _ _ _ _ _ _ _ _ _ _) as [[[|] te]|];
      rewrite <- ?app_assoc; reflexivity.
  - destruct (set_up_iq pv input) as [[c|] ts] eqn:Es; cbn [snd] in Hiq.
    2:{ unfold set_up_iq in Es. rewrite Hc in Es. discriminate Es. }
    exists (float * float)%type, (iq_get_next pv), (float_of_Q 0, float_of_Q 0), fprintf_iq,
      (line "acc_service_create failed"), (line "IQ data not properly retrieved"), c,
      (([EvSignal; EvHalInit true] ++ tp ++ [EvRssActivate (log_level input) true]) ++ ts),
      (fun r : bool => free_file_path input ++
         if r then [EvConfigurationDestroy IQ; EvRssDeactivate]
         else [EvPrintf (line "execute_iq() failed")]).
    split; [apply fprintf_iq_not_nl|].
    split; [apply Ht1; exact Hiq|].
    split; [intros []; rewrite forallb_app, free_file_path_events; reflexivity|].
    unfold execute_iq.
    destruct (execute _ _ _ _ _ _ _ _ _ _ _ _ _) as [[[|] te]|];
      rewrite <- ?app_assoc; reflexivity.
Qed.

(** [main] with a sweep count that is 0 modulo 2^16. *)
Lemma main_zero_count t a fuel :
  atoi a mod 2 ^ 16 = 0 ->
  exists st tr,
    main pv pf (S fuel) [("t"%char, t); ("c"%char, a)] = Some (st, tr) /\
    poll_results tr = [] /\ line_writes tr = O /\ count is_flag_read tr = O.
Proof.
  intros Ha.
  destruct (main_run pv pf (S fuel) [("t"%char, t); ("c"%char, a)])
    as [(tr & E & Hq)
       |(T & gn & dflt & pr & m1 & m2 & input & cfg & pre & post & _ & Hpre & Hpost & Hp & E)].
  - exists EXIT_FAILURE, tr. split; [exact E|]. split; [|split].
    + apply (poll_results_quiet main_event); [exact Hq|intros []; simpl; congruence].
    + apply (count_quiet main_event); [exact Hq|intros []; simpl; congruence].
    + apply (count_quiet main_event); [exact Hq|intros []; simpl; congruence].
  - apply parse_type_then_count in Hp as [Hw Hu].
    change (uint16 (atoi a)) with (atoi a mod 2 ^ 16) in Hu. rewrite Hw, Hu, Ha in E.
    destruct (execute_zero_count_cycle T gn dflt pr m1 m2 (file_path input) fuel cfg)
      as (r & te & Ee & P & L & R & _).
    rewrite Ee in E. do 2 eexists. split; [exact E|].
    rewrite (wrapped_polls pre te _ Hpre (Hpost r)).
    rewrite (wrapped_lines pre te _ Hpre (Hpost r)).
    rewrite (wrapped_count pre te _ Hpre (Hpost r) is_flag_read)
      by (intros []; simpl; congruence).
    split; [exact P|]. split; [exact L|exact R].
Qed.

(** The same when start-up, the service creation and the activation
    succeed: the service is activated and deactivated at once. *)
Lemma main_zero_count_cycle t a fuel :
  0 <= atoi t <= 2 -> atoi a mod 2 ^ 16 = 0 ->
  hal_init_ok pf = true -> rss_activate_ok pf = true ->
  configuration_create_ok pv (service_of (atoi t)) = true ->
  (forall c, service_create_ok pv (Some c) = true) -> activate_ok pv = true ->
  exists tr,
    main pv pf (S fuel) [("t"%char, t); ("c"%char, a)]
    = Some (if deactivate_ok pv then EXIT_SUCCESS else EXIT_FAILURE, tr) /\
    poll_results tr = [] /\ line_writes tr = O /\ count is_flag_read tr = O /\
    count is_activate tr = 1%nat /\ count is_deactivate tr = 1%nat.
Proof.
  intros Ht Ha Hh Hr Hc Hs Hact.
  pose proof (parse_type_and_count t a Ht) as Hp. rewrite Ha in Hp.
  destruct (main_reaches_execute (S fuel) _ _ _ Hh Hr Hp Hc)
    as (T & gn & dflt & pr & m1 & m2 & c & pre & post & _ & Hpre & Hpost & E).
  cbn [file_path wait_for_interrupt update_count set_wait_for_interrupt set_update_count
       set_service_type initialize_input] in E.
  destruct (execute_zero_count_cycle T gn dflt pr m1 m2 None fuel (Some c))
    as (r & te & Ee & P & L & R & Hcycle).
  destruct (Hcycle (Hs c) Hact (or_introl eq_refl)) as (-> & Ca & Cd & _).
  rewrite Ee in E. eexists. split; [exact E|].
  rewrite (wrapped_polls pre te _ Hpre (Hpost _)).
  rewrite (wrapped_lines pre te _ Hpre (Hpost _)).
  rewrite !(wrapped_count pre te _ Hpre (Hpost _)) by (intros []; simpl; congruence).
  auto.
Qed.

End SweepCount.

(** C10. The sweep-count option stores [atoi] of its value modulo 2^16
    in the 16-bit counter and clears [wait_for_interrupt]: after a
    successful parse the input holds the value of the last such option
    modulo 2^16, and a service type followed by a sweep count is parsed
    with success.  The values 0 and 65536 both give the counter 0 (and
    65537 gives 1).  With the counter at 0 and [wait_for_interrupt]
    cleared the loop is not entered: every run ends at once without
    reading the interrupt flag, polling or writing a line, and when
    start-up, creation and activation succeed the service is activated,
    deactivated at once and [main] returns the status of the
    deactivation. *)
Theorem C10_sweep_count_wraps {F : FloatOps} (pv : provider) (pf : platform) :
  (forall optarg rest input,
     parse_options pf (("c"%char, optarg) :: rest) input =
     parse_options pf rest
       (set_wait_for_interrupt false (set_update_count (atoi optarg mod 2 ^ 16) input)))
  /\ (forall o1 a o2 input0 input tp,
        (forall c' a', In (c', a') o2 -> c' <> "c"%char) ->
        parse_options pf (o1 ++ ("c"%char, a) :: o2) input0 = (Returned true input, tp) ->
        update_count input = atoi a mod 2 ^ 16 /\
        0 <= update_count input < 2 ^ 16 /\
        wait_for_interrupt input = false)
  /\ (forall t a,
        0 <= atoi t <= 2 ->
        exists input,
          parse_options pf [("t"%char, t); ("c"%char, a)] initialize_input
          = (Returned true input, []) /\
          service_type input = service_of (atoi t) /\
          update_count input = atoi a mod 2 ^ 16 /\
          wait_for_interrupt input = false)
  /\ atoi "0" mod 2 ^ 16 = 0
  /\ atoi "65536" = 65536 /\ atoi "65536" mod 2 ^ 16 = 0
  /\ atoi "65537" mod 2 ^ 16 = 1
  /\ all_services pv pf (fun T get_next dflt pr exec =>
       forall fuel cfg fp,
       exists r tr,
         exec (S fuel) cfg fp false 0 = Some (r, tr) /\
         poll_results tr = [] /\ line_writes tr = O /\ count is_flag_read tr = O /\
         (service_create_ok pv cfg = true -> activate_ok pv = true ->
          fp = None \/ fopen_ok pf = true ->
          r = deactivate_ok pv /\ count is_activate tr = 1%nat /\
          count is_deactivate tr = 1%nat /\ count is_destroy tr = 1%nat))
  /\ (forall t a fuel,
        atoi a mod 2 ^ 16 = 0 ->
        exists st tr,
          main pv pf (S fuel) [("t"%char, t); ("c"%char, a)] = Some (st, tr) /\
          poll_results tr = [] /\ line_writes tr = O /\ count is_flag_read tr = O)
  /\ (forall t a fuel,
        0 <= atoi t <= 2 -> atoi a mod 2 ^ 16 = 0 ->
        hal_init_ok pf = true -> rss_activate_ok pf = true ->
        configuration_create_ok pv (service_of (atoi t)) = true ->
        (forall c, service_create_ok pv (Some c) = true) -> activate_ok pv = true ->
        exists tr,
          main pv pf (S fuel) [("t"%char, t); ("c"%char, a)]
          = Some (if deactivate_ok pv then EXIT_SUCCESS else EXIT_FAILURE, tr) /\
          poll_results tr = [] /\ line_writes tr = O /\ count is_flag_read tr = O /\
          count is_activate tr = 1%nat /\ count is_deactivate tr = 1%nat).
Proof.
  split; [reflexivity|].
  split; [intros o1 a o2 input0 input tp; apply parse_options_last_count|].
  split.
  { intros t a Ht. eexists. split; [apply (parse_type_and_count pf t a Ht)|].
    repeat split. }
  split; [reflexivity|]. split; [reflexivity|]. split; [reflexivity|].
  split; [reflexivity|].
  split; [|split].
  - apply all_services_intro. intros T get_next dflt pr m1 m2 _ fuel cfg fp.
    apply execute_zero_count_cycle.
  - intros t a fuel. apply main_zero_count.
  - intros t a fuel. apply main_zero_count_cycle.
Qed.

Lemma C10_sweep_count_wraps_witness :
  let pv := scripted_provider 3 true two_frames two_iq_frames true in
  let pf := good_platform None in
  atoi "65536" mod 2 ^ 16 = 0 /\
  (exists input,
     parse_options pf [("t"%char, "0"); ("c"%char, "65537")] initialize_input
     = (Returned true input, []) /\
     update_count input = 1 /\ wait_for_interrupt input = false) /\
  (exists tr,
     main pv pf 1 [("t"%char, "0"); ("c"%char, "65536")] = Some (EXIT_SUCCESS, tr) /\
     poll_results tr = [] /\ line_writes tr = O /\
     count is_activate tr = 1%nat /\ count is_deactivate tr = 1%nat).
Proof.
  intros pv pf.
  destruct (C10_sweep_count_wraps pv pf) as (_ & _ & Hparse & _ & _ & H0 & _ & _ & _ & Hmain).
  assert (Ht : 0 <= atoi "0" <= 2) by (change (0 <= 0 <= 2); lia).
  split; [exact H0|]. split.
  - destruct (Hparse "0" "65537" Ht) as (input & E & _ & U & W).
    exists input. split; [exact E|]. split; [exact U|exact W].
  - destruct (Hmain "0" "65536" O Ht H0 eq_refl eq_refl eq_refl (fun c => eq_refl) eq_refl)
      as (tr & E & P & L & _ & A & D).
    exists tr. split; [exact E|]. split; [exact P|]. split; [exact L|].
    split; [exact A|exact D].
Defined.
